(** * secure-biometric: the feature / gating / matching core, embedded in Rocq

    The Python sources under [src/biometric] are embedded function by
    function.  Numbers: a Python [float] / numpy [float64] is modelled by
    the type [float] below, the IEEE 754 value set with exact arithmetic on
    the finite values (no rounding, no overflow, one zero) and the standard's
    rules for the infinities and NaN.  Python dictionaries that are only
    looked up are [gmap string _]; dictionaries whose iteration order is
    observable are association lists; exceptions are an error monad. *)

From stdpp Require Import base decidable option list gmap strings.
From Stdlib Require Import ZArith Reals Lra Lia.

Open Scope R_scope.

(* ===================================================================== *)
(** ** Floating-point values *)
(* ===================================================================== *)

#[global] Instance Rlt_decision : RelDecision Rlt := Rlt_dec.
#[global] Instance Rle_decision : RelDecision Rle := Rle_dec.
#[global] Instance Rgt_decision : RelDecision Rgt := Rgt_dec.
#[global] Instance Rge_decision : RelDecision Rge := Rge_dec.
#[global] Instance Req_decision : EqDecision R := Req_dec_T.

Module Float.

(** [Inf false] is +inf, [Inf true] is -inf. *)
Inductive float : Type :=
| Fin (x : R)
| Inf (negative : bool)
| NaN.

Abbreviation PInf := (Inf false).
Abbreviation NInf := (Inf true).

Definition is_nan (a : float) : bool :=
  match a with NaN => true | _ => false end.

Definition is_finite (a : float) : bool :=
  match a with Fin _ => true | _ => false end.

Definition neg (a : float) : float :=
  match a with
  | Fin x => Fin (- x)
  | Inf s => Inf (negb s)
  | NaN => NaN
  end.

Definition add (a b : float) : float :=
  match a, b with
  | NaN, _ | _, NaN => NaN
  | Fin x, Fin y => Fin (x + y)
  | Fin _, Inf s | Inf s, Fin _ => Inf s
  | Inf s, Inf t => if bool_decide (s = t) then Inf s else NaN
  end.

Definition sub (a b : float) : float := add a (neg b).

Definition mul (a b : float) : float :=
  match a, b with
  | NaN, _ | _, NaN => NaN
  | Fin x, Fin y => Fin (x * y)
  | Fin x, Inf s | Inf s, Fin x =>
      if bool_decide (x = 0) then NaN else Inf (xorb s (bool_decide (x < 0)))
  | Inf s, Inf t => Inf (xorb s t)
  end.

(** IEEE division, the one numpy performs: a zero divisor gives an
    infinity, or NaN for 0/0, and no exception. *)
Definition div (a b : float) : float :=
  match a, b with
  | NaN, _ | _, NaN => NaN
  | Fin x, Fin y =>
      if bool_decide (y = 0)
      then (if bool_decide (x = 0) then NaN else Inf (bool_decide (x < 0)))
      else Fin (x / y)
  | Fin _, Inf _ => Fin 0
  | Inf s, Fin y => Inf (xorb s (bool_decide (y < 0)))
  | Inf _, Inf _ => NaN
  end.

Definition abs (a : float) : float :=
  match a with
  | Fin x => Fin (Rabs x)
  | Inf _ => PInf
  | NaN => NaN
  end.

Definition sqrt (a : float) : float :=
  match a with
  | Fin x => if bool_decide (x < 0) then NaN else Fin (R_sqrt.sqrt x)
  | Inf false => PInf
  | Inf true => NaN
  | NaN => NaN
  end.

(** Comparisons: every comparison with NaN is false. *)
Definition ltb (a b : float) : bool :=
  match a, b with
  | NaN, _ | _, NaN => false
  | Fin x, Fin y => bool_decide (x < y)
  | Fin _, Inf s => negb s
  | Inf s, Fin _ => s
  | Inf s, Inf t => s && negb t
  end.

Definition gtb (a b : float) : bool := ltb b a.

Definition eqb (a b : float) : bool :=
  match a, b with
  | Fin x, Fin y => bool_decide (x = y)
  | Inf s, Inf t => bool_decide (s = t)
  | _, _ => false
  end.

Definition leb (a b : float) : bool := ltb a b || eqb a b.
Definition geb (a b : float) : bool := leb b a.

Definition of_Z (n : Z) : float := Fin (IZR n).
Definition of_nat (n : nat) : float := Fin (INR n).

End Float.
Export Float.

Declare Scope float_scope.
Delimit Scope float_scope with float.
Bind Scope float_scope with float.
Infix "+" := add : float_scope.
Infix "-" := sub : float_scope.
Infix "*" := mul : float_scope.
Infix "/" := div : float_scope.
Infix "<?" := ltb : float_scope.
Infix ">?" := gtb : float_scope.
Infix "<=?" := leb : float_scope.
Infix ">=?" := geb : float_scope.
Infix "=?" := eqb : float_scope.

(* ===================================================================== *)
(** ** Python and numpy primitives *)
(* ===================================================================== *)

Inductive exn : Type :=
| ZeroDivisionError
| KeyError (key : string)
| IndexError
| ValueError
| LibraryError (library : string).

(** The outcome of a call: a value, or a raised exception. *)
Inductive result (A : Type) : Type :=
| Ok (a : A)
| Raise (e : exn).
Arguments Ok {A} a.
Arguments Raise {A} e.

(** stdpp's [x ← m; k] notation reads as the sequencing of statements. *)
#[global] Instance result_ret : MRet result := @Ok.
#[global] Instance result_bind : MBind result := λ A B k m,
  match m with
  | Ok a => k a
  | Raise e => Raise e
  end.

Definition is_ok {A} (m : result A) : bool :=
  match m with Ok _ => true | Raise _ => false end.

Module Py.

(** [a / b] on Python floats: a zero divisor raises. *)
Definition truediv (a b : float) : result float :=
  if (b =? Fin 0)%float then Raise ZeroDivisionError else Ok (a / b)%float.

(** The builtin [max(a, b)]: the first argument is kept unless the second
    is strictly greater. *)
Definition max (a b : float) : float :=
  if (b >? a)%float then b else a.

(** [d[key]] on a dictionary. *)
Definition getitem {V} (d : gmap string V) (key : string) : result V :=
  match d !! key with
  | Some v => Ok v
  | None => Raise (KeyError key)
  end.

(** [a[i]] on a sequence (non-negative index). *)
Definition index {A} (l : list A) (i : nat) : result A :=
  match l !! i with
  | Some v => Ok v
  | None => Raise IndexError
  end.

(** The builtin [max(iterable)]: the first of the greatest items; an
    empty iterable raises. *)
Definition max_of (l : list float) : result float :=
  match l with
  | [] => Raise ValueError
  | x :: l' => Ok (foldl max x l')
  end.

(** [max(iterable, key=key)] *)
Definition max_by {A} (key : A → float) (l : list A) : result A :=
  match l with
  | [] => Raise ValueError
  | x :: l' =>
      Ok (foldl (λ best y, if (key y >? key best)%float then y else best) x l')
  end.

(** [\[f(x) for x in l\]] with a body that may raise. *)
Fixpoint mapM {A B} (f : A → result B) (l : list A) : result (list B) :=
  match l with
  | [] => Ok []
  | x :: l' => y ← f x; ys ← mapM f l'; Ok (y :: ys)
  end.

(** A loop that threads a value through a body that may raise. *)
Fixpoint foldM {A B} (f : B → A → result B) (b : B) (l : list A) : result B :=
  match l with
  | [] => Ok b
  | x :: l' => b' ← f b x; foldM f b' l'
  end.


End Py.

Module Np.

(** [np.sum] and [np.mean] over a one-dimensional array. *)
Definition sum (l : list float) : float := foldl add (Fin 0) l.

Definition mean (l : list float) : float :=
  (sum l / of_nat (length l))%float.

(** [np.linalg.norm] of a vector. *)
Definition norm (l : list float) : float :=
  Float.sqrt (sum (map (λ x, x * x)%float l)).

(** [np.std]: the population standard deviation. *)
Definition std (l : list float) : float :=
  let m := mean l in
  Float.sqrt (mean (map (λ x, abs (x - m) * abs (x - m))%float l)).

(** [np.arccos] and [np.degrees] *)
Definition arccos (a : float) : float :=
  match a with
  | Fin x => if bool_decide (-1 <= x <= 1) then Fin (acos x) else NaN
  | _ => NaN
  end.

Definition degrees (a : float) : float := (a * Fin (180 / PI))%float.

(** The warnings of numpy's floating-point error handling for [a / b]:
    "divide by zero encountered" and "invalid value encountered". *)
Inductive warning : Type := DivideByZero | InvalidValue.

Definition divide_warning (a b : float) : option warning :=
  match a, b with
  | Fin x, Fin y =>
      if bool_decide (y = 0)
      then Some (if bool_decide (x = 0) then InvalidValue else DivideByZero)
      else None
  | Inf _, Inf _ => Some InvalidValue
  | _, _ => None
  end.

(** [np.maximum] / [np.minimum] on two scalars propagate NaN. *)
Definition maximum (a b : float) : float :=
  if is_nan a then a else if is_nan b then b
  else if (a <? b)%float then b else a.

Definition minimum (a b : float) : float :=
  if is_nan a then a else if is_nan b then b
  else if (b <? a)%float then b else a.

(** [np.max] / [np.min]: a zero-size array raises. *)
Definition max (l : list float) : result float :=
  match l with
  | [] => Raise ValueError
  | x :: l' => Ok (foldl maximum x l')
  end.

Definition min (l : list float) : result float :=
  match l with
  | [] => Raise ValueError
  | x :: l' => Ok (foldl minimum x l')
  end.

(** [np.ptp]: the range of the values; a zero-size array raises. *)
Definition ptp (l : list float) : result float :=
  hi ← max l; lo ← min l; Ok (hi - lo)%float.

End Np.

(* ===================================================================== *)
(** ** auth/biometric_auth.py: [BiometricAuthenticator] *)
(* ===================================================================== *)

Module BiometricAuthenticator.

(** One entry of [profile\["geometry"\]]. *)
Record geometry_stats : Type := {
  g_mean : float; g_std : float; g_min : float; g_max : float }.

(** One entry of [profile\["pose"\]]. *)
Record pose_stats : Type := {
  a_mean : float; a_std : float; a_range : float }.

(** A colour sample: the three channels, as [cv2.mean(...)\[:3\]] and
    [np.mean(color_array, axis=0).tolist()] produce them. *)
Definition bgr : Type := float * float * float.

Record color_stats : Type := { c_mean : bgr; c_std : bgr }.

(** A stored profile: a dictionary with the entries "geometry", "pose"
    and "color"; [None] is a missing entry or a stored [None].  The
    geometry entry keeps its insertion order, which [items()] and
    [keys()] expose. *)
Record profile : Type := {
  geometry : option (list (string * geometry_stats));
  pose : option (gmap string pose_stats);
  color : option color_stats }.

(** The live feature set. *)
Record live_data : Type := {
  cur_geometry : option (gmap string float);
  cur_pose : option (gmap string float);
  cur_color : option bgr }.

(** The result dictionary of one category. *)
Inductive category_result : Type :=
| MissingCategory (match_score : float) (error : string)
| GeometryResult (match_score : float) (metric_scores : list (string * float))
| PoseResult (match_score : float) (axis_scores : list (string * float))
| ColorResult (match_score : float) (color_difference : float).

Definition match_score_of (r : category_result) : float :=
  match r with
  | MissingCategory s _ | GeometryResult s _ | PoseResult s _ | ColorResult s _ => s
  end.

(** The second component of [verify_biometric]'s result. *)
Inductive verify_info : Type :=
| ErrorInfo (error : string)
| ScoreInfo (overall_score : float)
            (details : category_result * category_result * category_result).

(** The thresholds [__init__] installs when none (or an empty dictionary)
    is given. *)
Definition default_tolerance_thresholds : gmap string float :=
  list_to_map [
    ("eye_distance", Fin 0.1); ("mouth_width", Fin 0.15);
    ("nose_to_chin", Fin 0.1);
    ("width_ratio_temple_jaw", Fin 0.05); ("width_ratio_cheek_jaw", Fin 0.05);
    ("height_ratio_nose_face", Fin 0.05); ("face_width_height_ratio", Fin 0.05);
    ("nose_angle", Fin 5); ("left_eye_angle", Fin 5);
    ("right_eye_angle", Fin 5); ("mouth_symmetry_angle", Fin 5);
    ("pitch", Fin 15); ("yaw", Fin 15); ("roll", Fin 15);
    ("color_tolerance", Fin 25) ]%string.

Definition init (tolerance_thresholds : option (gmap string float))
  : gmap string float :=
  match tolerance_thresholds with
  | Some t => if bool_decide (t = ∅) then default_tolerance_thresholds else t
  | None => default_tolerance_thresholds
  end.

Section methods.
(** [self.tolerance_thresholds] *)
Variable tolerance_thresholds : gmap string float.

(** The body of the loop of [_verify_geometry] for a metric the live
    data has. *)
Definition geometry_match_score (metric : string)
    (profile_values : geometry_stats) (current_value : float) : result float :=
  let threshold := default (Fin 0.1) (tolerance_thresholds !! metric) in
  let diff := abs (current_value - g_mean profile_values) in
  let max_allowed_diff := (g_mean profile_values * threshold)%float in
  q ← Py.truediv diff max_allowed_diff;
  Ok (Py.max (Fin 0) (Fin 1 - q)).

(** The loop of [_verify_geometry]: the list [matches]. *)
Fixpoint geometry_matches (items : list (string * geometry_stats))
    (current_geometry : gmap string float) : result (list float) :=
  match items with
  | [] => Ok []
  | (metric, profile_values) :: items' =>
      match current_geometry !! metric with
      | None => geometry_matches items' current_geometry
      | Some current_value =>
          match_score ← geometry_match_score metric profile_values current_value;
          matches ← geometry_matches items' current_geometry;
          Ok (match_score :: matches)
      end
  end.

Definition _verify_geometry
    (profile_geometry : option (list (string * geometry_stats)))
    (current_geometry : option (gmap string float)) : result category_result :=
  match profile_geometry, current_geometry with
  | Some pg, Some cg =>
      if bool_decide (pg = []) || bool_decide (cg = ∅)
      then Ok (MissingCategory (Fin 0) "Missing geometry data")
      else
        matches ← geometry_matches pg cg;
        Ok (GeometryResult
              (if bool_decide (matches = []) then Fin 0 else Np.mean matches)
              (zip (map fst pg) matches))
  | _, _ => Ok (MissingCategory (Fin 0) "Missing geometry data")
  end.

(** The loop of [_verify_pose] over ["pitch", "yaw", "roll"]. *)
Fixpoint pose_matches (axes : list string)
    (profile_pose : gmap string pose_stats)
    (current_pose : gmap string float) : result (list float) :=
  match axes with
  | [] => Ok []
  | axis :: axes' =>
      match current_pose !! axis, profile_pose !! axis with
      | Some cur, Some st =>
          threshold ← Py.getitem tolerance_thresholds axis;
          let diff := abs (cur - a_mean st) in
          q ← Py.truediv diff threshold;
          matches ← pose_matches axes' profile_pose current_pose;
          Ok (Py.max (Fin 0) (Fin 1 - q) :: matches)
      | _, _ => pose_matches axes' profile_pose current_pose
      end
  end.

Definition _verify_pose
    (profile_pose : option (gmap string pose_stats))
    (current_pose : option (gmap string float)) : result category_result :=
  match profile_pose, current_pose with
  | Some pp, Some cp =>
      if bool_decide (pp = ∅) || bool_decide (cp = ∅)
      then Ok (MissingCategory (Fin 0) "Missing pose data")
      else
        matches ← pose_matches ["pitch"; "yaw"; "roll"]%string pp cp;
        Ok (PoseResult
              (if bool_decide (matches = []) then Fin 0 else Np.mean matches)
              (zip ["pitch"; "yaw"; "roll"]%string matches))
  | _, _ => Ok (MissingCategory (Fin 0) "Missing pose data")
  end.

Definition _verify_color
    (profile_color : option color_stats)
    (current_color : option bgr) : result category_result :=
  match profile_color, current_color with
  | Some pc, Some (b, g, r) =>
      threshold ← Py.getitem tolerance_thresholds "color_tolerance";
      let '(mb, mg, mr) := c_mean pc in
      let color_diff := Np.norm [b - mb; g - mg; r - mr]%float in
      let match_score :=
        Py.max (Fin 0)
          (Fin 1 - color_diff / (threshold * Float.sqrt (Fin 3)))%float in
      Ok (ColorResult match_score color_diff)
  | _, _ => Ok (MissingCategory (Fin 0) "Missing color data")
  end.

(** [verify_biometric]: [None] stands for an argument that is falsy
    ([None] or an empty dictionary). *)
Definition verify_biometric (profile : option profile)
    (current_data : option live_data) : result (bool * verify_info) :=
  match profile, current_data with
  | Some p, Some d =>
      rg ← _verify_geometry (geometry p) (cur_geometry d);
      rp ← _verify_pose (pose p) (cur_pose d);
      rc ← _verify_color (color p) (cur_color d);
      let match_scores := map match_score_of [rg; rp; rc] in
      let overall_score :=
        if bool_decide (match_scores = []) then Fin 0
        else Np.mean match_scores in
      Ok ((overall_score >=? Fin 0.8)%float,
          ScoreInfo overall_score (rg, rp, rc))
  | _, _ => Ok (false, ErrorInfo "Missing profile or current data")
  end.

End methods.

(** [session_data]: the lists under "geometries", "poses" and "colors"
    (an entry that is missing is the empty list of
    [session_data.get(key, \[\])]).  A geometry frame is a dictionary
    listed in insertion order, with distinct keys. *)
Record session_data : Type := {
  geometries : list (list (string * float));
  poses : list (gmap string float);
  colors : list bgr }.

(** [\[frame\[metric\] for frame in geometry_data\]] *)
Definition metric_values (geometry_data : list (list (string * float)))
    (metric : string) : result (list float) :=
  Py.mapM (λ frame, Py.getitem (list_to_map frame) metric) geometry_data.

Definition _process_geometry_data (geometry_data : list (list (string * float)))
    : result (option (list (string * geometry_stats))) :=
  match geometry_data with
  | [] => Ok None
  | first :: _ =>
      metrics ← Py.mapM (λ metric,
          values ← metric_values geometry_data metric;
          vmin ← Np.min values;
          vmax ← Np.max values;
          Ok (metric, {| g_mean := Np.mean values; g_std := Np.std values;
                         g_min := vmin; g_max := vmax |})) first.*1;
      Ok (Some metrics)
  end.

Definition _process_pose_data (pose_data : list (gmap string float))
    : result (option (gmap string pose_stats)) :=
  match pose_data with
  | [] => Ok None
  | _ :: _ =>
      pose_metrics ← Py.mapM (λ axis,
          values ← Py.mapM (λ frame, Py.getitem frame axis) pose_data;
          range ← Np.ptp values;
          Ok (axis, {| a_mean := Np.mean values; a_std := Np.std values;
                       a_range := range |})) ["pitch"; "yaw"; "roll"]%string;
      Ok (Some (list_to_map pose_metrics))
  end.

(** The channels of an [n x 3] colour array. *)
Definition channel_b (c : bgr) : float := c.1.1.
Definition channel_g (c : bgr) : float := c.1.2.
Definition channel_r (c : bgr) : float := c.2.

Definition _process_color_data (color_data : list bgr) : option color_stats :=
  match color_data with
  | [] => None
  | _ :: _ =>
      Some {| c_mean := (Np.mean (map channel_b color_data),
                         Np.mean (map channel_g color_data),
                         Np.mean (map channel_r color_data));
              c_std := (Np.std (map channel_b color_data),
                        Np.std (map channel_g color_data),
                        Np.std (map channel_r color_data)) |}
  end.

Definition create_biometric_profile (session : session_data) : result profile :=
  g ← _process_geometry_data (geometries session);
  p ← _process_pose_data (poses session);
  Ok {| geometry := g; pose := p; color := _process_color_data (colors session) |}.

End BiometricAuthenticator.

(* ===================================================================== *)
(** ** Landmark arrays *)
(* ===================================================================== *)

(** An [N x 3] array of landmark coordinates is a list of rows. *)
Module Landmarks.

Definition point : Type := float * float * float.
Definition landmarks : Type := list point.

Definition px (p : point) : float := p.1.1.
Definition py (p : point) : float := p.1.2.
Definition pz (p : point) : float := p.2.

Definition psub (p q : point) : point :=
  (px p - px q, py p - py q, pz p - pz q)%float.

Definition padd (p q : point) : point :=
  (px p + px q, py p + py q, pz p + pz q)%float.

(** [np.linalg.norm] of one row. *)
Definition pnorm (p : point) : float := Np.norm [px p; py p; pz p].

(** [np.mean(points, axis=0)] *)
Definition pmean (l : list point) : point :=
  (Np.mean (map px l), Np.mean (map py l), Np.mean (map pz l)).

(** [landmarks\[indices\]] with a list of indices. *)
Definition rows (l : landmarks) (indices : list nat) : result (list point) :=
  Py.mapM (Py.index l) indices.

(** [a - b] on two [N x 3] / [M x 3] arrays, with numpy's broadcasting
    of a one-row operand. *)
Definition array_sub (a b : list point) : result (list point) :=
  if bool_decide (length a = length b) then Ok (zip_with psub a b)
  else match a, b with
       | _, [q] => Ok (map (λ p, psub p q) a)
       | [p], _ => Ok (map (λ q, psub p q) b)
       | _, _ => Raise ValueError
       end.

End Landmarks.
Export Landmarks.

(* ===================================================================== *)
(** ** analysis/change_detector.py: [ChangeDetector] *)
(* ===================================================================== *)

Module ChangeDetector.

(** The [thresholds] dictionary, with the entries the detector reads. *)
Record thresholds : Type := {
  MIN_FRAME_INTERVAL : float;
  MAX_STORED_FRAMES : Z;
  LANDMARK_CHANGE_THRESHOLD : float;
  EXPRESSION_METRICS : gmap string float;
  HEAD_POSE_THRESHOLD : gmap string float }.

(** A [datetime]: microseconds since the epoch. *)
Definition datetime : Type := Z.

(** [(t1 - t0).total_seconds()] *)
Definition total_seconds (t1 t0 : datetime) : float :=
  Fin (IZR (t1 - t0) / 1000000).

(** The attributes of a detector. *)
Record state : Type := {
  last_landmarks : option landmarks;
  last_pose : option (gmap string float);
  last_save_time : option datetime;
  frame_count : Z }.

(** [__init__] *)
Definition init : state :=
  {| last_landmarks := None; last_pose := None;
     last_save_time := None; frame_count := 0 |}.

Definition calculate_landmark_change (current_landmarks : landmarks)
    (previous_landmarks : option landmarks) : result float :=
  match previous_landmarks with
  | None => Ok PInf
  | Some previous =>
      d ← array_sub current_landmarks previous;
      let distances := map pnorm d in
      xmax ← Np.max (map px current_landmarks);
      xmin ← Np.min (map px current_landmarks);
      ymax ← Np.max (map py current_landmarks);
      ymin ← Np.min (map py current_landmarks);
      let face_size := Np.norm [xmax - xmin; ymax - ymin]%float in
      Ok (if (face_size >? Fin 0)%float
          then (Np.mean distances / face_size)%float
          else Fin 0)
  end.

(** The local function [eye_aspect_ratio] on six eye points. *)
Definition eye_aspect_ratio (eye_points : list point) : result float :=
  p0 ← Py.index eye_points 0; p1 ← Py.index eye_points 1;
  p2 ← Py.index eye_points 2; p3 ← Py.index eye_points 3;
  p4 ← Py.index eye_points 4; p5 ← Py.index eye_points 5;
  let vertical := Np.mean [pnorm (psub p1 p5); pnorm (psub p2 p4)] in
  let horizontal := pnorm (psub p0 p3) in
  Ok (if (horizontal >? Fin 0)%float
      then (vertical / (Fin 2 * horizontal))%float
      else Fin 0).

Definition mouth_aspect_ratio (l : landmarks) : result float :=
  p13 ← Py.index l 13; p14 ← Py.index l 14;
  p78 ← Py.index l 78; p308 ← Py.index l 308;
  let vertical := pnorm (psub p13 p14) in
  let horizontal := pnorm (psub p78 p308) in
  Ok (if (horizontal >? Fin 0)%float
      then (vertical / horizontal)%float
      else Fin 0).

Definition eyebrow_position (l : landmarks) : result float :=
  p282 ← Py.index l 282; p257 ← Py.index l 257;
  p52 ← Py.index l 52; p27 ← Py.index l 27;
  Ok (Np.mean [py p282 - py p257; py p52 - py p27]%float).

(** [calculate_expression_change] with a previous landmark set (the only
    way [should_save_frame] calls it). *)
Definition calculate_expression_change (current_landmarks previous_landmarks : landmarks)
    : result (gmap string float) :=
  ec ← rows current_landmarks [33; 160; 158; 133; 153; 144]%nat;
  left_eye_curr ← eye_aspect_ratio ec;
  ep ← rows previous_landmarks [33; 160; 158; 133; 153; 144]%nat;
  left_eye_prev ← eye_aspect_ratio ep;
  mouth_curr ← mouth_aspect_ratio current_landmarks;
  mouth_prev ← mouth_aspect_ratio previous_landmarks;
  eyebrow_curr ← eyebrow_position current_landmarks;
  eyebrow_prev ← eyebrow_position previous_landmarks;
  Ok (list_to_map [
    ("eye_aspect_ratio", abs (left_eye_curr - left_eye_prev));
    ("mouth_aspect_ratio", abs (mouth_curr - mouth_prev));
    ("eyebrow_position", (abs (eyebrow_curr - eyebrow_prev) / Fin 100)%float)
  ]%string).

(** [any(abs(changes.get(k, 0)) > EXPRESSION_METRICS.get(k, inf) for k in
    EXPRESSION_METRICS.keys())] *)
Definition expression_changed_of (expression_metrics changes : gmap string float) : bool :=
  existsb (λ '(k, limit), (abs (default (Fin 0) (changes !! k)) >? limit)%float)
          (map_to_list expression_metrics).

(** [pose_changes\[k\] > HEAD_POSE_THRESHOLD\[k\]] for the axes in order,
    stopping at the first that holds, as [any] does. *)
Fixpoint any_pose_changed (axes : list string)
    (pose_changes head_pose_threshold : gmap string float) : result bool :=
  match axes with
  | [] => Ok false
  | k :: axes' =>
      c ← Py.getitem pose_changes k;
      limit ← Py.getitem head_pose_threshold k;
      if (c >? limit)%float then Ok true
      else any_pose_changed axes' pose_changes head_pose_threshold
  end.

(** The dictionary comprehension [{k: abs(head_pose\[k\] - last_pose\[k\])}]. *)
Fixpoint pose_changes_of (axes : list string)
    (head_pose last : gmap string float) : result (gmap string float) :=
  match axes with
  | [] => Ok ∅
  | k :: axes' =>
      a ← Py.getitem head_pose k;
      b ← Py.getitem last k;
      rest ← pose_changes_of axes' head_pose last;
      Ok (<[k := abs (a - b)]> rest)
  end.

(** [should_save_frame]: [current_time] is what [datetime.now()] returns
    in this call; the result carries the detector's attributes after it. *)
Definition should_save_frame (th : thresholds) (self : state)
    (current_time : datetime) (landmarks_array : landmarks)
    (head_pose : option (gmap string float)) : result (bool * state) :=
  let too_soon :=
    match last_save_time self with
    | Some t0 => (total_seconds current_time t0 <? MIN_FRAME_INTERVAL th)%float
    | None => false
    end in
  if too_soon then Ok (false, self)
  else if bool_decide (frame_count self >= MAX_STORED_FRAMES th)%Z
  then Ok (false, self)
  else
    landmark_change ← calculate_landmark_change landmarks_array (last_landmarks self);
    expression_changed ←
      match last_landmarks self with
      | Some previous =>
          changes ← calculate_expression_change landmarks_array previous;
          Ok (expression_changed_of (EXPRESSION_METRICS th) changes)
      | None => Ok true
      end;
    pose_changed ←
      match last_pose self, head_pose with
      | Some lp, Some hp =>
          pose_changes ← pose_changes_of ["pitch"; "yaw"; "roll"]%string hp lp;
          any_pose_changed ["pitch"; "yaw"; "roll"]%string pose_changes
                           (HEAD_POSE_THRESHOLD th)
      | _, _ => Ok false
      end;
    let should_save :=
      (landmark_change >? LANDMARK_CHANGE_THRESHOLD th)%float
      || pose_changed || expression_changed in
    if should_save
    then Ok (true, {| last_landmarks := Some landmarks_array;
                      last_pose := head_pose;
                      last_save_time := Some current_time;
                      frame_count := frame_count self + 1 |})
    else Ok (false, self).

(** One observation as the capture loop feeds it. *)
Record observation : Type := {
  obs_time : datetime;
  obs_landmarks : landmarks;
  obs_pose : option (gmap string float) }.

(** The detector after a call: a raised exception leaves the attributes
    as they were. *)
Definition step (th : thresholds) (self : state) (o : observation) : state :=
  match should_save_frame th self (obs_time o) (obs_landmarks o) (obs_pose o) with
  | Ok (_, self') => self'
  | Raise _ => self
  end.

(** The detector after a sequence of observations, from a fresh one. *)
Definition run (th : thresholds) (obs : list observation) : state :=
  foldl (step th) init obs.

End ChangeDetector.

(* ===================================================================== *)
(** ** analysis/facial_features/expression_analyzer.py: [ExpressionAnalyzer] *)
(* ===================================================================== *)

Module ExpressionAnalyzer.

Inductive Expression : Type := NEUTRAL | SMILE | FROWN | SURPRISE | SQUINT.

(** The dictionary [characteristics] of [_classify_expression], in the
    order it is written. *)
Definition characteristics : list (Expression * list (string * float)) :=
  [ (SMILE, [("mouth_width_ratio", Fin 1.2); ("mouth_openness", Fin 0.3);
             ("brow_height", Fin 0)]);
    (FROWN, [("mouth_width_ratio", Fin 0.8); ("mouth_openness", Fin (-0.2));
             ("brow_height", Fin (-0.2))]);
    (SURPRISE, [("mouth_openness", Fin 0.5); ("brow_height", Fin 0.3)]);
    (SQUINT, [("left_eye_openness", Fin (-0.3)); ("right_eye_openness", Fin (-0.3));
              ("brow_height", Fin (-0.1))]) ]%string.

(** The list [differences] of [_calculate_expression_score]. *)
Definition differences_of (metrics : gmap string float)
    (chars : list (string * float)) : list float :=
  omap (λ '(key, target), v ← metrics !! key; Some (abs (v - target))) chars.

Definition _calculate_expression_score (metrics : gmap string float)
    (chars : list (string * float)) : float :=
  let differences := differences_of metrics chars in
  if bool_decide (differences = []) then Fin 0
  else (Fin 1 - Np.mean differences)%float.

(** The dictionary [scores], in insertion order. *)
Definition scores_of (expression_metrics : gmap string float)
    : list (Expression * float) :=
  map (λ '(expression, chars),
         (expression, _calculate_expression_score expression_metrics chars))
      characteristics.

(** [self.neutral_threshold] is the first argument; the movement metrics
    are accepted and not read. *)
Definition _classify_expression (neutral_threshold : float)
    (expression_metrics movement_metrics : gmap string float)
    : result (Expression * float) :=
  let scores := scores_of expression_metrics in
  max_score ← Py.max_of (map snd scores);
  if (max_score <? neutral_threshold)%float
  then Ok (NEUTRAL, (Fin 1 - max_score)%float)
  else
    best ← Py.max_by snd scores;
    Ok (best.1, max_score).






Section methods.
(** [self.feature_indices] and [self.neutral_threshold] *)
Variable feature_indices : gmap string (list nat).
Variable neutral_threshold : float.

(** [landmarks\[self.feature_indices\[name\]\]] *)
Definition feature (landmarks : landmarks) (name : string) : result (list point) :=
  indices ← Py.getitem feature_indices name;
  rows landmarks indices.





End methods.

End ExpressionAnalyzer.

(* ===================================================================== *)
(** ** analysis/facial_features/geometry_analyzer.py: [GeometryAnalyzer] *)
(* ===================================================================== *)

Module GeometryAnalyzer.

(** [np.diff(points, axis=0)] *)
Definition diff (l : list point) : list point :=
  zip_with psub (tail l) l.

Definition dot (p q : point) : float :=
  (px p * px q + py p * py q + pz p * pz q)%float.

(** [_calculate_contour_smoothness] *)
Definition _calculate_contour_smoothness (contour : list point) : float :=
  let second_derivatives := diff (diff contour) in
  let curvature := map pnorm second_derivatives in
  (Fin 1 / (Fin 1 + Np.mean curvature))%float.

(** [_calculate_contour_symmetry]: the points left and right of the mean
    [x], the right ones mirrored, paired in order up to the shorter of the
    two lists. *)
Definition _calculate_contour_symmetry (contour : list point) : result float :=
  let center_line := px (pmean contour) in
  let left_points := filter (λ p, (px p <? center_line)%float = true) contour in
  let right_points := filter (λ p, (px p >? center_line)%float = true) contour in
  let right_points_mirrored :=
    map (λ p, (Fin 2 * center_line - px p, py p, pz p)%float) right_points in
  let min_points := Nat.min (length left_points) (length right_points_mirrored) in
  let left_points := take min_points left_points in
  let right_points_mirrored := take min_points right_points_mirrored in
  d ← array_sub left_points right_points_mirrored;
  let asymmetry := Np.mean (map pnorm d) in
  xmax ← Np.max (map px contour);
  xmin ← Np.min (map px contour);
  let face_width := (xmax - xmin)%float in
  Ok (Fin 1 - asymmetry / face_width)%float.

Section methods.
(** [self.feature_indices], a [Dict\[str, List\[int\]\]]. *)
Variable feature_indices : gmap string (list nat).

(** [landmarks\[self.feature_indices\[name\]\]] *)
Definition feature (landmarks : landmarks) (name : string) : result (list point) :=
  indices ← Py.getitem feature_indices name;
  rows landmarks indices.

Definition calculate_proportions (landmarks : landmarks)
    : result (gmap string float) :=
  contour_points ← feature landmarks "face_contour";
  xmax ← Np.max (map px contour_points);
  xmin ← Np.min (map px contour_points);
  let face_width := (xmax - xmin)%float in
  ymax ← Np.max (map py contour_points);
  ymin ← Np.min (map py contour_points);
  let face_height := (ymax - ymin)%float in
  let width_height_ratio := (face_width / face_height)%float in
  left_eye_points ← feature landmarks "left_eye";
  right_eye_points ← feature landmarks "right_eye";
  let left_eye := pmean left_eye_points in
  let right_eye := pmean right_eye_points in
  let eye_distance := pnorm (psub right_eye left_eye) in
  let eye_spacing_ratio := (eye_distance / face_width)%float in
  nose_bridge ← feature landmarks "nose_bridge";
  nose_last ← Py.index nose_bridge (length nose_bridge - 1);
  nose_first ← Py.index nose_bridge 0;
  let nose_length := pnorm (psub nose_last nose_first) in
  let nose_face_ratio := (nose_length / face_height)%float in
  mouth_points ← feature landmarks "mouth";
  mouth_0 ← Py.index mouth_points 0;
  mouth_1 ← Py.index mouth_points 1;
  let mouth_width := pnorm (psub mouth_0 mouth_1) in
  let mouth_face_ratio := (mouth_width / face_width)%float in
  Ok (list_to_map [
    ("width_height_ratio", width_height_ratio);
    ("eye_spacing_ratio", eye_spacing_ratio);
    ("nose_face_ratio", nose_face_ratio);
    ("mouth_face_ratio", mouth_face_ratio) ]%string).

(** [_calculate_jaw_angle] *)
Definition _calculate_jaw_angle (contour : list point) : float :=
  let left_jaw := take 3 contour in
  let right_jaw := drop (length contour - 3) contour in
  let left_vector := pmean (diff left_jaw) in
  let right_vector := pmean (diff right_jaw) in
  let angle :=
    Np.arccos (dot left_vector right_vector
               / (pnorm left_vector * pnorm right_vector))%float in
  Np.degrees angle.

Definition analyze_face_shape (landmarks : landmarks)
    : result (gmap string float) :=
  contour ← feature landmarks "face_contour";
  contour_0 ← Py.index contour 0;
  contour_last ← Py.index contour (length contour - 1);
  let jaw_width := pnorm (psub contour_0 contour_last) in
  let center := pmean contour in
  let distances := map (λ p, pnorm (psub p center)) contour in
  let roundness := (Fin 1 - Np.std distances / Np.mean distances)%float in
  let jaw_angle := _calculate_jaw_angle contour in
  Ok (list_to_map [
    ("jaw_width", jaw_width);
    ("roundness", roundness);
    ("jaw_angle", jaw_angle) ]%string).

Definition analyze_face_contour (landmarks : landmarks)
    : result (gmap string float) :=
  contour ← feature landmarks "face_contour";
  d ← array_sub (drop 1 contour) (take (length contour - 1) contour);
  let contour_length := Np.sum (map pnorm d) in
  let smoothness := _calculate_contour_smoothness contour in
  symmetry ← _calculate_contour_symmetry contour;
  Ok (list_to_map [
    ("length", contour_length);
    ("smoothness", smoothness);
    ("symmetry", symmetry) ]%string).

End methods.

End GeometryAnalyzer.

(* ===================================================================== *)
(** ** analysis/depth/mesh_generator.py: [MeshGenerator] *)
(* ===================================================================== *)

Module MeshGenerator.

(** [np.cross] of two rows. *)
Definition cross (a b : point) : point :=
  (py a * pz b - pz a * py b,
   pz a * px b - px a * pz b,
   px a * py b - py a * px b)%float.

(** The dictionary [_calculate_face_metrics] returns. *)
Record face_metrics : Type := {
  areas : list float;
  normals : list point;
  mean_area : float;
  total_area : float }.

(** [vertices\[faces\]]: the three vertices of every face. *)
Definition face_vertices (vertices : list point) (faces : list (nat * nat * nat))
    : result (list (point * point * point)) :=
  Py.mapM (λ '(i, j, k),
             a ← Py.index vertices i;
             b ← Py.index vertices j;
             c ← Py.index vertices k;
             Ok (a, b, c)) faces.

(** The first value of [face_normals]: the cross product of the two edge
    vectors of a face. *)
Definition face_cross (f : point * point * point) : point :=
  let '(a, b, c) := f in
  cross (psub b a) (psub c a).

(** [row / norm] on one row of [face_normals]. *)
Definition normalize (n : point) : point :=
  (px n / pnorm n, py n / pnorm n, pz n / pnorm n)%float.

Definition _calculate_face_metrics (vertices : list point)
    (faces : list (nat * nat * nat)) : result face_metrics :=
  fv ← face_vertices vertices faces;
  let face_normals := map face_cross fv in
  let face_areas := map (λ n, pnorm n / Fin 2)%float face_normals in
  let face_normals := map normalize face_normals in
  Ok {| areas := face_areas;
        normals := face_normals;
        mean_area := Np.mean face_areas;
        total_area := Np.sum face_areas |}.

(** The floating-point warnings numpy raises while it evaluates the
    division of [_calculate_face_metrics], one row after the other. *)
Definition normalize_warnings (n : point) : list Np.warning :=
  omap (λ x, Np.divide_warning x (pnorm n)) [px n; py n; pz n].

Definition face_normal_warnings (vertices : list point)
    (faces : list (nat * nat * nat)) : result (list Np.warning) :=
  fv ← face_vertices vertices faces;
  Ok (concat (map (λ f, normalize_warnings (face_cross f)) fv)).

(** The dictionary [_calculate_vertex_metrics] returns. *)
Record vertex_metrics : Type := {
  degrees : list float;
  mean_degree : float;
  max_degree : float }.

(** [faces.ravel()] *)
Definition ravel (faces : list (nat * nat * nat)) : list nat :=
  concat (map (λ '(i, j, k), [i; j; k]) faces).

(** One step of [np.add.at(vertex_degrees, indices, 1)]: an index out of
    range raises. *)
Definition add_at (vertex_degrees : list float) (i : nat) : result (list float) :=
  d ← Py.index vertex_degrees i;
  Ok (<[i := (d + Fin 1)%float]> vertex_degrees).

Definition _calculate_vertex_metrics (vertices : list point)
    (faces : list (nat * nat * nat)) : result vertex_metrics :=
  vertex_degrees ←
    Py.foldM add_at (replicate (length vertices) (Fin 0)) (ravel faces);
  max_degree ← Np.max vertex_degrees;
  Ok {| degrees := vertex_degrees;
        mean_degree := Np.mean vertex_degrees;
        max_degree := max_degree |}.

(** [calculate_mesh_metrics]: [mesh] is [self.mesh], which is [None] until
    a mesh is created. *)
Definition calculate_mesh_metrics
    (mesh : option (list point * list (nat * nat * nat)))
    : result (option (face_metrics * vertex_metrics)) :=
  match mesh with
  | None => Ok None
  | Some (vertices, faces) =>
      face_metrics ← _calculate_face_metrics vertices faces;
      vertex_metrics ← _calculate_vertex_metrics vertices faces;
      Ok (Some (face_metrics, vertex_metrics))
  end.

End MeshGenerator.

(* ===================================================================== *)
(** ** analysis/depth/depth_mapper.py: [DepthMapper] *)
(* ===================================================================== *)

Module DepthMapper.

(** A row of an [N x 2] array. *)
Definition point2 : Type := float * float.

(** [x.astype(np.int32)] on one number: truncation towards zero. *)
Definition astype_int32 (a : float) : Z :=
  match a with
  | Fin x => if bool_decide (0 <= x) then Int_part x else (- Int_part (- x))%Z
  | _ => (-2147483648)%Z
  end.

(** The index pairs [(i, j)] of an array of shape [resolution], row by
    row. *)
Definition cells (resolution : Z * Z) : list (nat * nat) :=
  i ← seq 0 (Z.to_nat resolution.1); j ← seq 0 (Z.to_nat resolution.2); [(i, j)].

(** One axis of [np.mgrid\[0:r:r*1j\]]: [r] points from 0 to [r], both
    included; this is the point of index [i]. *)
Definition grid_axis (r : Z) (i : nat) : float :=
  let step := if bool_decide (r = 1%Z) then Fin 1
              else (of_Z r / of_Z (r - 1))%float in
  (of_nat i * step)%float.

(** [(grid_x\[i, j\], grid_y\[i, j\])] *)
Definition grid_point (resolution : Z * Z) (c : nat * nat) : point2 :=
  (grid_axis resolution.1 c.1, grid_axis resolution.2 c.2).

(** [result\[valid_mask\] = smoothed]: the smoothed values go, in order, to
    the cells that are not NaN; the sizes must agree. *)
Fixpoint scatter (depth_map smoothed : list float) : result (list float) :=
  match depth_map with
  | [] => match smoothed with [] => Ok [] | _ :: _ => Raise ValueError end
  | d :: depth_map' =>
      if is_nan d then rest ← scatter depth_map' smoothed; Ok (NaN :: rest)
      else match smoothed with
           | [] => Raise ValueError
           | s :: smoothed' => rest ← scatter depth_map' smoothed'; Ok (s :: rest)
           end
  end.

Section methods.
(** [self.image_width], [self.image_height], and the two entries of
    [self.feature_indices] that the mapper reads. *)
Variables (image_width image_height : Z).
Variables (nose_tip : nat) (face_contour : list nat).

(** The library calls, as functions of the arguments the mapper passes:
    [cv2.convexHull(points)]; [cv2.fillConvexPoly(mask, polygon, 1)] on a
    zero mask of the given shape, as the value of the filled [mask\[i, j\]];
    [griddata(points, values, grid, method=...)] as the interpolant that is
    evaluated at every grid point; [cv2.GaussianBlur(column, (1, 3), 0)]. *)
Variable cv2_convexHull : list point2 → result (list point2).
Variable cv2_fillConvexPoly : Z * Z → list (Z * Z) → result (nat → nat → bool).
Variable griddata_linear : list point2 → list float → result (point2 → float).
Variable griddata_nearest : list point2 → list float → result (point2 → float).
Variable cv2_GaussianBlur : list float → result (list float).

(** The depths of the landmarks relative to the nose tip, over the face
    size and the scale factor. *)
Definition normalized_depths (landmarks_array : landmarks) (resolution : Z * Z)
    : result (list float) :=
  nose ← Py.index landmarks_array nose_tip;
  let nose_tip_depth := pz nose in
  let relative_depths := map (λ p, pz p - nose_tip_depth)%float landmarks_array in
  face_points ← rows landmarks_array face_contour;
  xmax ← Np.max (map px face_points);
  xmin ← Np.min (map px face_points);
  let face_width := (xmax - xmin)%float in
  ymax ← Np.max (map py face_points);
  ymin ← Np.min (map py face_points);
  let face_height := (ymax - ymin)%float in
  let face_size := Float.sqrt (face_width * face_height) in
  q ← Py.truediv (of_Z resolution.1) (of_Z image_width);
  let scale_factor := (Fin 0.1 * q)%float in
  Ok (map (λ d, d / (face_size * scale_factor))%float relative_depths).

(** The landmark positions scaled to the grid resolution. *)
Definition scaled_points (landmarks_array : landmarks) (resolution : Z * Z)
    : result (list point2) :=
  sx ← Py.truediv (of_Z resolution.1) (of_Z image_width);
  sy ← Py.truediv (of_Z resolution.2) (of_Z image_height);
  Ok (map (λ p, (px p * sx, py p * sy)%float) landmarks_array).

Definition _create_face_mask (points : list point2) (resolution : Z * Z)
    : result (list bool) :=
  contour_points ← Py.mapM (Py.index points) face_contour;
  forehead_points ←
    Py.mapM (Py.index points) [10; 108; 67; 69; 104; 151; 337; 299; 333; 297; 338]%nat;
  let mask_points := contour_points ++ forehead_points in
  hull ← cv2_convexHull mask_points;
  sx ← Py.truediv (of_Z resolution.1) (of_Z image_width);
  sy ← Py.truediv (of_Z resolution.2) (of_Z image_height);
  let hull_points := map (λ p : point2, (p.1 * sx, p.2 * sy)%float) hull in
  mask ← cv2_fillConvexPoly resolution
            (map (λ p : point2, (astype_int32 p.1, astype_int32 p.2)) hull_points);
  Ok (map (λ c : nat * nat, mask c.1 c.2) (cells resolution)).

(** The nearest-neighbour fill of the cells that are NaN inside the mask. *)
Definition fill_in_face (depth_map : list float) (face_mask : list bool)
    (points : list point2) (values : list float) (grid : list point2)
    : result (list float) :=
  if existsb (λ '(d, m), is_nan d && m) (zip depth_map face_mask)
  then
    nn ← griddata_nearest points values;
    Ok (zip_with (λ '(d, m) q, if (is_nan d && m : bool) then nn q else d)
                 (zip depth_map face_mask) grid)
  else Ok depth_map.

(** The smoothing of the cells that are not NaN. *)
Definition smooth (depth_map : list float) : result (list float) :=
  let valid_depths := filter (λ d, is_nan d = false) depth_map in
  if bool_decide (valid_depths = []) then Ok depth_map
  else
    smoothed ← cv2_GaussianBlur valid_depths;
    scatter depth_map smoothed.

(** [create_depth_map]: the returned array, row by row; [resolution] is
    [None] when the caller leaves it out. *)
Definition create_depth_map (landmarks_array : landmarks)
    (resolution : option (Z * Z)) : result (list float) :=
  let resolution :=
    default ((image_width `div` 4)%Z, (image_height `div` 4)%Z) resolution in
  normalized ← normalized_depths landmarks_array resolution;
  let grid := map (grid_point resolution) (cells resolution) in
  points ← scaled_points landmarks_array resolution;
  face_mask ← _create_face_mask points resolution;
  interpolant ← griddata_linear points normalized;
  let depth_map := map interpolant grid in
  depth_map ← fill_in_face depth_map face_mask points normalized grid;
  smooth depth_map.

End methods.

End DepthMapper.

(* ===================================================================== *)
(** * Specification-level definitions and sample inputs *)
(* ===================================================================== *)

(** A dictionary literal is looked up entry by entry. *)
Fixpoint assoc {A} (k : string) (l : list (string * A)) : option A :=
  match l with
  | [] => None
  | (k', v) :: l' => if String.eqb k' k then Some v else assoc k l'
  end.

Section matcher_data.
Import BiometricAuthenticator.

(** An enrolled profile whose geometry holds an angle metric of mean 0. *)
Definition level_profile : profile :=
  {| geometry := Some [("nose_angle"%string,
                        {| g_mean := Fin 0; g_std := Fin 0;
                           g_min := Fin 0; g_max := Fin 0 |})];
     pose := Some (list_to_map [
               ("pitch", {| a_mean := Fin 2; a_std := Fin 0; a_range := Fin 0 |});
               ("yaw", {| a_mean := Fin (-3); a_std := Fin 0; a_range := Fin 0 |});
               ("roll", {| a_mean := Fin 1; a_std := Fin 0; a_range := Fin 0 |})
             ]%string);
     color := Some {| c_mean := (Fin 120, Fin 110, Fin 100);
                      c_std := (Fin 0, Fin 0, Fin 0) |} |}.

(** The live feature set that repeats every stored mean of [level_profile]. *)
Definition level_live : live_data :=
  {| cur_geometry := Some (list_to_map [("nose_angle"%string, Fin 0)]);
     cur_pose := Some (list_to_map
                   [("pitch", Fin 2); ("yaw", Fin (-3)); ("roll", Fin 1)]%string);
     cur_color := Some (Fin 120, Fin 110, Fin 100) |}.

(** The score the specification gives to one geometry metric. *)
Definition spec_geometry_score (live mean t : float) : float :=
  Py.max (Fin 0) (Fin 1 - abs (live - mean) / (mean * t)).

(** [tolerance_thresholds.get(metric, 0.1)] *)
Definition tolerance_of (tol : gmap string float) (metric : string) : float :=
  default (Fin 0.1) (tol !! metric).

(** The metrics both sides have, with their scores, in profile order. *)
Definition spec_geometry_matches (tol : gmap string float)
    (pg : list (string * geometry_stats)) (cg : gmap string float) : list float :=
  omap (λ '(metric, pv),
          live ← cg !! metric;
          Some (spec_geometry_score live (g_mean pv) (tolerance_of tol metric)))
       pg.

(** No metric that both sides have has a zero [mean * threshold]. *)
Definition denominators_nonzero (tol : gmap string float)
    (pg : list (string * geometry_stats)) (cg : gmap string float) : Prop :=
  ∀ metric pv live, (metric, pv) ∈ pg → cg !! metric = Some live →
    (g_mean pv * tolerance_of tol metric =? Fin 0)%float = false.




(** The specification's example as an input of [_verify_geometry]. *)
Definition example_tolerance : gmap string float :=
  list_to_map [("width_height_ratio"%string, Fin 0.05)].
Definition example_profile_geometry : list (string * geometry_stats) :=
  [("width_height_ratio"%string,
    {| g_mean := Fin 1.30; g_std := Fin 0.02; g_min := Fin 1.28; g_max := Fin 1.33 |})].
Definition example_live_geometry : gmap string float :=
  list_to_map [("width_height_ratio"%string, Fin 1.35)].

(** A metric that has no entry in [default_tolerance_thresholds]. *)
Definition unlisted_profile_geometry : list (string * geometry_stats) :=
  [("jaw_width"%string,
    {| g_mean := Fin 100; g_std := Fin 1; g_min := Fin 98; g_max := Fin 102 |})].
Definition unlisted_live_geometry : gmap string float :=
  list_to_map [("jaw_width"%string, Fin 104)].

End matcher_data.

Section change_gate_data.
Import ChangeDetector.

(** The thresholds of [config/settings.py]. *)
Definition settings_thresholds : thresholds :=
  {| MIN_FRAME_INTERVAL := Fin 0.5;
     MAX_STORED_FRAMES := 100;
     LANDMARK_CHANGE_THRESHOLD := Fin 0.1;
     EXPRESSION_METRICS := list_to_map [
       ("mouth_aspect_ratio", Fin 0.2); ("eye_aspect_ratio", Fin 0.15);
       ("eyebrow_position", Fin 0.1) ]%string;
     HEAD_POSE_THRESHOLD := list_to_map [
       ("pitch", Fin 15); ("yaw", Fin 15); ("roll", Fin 15) ]%string |}.

(** The specification's example: thresholds 0.1 and 0.5 s, a first
    observation, and 0.1 s later a second one whose landmarks moved by 0.6
    of the face size. *)
Definition first_shot : landmarks := [(Fin 0, Fin 0, Fin 0); (Fin 30, Fin 40, Fin 0)].
Definition second_shot : landmarks := [(Fin 30, Fin 0, Fin 0); (Fin 60, Fin 40, Fin 0)].

End change_gate_data.

Section expression_data.
Import ExpressionAnalyzer.

(** Every metric that was computed is a number. *)
Definition metrics_finite (metrics : gmap string float) : Prop :=
  ∀ k v, metrics !! k = Some v → is_finite v.

(** The step of [max(..., key=key)]. *)
Definition keep_greater {A} (key : A → float) (best y : A) : A :=
  if (key y >? key best)%float then y else best.

(** The metrics of a face that matches the smile targets. *)
Definition smiling_metrics : gmap string float :=
  list_to_map [
    ("mouth_openness", Fin 0.3); ("mouth_width_ratio", Fin 1.2);
    ("left_eye_openness", Fin 0.2); ("right_eye_openness", Fin 0.2);
    ("brow_height", Fin 0) ]%string.

End expression_data.

Section geometry_data.
Import GeometryAnalyzer.

(** A feature index map over ten landmarks. *)
Definition small_feature_indices : gmap string (list nat) :=
  list_to_map [
    ("face_contour", [0; 1; 2; 3]); ("left_eye", [4]); ("right_eye", [5]);
    ("nose_bridge", [6; 7]); ("mouth", [8; 9]) ]%string%nat.

(** A landmark set whose four contour points lie on one image row. *)
Definition flat_contour_landmarks : landmarks :=
  [ (Fin 100, Fin 200, Fin 0); (Fin 200, Fin 200, Fin 0);
    (Fin 150, Fin 200, Fin 0); (Fin 120, Fin 200, Fin 0);
    (Fin 130, Fin 180, Fin 0); (Fin 170, Fin 180, Fin 0);
    (Fin 150, Fin 170, Fin 0); (Fin 150, Fin 190, Fin 0);
    (Fin 135, Fin 210, Fin 0); (Fin 165, Fin 210, Fin 0) ].

(** A landmark set whose contour points all coincide. *)
Definition point_contour_landmarks : landmarks :=
  replicate 4 (Fin 150, Fin 200, Fin 0)
  ++ drop 4 flat_contour_landmarks.

End geometry_data.

Section mesh_data.
Import MeshGenerator.

(** Three vertices on one line, and the face they make. *)
Definition collinear_vertices : list point :=
  [ (Fin 0, Fin 0, Fin 0); (Fin 1, Fin 1, Fin 1); (Fin 2, Fin 2, Fin 2) ].
Definition collinear_face : list (nat * nat * nat) := [ (0, 1, 2)%nat ].

(** The rows of [vertices\[faces\]] for that face. *)
Definition collinear_triple : point * point * point :=
  ((Fin 0, Fin 0, Fin 0), (Fin 1, Fin 1, Fin 1), (Fin 2, Fin 2, Fin 2)).

End mesh_data.

Section depth_data.
Import DepthMapper.

(** A value an interpolation may give: NaN or a number. *)
Definition nan_or_finite (a : float) : Prop := is_nan a ∨ is_finite a.

(** The convex hull of a list of points of the plane, told by the lines of
    the plane.  [q] lies strictly inside the hull when every line through
    [q] has one of the points strictly on each of its sides: whatever the
    direction [(a, b)], other than zero, [(a, b) . (p - q)] is positive for
    one of the points [p]. *)
Definition inside_hull (points : list point2) (q : point2) : Prop :=
  ∃ qx qy, q = (Fin qx, Fin qy)
    ∧ ∀ a b, a ≠ 0 ∨ b ≠ 0 →
        ∃ x y, (Fin x, Fin y) ∈ points ∧ 0 < a * (x - qx) + b * (y - qy).

(** [q] lies outside the hull when a line keeps every point strictly on one
    side of [q]: for one direction [(a, b)], [(a, b) . (p - q)] is negative
    for every point [p].  A point of the boundary of the hull is neither
    inside nor outside. *)
Definition outside_hull (points : list point2) (q : point2) : Prop :=
  ∃ qx qy a b, q = (Fin qx, Fin qy)
    ∧ ∀ p, p ∈ points →
        ∃ x y, p = (Fin x, Fin y) ∧ a * (x - qx) + b * (y - qy) < 0.

(** What [griddata(points, values, grid, method='linear',
    fill_value=np.nan)] documents of the function it evaluates, for values
    that are numbers: the interpolation over a triangulation of the points
    is a number strictly inside their convex hull, and the fill value NaN
    outside of it. *)
Definition linear_on_hull (points : list point2) (f : point2 → float) : Prop :=
  ∀ q, (inside_hull points q → is_finite (f q))
       ∧ (outside_hull points q → is_nan (f q)).

(** Library stand-ins for a sample whose values are all equal, over points
    whose convex hull is their bounding box and a polygon that is an
    axis-parallel rectangle: the linear interpolant is the common value
    inside the bounding box of the points and NaN outside, the
    nearest-neighbour interpolant and the blur return the common value, the
    hull keeps every point, and the fill covers the bounding box of the
    polygon. *)
Definition in_bounding_box (points : list point2) (q : point2) : bool :=
  existsb (λ p : point2, (p.1 <=? q.1)%float) points
  && existsb (λ p : point2, (q.1 <=? p.1)%float) points
  && existsb (λ p : point2, (p.2 <=? q.2)%float) points
  && existsb (λ p : point2, (q.2 <=? p.2)%float) points.

Definition flat_linear (points : list point2) (values : list float)
    : result (point2 → float) :=
  Ok (λ q, if in_bounding_box points q then default NaN (head values) else NaN).

Definition flat_nearest (points : list point2) (values : list float)
    : result (point2 → float) :=
  match values with
  | v :: _ => Ok (λ _, v)
  | [] => Raise ValueError
  end.

Definition same_blur (column : list float) : result (list float) := Ok column.

Definition all_points_hull (points : list point2) : result (list point2) := Ok points.

(** [mask\[i, j\]] is the pixel of row [i] and column [j]. *)
Definition box_fill (shape : Z * Z) (polygon : list (Z * Z))
    : result (nat → nat → bool) :=
  Ok (λ i j,
        existsb (λ p : Z * Z, bool_decide (p.1 <= Z.of_nat j)%Z) polygon
        && existsb (λ p : Z * Z, bool_decide (Z.of_nat j <= p.1)%Z) polygon
        && existsb (λ p : Z * Z, bool_decide (p.2 <= Z.of_nat i)%Z) polygon
        && existsb (λ p : Z * Z, bool_decide (Z.of_nat i <= p.2)%Z) polygon).

(** The 339 landmarks: the corners of the unit square as face contour, the
    nose tip, three corners of the image, and the rest (the forehead points
    among them) at the origin; every depth is 0. *)
Definition square_landmarks : landmarks :=
  [ (Fin 0, Fin 0, Fin 0); (Fin 1, Fin 0, Fin 0); (Fin 1, Fin 1, Fin 0);
    (Fin 0, Fin 1, Fin 0); (Fin 0, Fin 0, Fin 0);
    (Fin 4, Fin 0, Fin 0); (Fin 4, Fin 4, Fin 0); (Fin 0, Fin 4, Fin 0) ]
  ++ replicate 331 (Fin 0, Fin 0, Fin 0).

(** [feature_indices\['face_contour'\]] and [feature_indices\['nose_tip'\]]. *)
Definition square_contour : list nat := [0; 1; 2; 3]%nat.
Definition square_nose_tip : nat := 4%nat.

(** The scaling of the landmark points at resolution 4 x 4: both factors
    are 4 / 4. *)
Definition square_scale (p : point) : point2 := (px p * Fin 1, py p * Fin 1)%float.

(** The polygon that the mask is filled from: the fifteen mask points. *)
Definition square_polygon : list (Z * Z) :=
  [ (0, 0); (1, 0); (1, 1); (0, 1) ]%Z ++ replicate 11 (0, 0)%Z.

(** The face mask of [square_landmarks]: the pixels of rows and columns 0
    and 1. *)
Definition square_mask (i j : nat) : bool :=
  existsb (λ p : Z * Z, bool_decide (p.1 <= Z.of_nat j)%Z) square_polygon
  && existsb (λ p : Z * Z, bool_decide (Z.of_nat j <= p.1)%Z) square_polygon
  && existsb (λ p : Z * Z, bool_decide (p.2 <= Z.of_nat i)%Z) square_polygon
  && existsb (λ p : Z * Z, bool_decide (Z.of_nat i <= p.2)%Z) square_polygon.

(** The 339 landmarks of an oblong face on the same image: the face contour
    is the rectangle of width 2.5 and height 1.6 at the origin, the nose tip
    is at the origin, three more landmarks are corners of the rectangle of
    width 4 and height 2, and the rest (the forehead points among them) are
    at the origin; every depth is 0.  The contour and the nose tip have the
    indices of [square_contour] and [square_nose_tip]. *)
Definition oblong_landmarks : landmarks :=
  [ (Fin 0, Fin 0, Fin 0); (Fin 2.5, Fin 0, Fin 0); (Fin 2.5, Fin 1.6, Fin 0);
    (Fin 0, Fin 1.6, Fin 0); (Fin 0, Fin 0, Fin 0);
    (Fin 4, Fin 0, Fin 0); (Fin 4, Fin 2, Fin 0); (Fin 0, Fin 2, Fin 0) ]
  ++ replicate 331 (Fin 0, Fin 0, Fin 0).

(** The face contour of [oblong_landmarks] at resolution 4 x 4. *)
Definition oblong_contour_points : list point2 :=
  [ (Fin 0, Fin 0); (Fin 2.5, Fin 0); (Fin 2.5, Fin 1.6); (Fin 0, Fin 1.6) ].

(** The polygon that the mask of [oblong_landmarks] is filled from: the
    fifteen mask points, as integers. *)
Definition oblong_polygon : list (Z * Z) :=
  [ (0, 0); (2, 0); (2, 1); (0, 1) ]%Z ++ replicate 11 (0, 0)%Z.

(** The face mask of [oblong_landmarks]: the pixels of rows 0 and 1 and of
    columns 0 to 2. *)
Definition oblong_mask (i j : nat) : bool :=
  existsb (λ p : Z * Z, bool_decide (p.1 <= Z.of_nat j)%Z) oblong_polygon
  && existsb (λ p : Z * Z, bool_decide (Z.of_nat j <= p.1)%Z) oblong_polygon
  && existsb (λ p : Z * Z, bool_decide (p.2 <= Z.of_nat i)%Z) oblong_polygon
  && existsb (λ p : Z * Z, bool_decide (Z.of_nat i <= p.2)%Z) oblong_polygon.

End depth_data.

Section enrollment_data.
Import BiometricAuthenticator.






(** Whether every frame has the metric. *)
Definition in_every_frame (data : list (list (string * float))) (metric : string) : Prop :=
  Forall (λ frame, is_Some ((list_to_map frame : gmap string float) !! metric)) data.

(** One captured frame of a session: its geometry, pose and colour. *)
Definition enrolled_frame : list (string * float) :=
  [("eye_distance", Fin 62); ("mouth_width", Fin 48)]%string.

Definition enrolled_pose : gmap string float :=
  list_to_map [("pitch", Fin 2); ("yaw", Fin (-3)); ("roll", Fin 1)]%string.

(** A later frame of the session, with one more metric. *)
Definition later_frame : list (string * float) :=
  [("mouth_width", Fin 50); ("eye_distance", Fin 64); ("jaw_width", Fin 130)]%string.



Definition live_geometry_sample : gmap string float :=
  list_to_map [("eye_distance"%string, Fin 63)].

Definition live_sample : live_data :=
  {| cur_geometry := Some live_geometry_sample;
     cur_pose := Some enrolled_pose;
     cur_color := Some (Fin 118, Fin 112, Fin 101) |}.

(** A profile that stores a colour only. *)
Definition color_profile : profile :=
  {| geometry := None; pose := None;
     color := Some {| c_mean := (Fin 120, Fin 110, Fin 100);
                      c_std := (Fin 2, Fin 2, Fin 2) |} |}.

(** A custom tolerance map that lists one geometry metric only. *)
Definition geometry_only_tolerance : gmap string float :=
  list_to_map [("eye_distance"%string, Fin 0.2)].

End enrollment_data.

Section landmark_data.

(** A landmark whose three coordinates are numbers. *)
Definition finite_point (p : point) : Prop :=
  is_finite (px p) ∧ is_finite (py p) ∧ is_finite (pz p).

Definition finite_landmarks (l : landmarks) : Prop := Forall finite_point l.

(** A number that is not negative. *)
Definition nonneg (x : float) : Prop := ∃ r, x = Fin r ∧ 0 <= r.

End landmark_data.

Section change_trace_data.
Import ChangeDetector.

(** The times of the observations that a detector admits, in order. *)
Fixpoint admitted_times (th : thresholds) (self : state) (obs : list observation)
    : list datetime :=
  match obs with
  | [] => []
  | o :: obs' =>
      match should_save_frame th self (obs_time o) (obs_landmarks o) (obs_pose o) with
      | Ok (true, self') => obs_time o :: admitted_times th self' obs'
      | Ok (false, self') => admitted_times th self' obs'
      | Raise _ => admitted_times th self obs'
      end
  end.

(** Each time of the list is at least [MIN_FRAME_INTERVAL] after the one
    before it. *)
Definition spaced (th : thresholds) (times : list datetime) : Prop :=
  ∀ i t t', times !! i = Some t → times !! S i = Some t' →
    (total_seconds t' t <? MIN_FRAME_INTERVAL th)%float = false.

(** A full landmark set, here with every landmark at one place, and a
    head pose. *)
Definition still_landmarks : landmarks := replicate 478 (Fin 320, Fin 240, Fin 0).

Definition level_pose : gmap string float :=
  list_to_map [("pitch", Fin 0); ("yaw", Fin 0); ("roll", Fin 0)]%string.

(** A detector that has admitted [still_landmarks] with [level_pose]. *)
Definition watching : state :=
  {| last_landmarks := Some still_landmarks; last_pose := Some level_pose;
     last_save_time := Some 0%Z; frame_count := 1 |}.

(** A detector that has admitted the two landmarks of [first_shot]. *)
Definition wedged : state :=
  {| last_landmarks := Some first_shot; last_pose := None;
     last_save_time := Some 0%Z; frame_count := 1 |}.

End change_trace_data.

Section expression_samples.



(** Metrics under names that no expression lists. *)
Definition foreign_metrics : gmap string float :=
  list_to_map [("jaw_drop", Fin 0.4)]%string.

End expression_samples.

Section mesh_orientation_data.
Import MeshGenerator.

(** The same face with its second and third vertex exchanged. *)
Definition flip_face (f : nat * nat * nat) : nat * nat * nat :=
  let '(i, j, k) := f in (i, k, j).

(** The opposite vector. *)
Definition pneg (p : point) : point := (neg (px p), neg (py p), neg (pz p)).

(** A unit square cut into two triangles. *)
Definition quad_vertices : list point :=
  [ (Fin 0, Fin 0, Fin 0); (Fin 1, Fin 0, Fin 0);
    (Fin 1, Fin 1, Fin 0); (Fin 0, Fin 1, Fin 0) ].

Definition quad_faces : list (nat * nat * nat) := [ (0, 1, 2); (0, 2, 3) ]%nat.

End mesh_orientation_data.

Section contour_data.
Import GeometryAnalyzer.

(** Two of the indexed landmarks differ in the coordinate. *)
Definition spans (l : landmarks) (indices : list nat) (coord : point → float) : Prop :=
  ∃ i j p q, i ∈ indices ∧ j ∈ indices ∧ l !! i = Some p ∧ l !! j = Some q
             ∧ (coord p <? coord q)%float.

(** The feature has at least [n] indices, all of them rows of [l]. *)
Definition feature_ready (feature_indices : gmap string (list nat)) (l : landmarks)
    (name : string) (n : nat) : Prop :=
  ∃ indices, feature_indices !! name = Some indices
             ∧ (n <= length indices)%nat
             ∧ Forall (λ i, (i < length l)%nat) indices.

(** Landmarks on which every proportion is defined: numbers, a face
    contour with a width and a height, and the features present. *)
Definition proportions_ready (feature_indices : gmap string (list nat))
    (l : landmarks) : Prop :=
  finite_landmarks l
  ∧ (∃ contour, feature_indices !! "face_contour"%string = Some contour
                ∧ Forall (λ i, (i < length l)%nat) contour
                ∧ spans l contour px ∧ spans l contour py)
  ∧ feature_ready feature_indices l "left_eye" 1
  ∧ feature_ready feature_indices l "right_eye" 1
  ∧ feature_ready feature_indices l "nose_bridge" 1
  ∧ feature_ready feature_indices l "mouth" 2.

(** The contour points that lie strictly left, and strictly right, of
    the mean [x] of the contour. *)
Definition left_of_center (contour : list point) : list point :=
  filter (λ p, (px p <? px (pmean contour))%float = true) contour.

Definition right_of_center (contour : list point) : list point :=
  filter (λ p, (px p >? px (pmean contour))%float = true) contour.

(** A landmark set whose four contour points span a width and a height. *)
Definition oval_contour_landmarks : landmarks :=
  [ (Fin 100, Fin 200, Fin 0); (Fin 200, Fin 200, Fin 0);
    (Fin 150, Fin 260, Fin 0); (Fin 150, Fin 140, Fin 0);
    (Fin 130, Fin 180, Fin 0); (Fin 170, Fin 180, Fin 0);
    (Fin 150, Fin 170, Fin 0); (Fin 150, Fin 190, Fin 0);
    (Fin 135, Fin 210, Fin 0); (Fin 165, Fin 210, Fin 0) ].

End contour_data.

(* ===================================================================== *)
(** * Properties *)
(* ===================================================================== *)

(** ** Evaluating concrete numbers *)

(** Decides the comparisons of concrete reals that a computation meets. *)
Ltac Rdecide :=
  repeat match goal with
    | |- context [bool_decide ?P] =>
        first [ rewrite (bool_decide_eq_true_2 P) by (try done; lra)
              | rewrite (bool_decide_eq_false_2 P) by (try done; lra) ]
    end.

Lemma Rabs_eval_nonneg (x : R) : 0 <= x → Rabs x = x.
Proof. intros; apply Rabs_pos_eq; lra. Qed.

Lemma Rabs_eval_neg (x : R) : x <= 0 → Rabs x = - x.
Proof. intros H. destruct (Req_dec x 0) as [->|]; [rewrite Rabs_R0; lra|]. apply Rabs_left; lra. Qed.

Ltac Rabs_eval :=
  repeat match goal with
    | |- context [Rabs ?x] =>
        first [ rewrite (Rabs_eval_nonneg x) by lra
              | rewrite (Rabs_eval_neg x) by lra ]
    end.

(** Proves an equation between two concrete real expressions. *)
Ltac Rcompute := first [ lra | field_simplify; lra | field_simplify_eq; lra ].

Lemma lookup_list_to_map_assoc {A} (l : list (string * A)) (k : string) :
  (list_to_map l : gmap string A) !! k = assoc k l.
Proof.
  induction l as [|[k' v] l IH]; simpl; [apply lookup_empty|].
  rewrite lookup_insert. destruct (String.eqb_spec k' k) as [->|Hne].
  - by rewrite decide_True.
  - by rewrite decide_False.
Qed.

Ltac dict_eval :=
  repeat (rewrite lookup_list_to_map_assoc;
          cbn [assoc String.eqb Ascii.eqb Bool.eqb]).

(** One step of evaluation of a Python expression over concrete numbers. *)
Ltac py_step :=
  first
    [ progress cbn [mbind result_bind mret result_ret
                    add sub mul div neg abs Float.sqrt ltb eqb is_nan is_finite
                    orb andb negb xorb default from_option Datatypes.id
                    fst snd px py pz
                    BiometricAuthenticator.g_mean BiometricAuthenticator.a_mean
                    BiometricAuthenticator.c_mean]
    | progress unfold Py.truediv, Py.max, Py.getitem, Py.index, gtb, geb, leb
    | progress Rdecide
    | progress Rabs_eval
    | progress dict_eval ].

Ltac py_eval := repeat py_step.

Lemma sqrt_of_square (x y : R) : 0 <= y → x = y * y → R_sqrt.sqrt x = y.
Proof. intros Hy ->. by apply sqrt_square. Qed.

(** Replaces every square root whose value is [y]. *)
Ltac sqrt_eval y :=
  repeat match goal with
    | |- context [R_sqrt.sqrt ?x] => rewrite (sqrt_of_square x y) by lra
    end.

Section matcher.
Import BiometricAuthenticator.

(** *** C2 *)

(** C2. A call of [verify_biometric] whose profile argument or whose live
    data argument is absent returns at once: the decision is a reject and
    the information is the explicit error "Missing profile or current
    data", a result of another shape than a scored one, so no category is
    evaluated and no score is computed. *)
Theorem verify_biometric_missing_data (tol : gmap string float) :
  (∀ d, verify_biometric tol None d
        = Ok (false, ErrorInfo "Missing profile or current data"))
  ∧ (∀ p, verify_biometric tol p None
          = Ok (false, ErrorInfo "Missing profile or current data"))
  ∧ (∀ p d b overall details,
       verify_biometric tol p d = Ok (b, ScoreInfo overall details) →
       is_Some p ∧ is_Some d).
Proof.
  split; [done|]. split; [by intros []|].
  intros [p|] [d|] b overall details H; try done.
Qed.

(** *** C1 *)

(** C1. On the profile [level_profile] and the live data that equals its
    stored means, with the default thresholds, [verify_biometric] does not
    return a score of 1.0 and an accept: the geometry loop divides by
    [mean * threshold = 0] and the call raises [ZeroDivisionError]. *)
Theorem verify_biometric_zero_mean_raises :
  verify_biometric default_tolerance_thresholds
    (Some level_profile) (Some level_live) = Raise ZeroDivisionError.
Proof.
  unfold verify_biometric, level_profile, level_live; cbn [geometry cur_geometry].
  unfold _verify_geometry.
  rewrite bool_decide_eq_false_2 by done.
  rewrite bool_decide_eq_false_2.
  2:{ intros H. apply (f_equal (λ m : gmap string float, m !! "nose_angle"%string)) in H.
      rewrite lookup_empty in H. revert H. by dict_eval. }
  cbn [orb geometry_matches]. dict_eval.
  unfold geometry_match_score, default_tolerance_thresholds.
  cbn [g_mean]. py_eval. done.
Qed.

(** *** C5 and C10 *)

Lemma spec_geometry_score_real (live mean t : R) :
  mean * t ≠ 0 →
  spec_geometry_score (Fin live) (Fin mean) (Fin t)
  = Fin (Rmax 0 (1 - Rabs (live - mean) / (mean * t))).
Proof.
  intros Hd. unfold spec_geometry_score, Py.max, gtb; cbn [sub neg add abs mul div ltb].
  rewrite (bool_decide_eq_false_2 (mean * t = 0)) by done. cbn [sub neg add ltb].
  replace (live + - mean) with (live - mean) by lra.
  set (q := Rabs (live - mean) / (mean * t)).
  replace (1 + - q) with (1 - q) by lra.
  case_bool_decide; f_equal.
  - rewrite Rmax_right; lra.
  - rewrite Rmax_left; lra.
Qed.

Lemma geometry_match_score_ok tol metric pv live :
  (g_mean pv * tolerance_of tol metric =? Fin 0)%float = false →
  geometry_match_score tol metric pv live
  = Ok (spec_geometry_score live (g_mean pv) (tolerance_of tol metric)).
Proof.
  intros H. unfold geometry_match_score, Py.truediv.
  fold (tolerance_of tol metric). by rewrite H.
Qed.

Lemma geometry_match_score_raise tol metric pv live :
  (g_mean pv * tolerance_of tol metric =? Fin 0)%float = true →
  geometry_match_score tol metric pv live = Raise ZeroDivisionError.
Proof.
  intros H. unfold geometry_match_score, Py.truediv.
  fold (tolerance_of tol metric). by rewrite H.
Qed.

Lemma geometry_matches_spec tol pg cg :
  denominators_nonzero tol pg cg →
  geometry_matches tol pg cg = Ok (spec_geometry_matches tol pg cg).
Proof.
  induction pg as [|[metric pv] pg IH]; intros Hnz; [done|].
  assert (denominators_nonzero tol pg cg) as Hnz'.
  { intros m v l Hin. apply Hnz. by right. }
  cbn [geometry_matches spec_geometry_matches omap list_omap].
  destruct (cg !! metric) as [live|] eqn:Hl; cbn [mbind option_bind].
  - rewrite (geometry_match_score_ok _ _ _ _ (Hnz metric pv live ltac:(left) Hl)).
    cbn [mbind result_bind]. by rewrite (IH Hnz').
  - by apply IH.
Qed.

Lemma geometry_matches_skip tol pg1 pg2 cg metric pv :
  cg !! metric = None →
  geometry_matches tol (pg1 ++ (metric, pv) :: pg2) cg
  = geometry_matches tol (pg1 ++ pg2) cg.
Proof.
  intros Hl. induction pg1 as [|[m v] pg1 IH]; cbn [app geometry_matches].
  - by rewrite Hl.
  - by rewrite IH.
Qed.

Lemma verify_geometry_spec tol pg cg :
  denominators_nonzero tol pg cg →
  spec_geometry_matches tol pg cg ≠ [] → cg ≠ ∅ →
  _verify_geometry tol (Some pg) (Some cg)
  = Ok (GeometryResult (Np.mean (spec_geometry_matches tol pg cg))
          (zip pg.*1 (spec_geometry_matches tol pg cg))).
Proof.
  intros Hnz Hm Hcg. unfold _verify_geometry.
  assert (pg ≠ []) by (by intros ->).
  rewrite !bool_decide_eq_false_2 by done. cbn [orb].
  rewrite geometry_matches_spec by done. cbn [mbind result_bind].
  by rewrite bool_decide_eq_false_2.
Qed.

Lemma geometry_score_example :
  spec_geometry_score (Fin 1.35) (Fin 1.30) (Fin 0.05) = Fin (1 - 0.05 / 0.065)
  ∧ 0.23 <= 1 - 0.05 / 0.065 < 0.231.
Proof.
  split; [|lra]. rewrite spec_geometry_score_real by lra. f_equal.
  rewrite Rabs_eval_nonneg by lra. rewrite Rmax_right; lra.
Qed.

(** *** C1, on the remaining inputs *)

(** What holds of the claim elsewhere: the decision rule, and the score of
    a live feature set that equals the stored means when no compared mean
    and no threshold is zero. *)

Lemma verify_biometric_decision tol p d b info :
  verify_biometric tol (Some p) (Some d) = Ok (b, info) →
  ∃ rg rp rc,
    info = ScoreInfo (Np.mean (map match_score_of [rg; rp; rc])) (rg, rp, rc)
    ∧ b = (Np.mean (map match_score_of [rg; rp; rc]) >=? Fin 0.8)%float.
Proof.
  unfold verify_biometric.
  destruct (_verify_geometry _ _ _) as [rg|]; [|done].
  destruct (_verify_pose _ _ _) as [rp|]; [|done].
  destruct (_verify_color _ _ _) as [rc|]; [|done].
  cbn [mbind result_bind]. rewrite bool_decide_eq_false_2 by done.
  intros [= <- <-]. by exists rg, rp, rc.
Qed.









Lemma norm_zero3 : Np.norm [Fin 0; Fin 0; Fin 0] = Fin 0.
Proof.
  unfold Np.norm, Np.sum. cbn [map foldl mul add Float.sqrt].
  replace (0 + 0 * 0 + 0 * 0 + 0 * 0) with 0 by lra.
  rewrite bool_decide_eq_false_2 by lra. by rewrite sqrt_0.
Qed.



(** C5. When no compared metric has a zero [mean * threshold], the list
    of per-metric scores that [_verify_geometry] builds holds, in profile
    order, exactly one score for each profile metric that the live data
    also has, each equal to [max(0, 1 - |live - mean| / (mean * t))] with
    [t] the metric's tolerance; a metric that either side lacks adds no
    score (the scores are the same without a profile metric that the live
    data lacks), and the category score is the mean of the scores built.  With
    mean 1.30, tolerance 0.05 and live value 1.35 the score is
    [1 - 0.05 / 0.065], which is 0.23 to two places. *)
Theorem geometry_score_formula tol pg cg :
  denominators_nonzero tol pg cg →
  geometry_matches tol pg cg = Ok (spec_geometry_matches tol pg cg)
  ∧ (∀ live mean t : R, mean * t ≠ 0 →
       spec_geometry_score (Fin live) (Fin mean) (Fin t)
       = Fin (Rmax 0 (1 - Rabs (live - mean) / (mean * t))))
  ∧ (spec_geometry_matches tol pg cg ≠ [] → cg ≠ ∅ →
       _verify_geometry tol (Some pg) (Some cg)
       = Ok (GeometryResult (Np.mean (spec_geometry_matches tol pg cg))
               (zip pg.*1 (spec_geometry_matches tol pg cg))))
  ∧ (∀ pg1 pg2 metric pv, pg = pg1 ++ (metric, pv) :: pg2 → cg !! metric = None →
       geometry_matches tol pg cg = geometry_matches tol (pg1 ++ pg2) cg)
  ∧ (spec_geometry_score (Fin 1.35) (Fin 1.30) (Fin 0.05) = Fin (1 - 0.05 / 0.065)
     ∧ 0.23 <= 1 - 0.05 / 0.065 < 0.231).
Proof.
  intros Hnz. split; [by apply geometry_matches_spec|].
  split; [apply spec_geometry_score_real|].
  split; [by apply verify_geometry_spec|].
  split; [|apply geometry_score_example].
  intros pg1 pg2 metric pv -> Hl. by apply geometry_matches_skip.
Qed.

Lemma example_denominators_nonzero :
  denominators_nonzero example_tolerance example_profile_geometry example_live_geometry.
Proof.
  intros metric pv live Hin _. apply list_elem_of_singleton in Hin as [= -> ->].
  unfold tolerance_of, example_tolerance. py_eval. done.
Defined.

Lemma geometry_score_formula_witness :
  geometry_matches example_tolerance example_profile_geometry example_live_geometry
  = Ok [Fin (1 - 0.05 / 0.065)].
Proof.
  rewrite (proj1 (geometry_score_formula example_tolerance example_profile_geometry
                    example_live_geometry example_denominators_nonzero)).
  unfold spec_geometry_matches, example_profile_geometry, example_live_geometry,
         tolerance_of, example_tolerance.
  cbn [omap list_omap]. dict_eval. cbn [mbind option_bind default from_option
                                        Datatypes.id g_mean].
  by rewrite (proj1 geometry_score_example).
Defined.

(** C10. A geometry metric that the profile and the live data both have
    and that the tolerance map lacks is neither skipped nor an error: its
    score is computed with the tolerance 0.1, and that score is one of the
    scores whose mean is the geometry category score. *)
Theorem geometry_default_tolerance tol pg cg metric pv live :
  (metric, pv) ∈ pg → cg !! metric = Some live → tol !! metric = None →
  denominators_nonzero tol pg cg →
  geometry_match_score tol metric pv live
  = Ok (spec_geometry_score live (g_mean pv) (Fin 0.1))
  ∧ ∃ matches,
      _verify_geometry tol (Some pg) (Some cg)
      = Ok (GeometryResult (Np.mean matches) (zip pg.*1 matches))
      ∧ spec_geometry_score live (g_mean pv) (Fin 0.1) ∈ matches.
Proof.
  intros Hin Hl Ht Hnz.
  assert (tolerance_of tol metric = Fin 0.1) as Htol
    by (unfold tolerance_of; by rewrite Ht).
  assert (spec_geometry_score live (g_mean pv) (Fin 0.1)
          ∈ spec_geometry_matches tol pg cg) as Hm.
  { apply list_elem_of_omap. exists (metric, pv). split; [done|].
    cbn. rewrite Hl. cbn. by rewrite Htol. }
  split.
  - rewrite <- Htol. apply geometry_match_score_ok. by eapply Hnz.
  - exists (spec_geometry_matches tol pg cg). split; [|done].
    apply verify_geometry_spec; [done| |].
    + intros E. rewrite E in Hm. by apply not_elem_of_nil in Hm.
    + intros ->. by rewrite lookup_empty in Hl.
Qed.

Lemma unlisted_denominators_nonzero :
  denominators_nonzero default_tolerance_thresholds
    unlisted_profile_geometry unlisted_live_geometry.
Proof.
  intros metric pv live Hin _. apply list_elem_of_singleton in Hin as [= -> ->].
  unfold tolerance_of, default_tolerance_thresholds. py_eval. done.
Defined.

Lemma geometry_default_tolerance_witness :
  geometry_match_score default_tolerance_thresholds "jaw_width"
    {| g_mean := Fin 100; g_std := Fin 1; g_min := Fin 98; g_max := Fin 102 |}
    (Fin 104)
  = Ok (spec_geometry_score (Fin 104) (Fin 100) (Fin 0.1))
  ∧ ∃ matches,
      _verify_geometry default_tolerance_thresholds
        (Some unlisted_profile_geometry) (Some unlisted_live_geometry)
      = Ok (GeometryResult (Np.mean matches)
              (zip unlisted_profile_geometry.*1 matches))
      ∧ spec_geometry_score (Fin 104) (Fin 100) (Fin 0.1) ∈ matches.
Proof.
  apply (geometry_default_tolerance default_tolerance_thresholds
           unlisted_profile_geometry unlisted_live_geometry "jaw_width"
           {| g_mean := Fin 100; g_std := Fin 1; g_min := Fin 98; g_max := Fin 102 |}
           (Fin 104)).
  - by left.
  - unfold unlisted_live_geometry. by dict_eval.
  - unfold default_tolerance_thresholds. by dict_eval.
  - exact unlisted_denominators_nonzero.
Defined.

End matcher.

Section change_gate.
Import ChangeDetector.

(** *** C3 *)

(** C3. A detector in its initial state, configured with a positive
    capacity, admits its first observation whatever the landmarks and the
    head pose are: the landmark change against no previous landmarks is
    +infinity, and the call answers [True] and records the observation as
    the last admitted one, with one admitted frame. *)
Theorem first_observation_admitted th current_time landmarks_array head_pose :
  (0 < MAX_STORED_FRAMES th)%Z →
  calculate_landmark_change landmarks_array None = Ok PInf
  ∧ should_save_frame th init current_time landmarks_array head_pose
    = Ok (true, {| last_landmarks := Some landmarks_array;
                   last_pose := head_pose;
                   last_save_time := Some current_time;
                   frame_count := 1 |}).
Proof.
  intros Hcap. split; [done|].
  unfold should_save_frame, init;
    cbn [last_save_time frame_count last_landmarks last_pose].
  rewrite bool_decide_eq_false_2 by lia.
  cbn [calculate_landmark_change mbind result_bind].
  by rewrite !orb_true_r.
Qed.

Lemma first_observation_admitted_witness :
  calculate_landmark_change [(Fin 320, Fin 240, Fin 0)] None = Ok PInf
  ∧ should_save_frame settings_thresholds init 0%Z [(Fin 320, Fin 240, Fin 0)] None
    = Ok (true, {| last_landmarks := Some [(Fin 320, Fin 240, Fin 0)];
                   last_pose := None;
                   last_save_time := Some 0%Z;
                   frame_count := 1 |}).
Proof.
  apply (first_observation_admitted settings_thresholds 0%Z
           [(Fin 320, Fin 240, Fin 0)] None).
  cbn. lia.
Defined.

(** *** C4 *)

(** A call either leaves the detector as it was and answers [False], or
    answers [True] below capacity and counts one more frame. *)
Lemma should_save_frame_outcome th self t lm hp b self' :
  should_save_frame th self t lm hp = Ok (b, self') →
  (b = false ∧ self' = self)
  ∨ (b = true ∧ (frame_count self < MAX_STORED_FRAMES th)%Z
     ∧ frame_count self' = (frame_count self + 1)%Z
     ∧ last_save_time self' = Some t
     ∧ last_landmarks self' = Some lm).
Proof.
  unfold should_save_frame.
  destruct (match last_save_time self with Some _ => _ | None => _ end);
    [intros [= <- <-]; by left|].
  case_bool_decide as Hcap; [intros [= <- <-]; by left|].
  destruct (calculate_landmark_change _ _) as [lc|]; [|done].
  cbn [mbind result_bind].
  destruct (match last_landmarks self with Some _ => _ | None => _ end) as [ec|];
    [|done].
  cbn [mbind result_bind].
  destruct (match last_pose self with Some _ => _ | None => _ end) as [pc|];
    [|done].
  cbn [mbind result_bind].
  destruct (_ || _ || _); intros [= <- <-]; [right|by left].
  cbn. repeat split; lia.
Qed.

Lemma step_frame_count th self o :
  (frame_count self <= MAX_STORED_FRAMES th)%Z →
  (frame_count (step th self o) <= MAX_STORED_FRAMES th)%Z.
Proof.
  intros H. unfold step.
  destruct (should_save_frame _ _ _ _ _) as [[b self']|] eqn:E; [|done].
  apply should_save_frame_outcome in E as [[_ ->]|(_ & ? & ? & _)]; lia.
Qed.

Lemma foldl_step_frame_count th obs self :
  (frame_count self <= MAX_STORED_FRAMES th)%Z →
  (frame_count (foldl (step th) self obs) <= MAX_STORED_FRAMES th)%Z.
Proof.
  revert self. induction obs as [|o obs IH]; intros self H; [done|].
  cbn [foldl]. apply IH. by apply step_frame_count.
Qed.

(** C4. For a detector with a capacity that is not negative: an
    observation that arrives less than [MIN_FRAME_INTERVAL] after the last
    admission is rejected and changes nothing, whatever its landmarks
    (so also when they moved by more than [LANDMARK_CHANGE_THRESHOLD]);
    an observation that arrives when the frame count has reached
    [MAX_STORED_FRAMES] is rejected and changes nothing; and after any
    sequence of observations fed to a fresh detector the frame count is
    at most [MAX_STORED_FRAMES]. *)
Theorem gate_rate_limit_and_capacity th :
  (0 <= MAX_STORED_FRAMES th)%Z →
  (∀ self t0 current_time landmarks_array head_pose,
     last_save_time self = Some t0 →
     (total_seconds current_time t0 <? MIN_FRAME_INTERVAL th)%float = true →
     should_save_frame th self current_time landmarks_array head_pose
     = Ok (false, self))
  ∧ (∀ self current_time landmarks_array head_pose,
       (frame_count self >= MAX_STORED_FRAMES th)%Z →
       should_save_frame th self current_time landmarks_array head_pose
       = Ok (false, self))
  ∧ (∀ obs, (frame_count (run th obs) <= MAX_STORED_FRAMES th)%Z).
Proof.
  intros Hcap. split; [|split].
  - intros self t0 t lm hp Ht Hlt. unfold should_save_frame. by rewrite Ht, Hlt.
  - intros self t lm hp Hc. unfold should_save_frame.
    destruct (match last_save_time self with Some _ => _ | None => _ end); [done|].
    by rewrite bool_decide_eq_true_2.
  - intros obs. unfold run. by apply foldl_step_frame_count.
Qed.

Lemma gate_rate_limit_and_capacity_witness :
  (∀ self t0 current_time landmarks_array head_pose,
     last_save_time self = Some t0 →
     (total_seconds current_time t0 <? Fin 0.5)%float = true →
     should_save_frame settings_thresholds self current_time landmarks_array head_pose
     = Ok (false, self))
  ∧ (∀ self current_time landmarks_array head_pose,
       (frame_count self >= 100)%Z →
       should_save_frame settings_thresholds self current_time landmarks_array head_pose
       = Ok (false, self))
  ∧ (∀ obs, (frame_count (run settings_thresholds obs) <= 100)%Z).
Proof.
  apply (gate_rate_limit_and_capacity settings_thresholds). cbn. lia.
Defined.

Example second_shot_moved :
  calculate_landmark_change second_shot (Some first_shot) = Ok (Fin 0.6).
Proof.
  unfold calculate_landmark_change, second_shot, first_shot, array_sub.
  rewrite bool_decide_eq_true_2 by done.
  cbn [mbind result_bind zip_with map Np.max Np.min foldl].
  unfold Np.maximum, Np.minimum, pnorm, psub, Np.norm, Np.mean, Np.sum, of_nat.
  cbn [map foldl length INR]. py_eval.
  sqrt_eval 30. sqrt_eval 50. py_eval. do 2 f_equal. lra.
Qed.

Example rate_limited_despite_movement :
  ∃ self,
    should_save_frame settings_thresholds init 0%Z first_shot None = Ok (true, self)
    ∧ should_save_frame settings_thresholds self 100000%Z second_shot None
      = Ok (false, self)
    ∧ (Fin 0.6 >? LANDMARK_CHANGE_THRESHOLD settings_thresholds)%float = true.
Proof.
  eexists. split; [reflexivity|]. split.
  - unfold should_save_frame, total_seconds.
    cbn [last_save_time MIN_FRAME_INTERVAL settings_thresholds ltb].
    change (100000 - 0)%Z with 100000%Z.
    by rewrite bool_decide_eq_true_2 by lra.
  - cbn. apply bool_decide_eq_true_2. lra.
Qed.

End change_gate.

Section expression.
Import ExpressionAnalyzer.

(** *** C8 *)

Lemma is_finite_Fin (a : float) : is_finite a → ∃ r, a = Fin r.
Proof. destruct a; [by eexists|done..]. Qed.

Lemma sum_from_finite (a : R) (l : list float) :
  Forall (λ x, is_finite x) l → ∃ r, foldl add (Fin a) l = Fin r.
Proof.
  revert a. induction l as [|x l IH]; intros a Hl; [by eexists|].
  apply Forall_cons in Hl as [Hx Hl]. apply is_finite_Fin in Hx as [r ->].
  cbn [foldl add]. by apply IH.
Qed.

Lemma mean_finite (l : list float) :
  l ≠ [] → Forall (λ x, is_finite x) l → is_finite (Np.mean l).
Proof.
  intros Hne Hl. unfold Np.mean, Np.sum, of_nat.
  destruct (sum_from_finite 0 l Hl) as [r ->]. cbn [div].
  rewrite bool_decide_eq_false_2; [done|]. apply not_0_INR. by destruct l.
Qed.

Lemma expression_score_finite metrics chars :
  metrics_finite metrics → Forall (λ kt, is_finite kt.2) chars →
  is_finite (_calculate_expression_score metrics chars).
Proof.
  intros Hm Hc. unfold _calculate_expression_score. case_bool_decide as Hd; [done|].
  assert (Forall (λ x, is_finite x) (differences_of metrics chars)) as Hf.
  { apply Forall_forall. intros d Hin.
    apply list_elem_of_omap in Hin as ([k t] & Hkt & Hd').
    cbn in Hd'. destruct (metrics !! k) as [v|] eqn:Hv; [|done].
    cbn in Hd'. injection Hd' as <-.
    apply Hm, is_finite_Fin in Hv as [r ->].
    rewrite Forall_forall in Hc. apply Hc, is_finite_Fin in Hkt as [r' Ht].
    cbn in Ht. by rewrite Ht. }
  destruct (is_finite_Fin _ (mean_finite _ Hd Hf)) as [m ->]. done.
Qed.

Lemma scores_finite metrics :
  metrics_finite metrics → Forall (λ p, is_finite p.2) (scores_of metrics).
Proof.
  intros Hm. unfold scores_of, characteristics.
  repeat (apply Forall_cons; split;
          [apply expression_score_finite; [done|by repeat constructor]|]).
  constructor.
Qed.

Lemma ltb_lt_Fin (a : float) (x y : R) :
  (a <? Fin x)%float → x < y → (a <? Fin y)%float.
Proof.
  destruct a as [z|s|]; cbn; [|done..]. intros Hz Hxy.
  apply bool_decide_unpack in Hz. apply bool_decide_pack. lra.
Qed.

Lemma leb_lt_Fin (a : float) (x y : R) :
  (a <=? Fin x)%float → x < y → (a <? Fin y)%float.
Proof.
  unfold leb. destruct a as [z|s|]; cbn; [|by rewrite orb_false_r|done].
  intros Hz Hxy. apply bool_decide_pack.
  apply orb_prop_elim in Hz as [Hz|Hz]; apply bool_decide_unpack in Hz; lra.
Qed.

(** On numbers, [max(..., key=key)] returns the first of the items whose
    key is greatest: the items before it have a smaller key, the items
    after it have a key that is not greater. *)
Lemma max_by_first_greatest {A} (key : A → float) (x : A) (l : list A) :
  Forall (λ y, is_finite (key y)) (x :: l) →
  ∃ l1 l2,
    x :: l = l1 ++ foldl (keep_greater key) x l :: l2
    ∧ Forall (λ y, (key y <? key (foldl (keep_greater key) x l))%float) l1
    ∧ Forall (λ y, (key y <=? key (foldl (keep_greater key) x l))%float) l2.
Proof.
  induction l as [|y l IH] using rev_ind; intros Hf.
  - exists [], []. by repeat split.
  - rewrite app_comm_cons in Hf. apply Forall_app in Hf as [Hf Hy].
    apply Forall_inv in Hy.
    destruct (IH Hf) as (l1 & l2 & Hsplit & H1 & H2).
    rewrite foldl_app. cbn [foldl]. set (b := foldl (keep_greater key) x l) in *.
    assert (is_finite (key b)) as Hb.
    { rewrite Forall_forall in Hf. apply Hf. rewrite Hsplit.
      apply elem_of_app. right. by left. }
    apply is_finite_Fin in Hb as [rb Hrb]. apply is_finite_Fin in Hy as [ry Hry].
    assert (keep_greater key b y = if bool_decide (rb < ry) then y else b) as ->.
    { unfold keep_greater, gtb. by rewrite Hry, Hrb. }
    case_bool_decide as Hlt.
    + exists (x :: l), []. split; [by rewrite app_comm_cons|]. split; [|done].
      rewrite Hsplit. apply Forall_app. split; [|apply Forall_cons; split].
      * eapply Forall_impl; [exact H1|]. intros z Hz. rewrite Hry.
        rewrite Hrb in Hz. by eapply ltb_lt_Fin.
      * rewrite Hrb, Hry. cbn. by apply bool_decide_pack.
      * eapply Forall_impl; [exact H2|]. intros z Hz. rewrite Hry.
        rewrite Hrb in Hz. by eapply leb_lt_Fin.
    + exists l1, (l2 ++ [y]). split.
      * by rewrite app_comm_cons, Hsplit, <- app_assoc.
      * split; [done|]. apply Forall_app. split; [done|]. apply Forall_singleton.
        rewrite Hry, Hrb. unfold leb. cbn [ltb eqb].
        destruct (Rtotal_order ry rb) as [?|[->|?]]; [| |lra].
        -- by rewrite bool_decide_eq_true_2.
        -- rewrite (bool_decide_eq_true_2 (rb = rb)) by done.
           by rewrite orb_true_r.
Qed.

Lemma max_of_values {A} (key : A → float) (x : A) (l : list A) :
  foldl Py.max (key x) (map key l) = key (foldl (keep_greater key) x l).
Proof.
  revert x. induction l as [|y l IH]; intros x; [done|].
  cbn [map foldl]. unfold Py.max at 2, keep_greater at 2.
  destruct (key y >? key x)%float; apply IH.
Qed.

(** C8. When every computed metric is a number, the scores of smile,
    frown, surprise and squint, listed in that order, split around one
    expression whose score [m] is the greatest: the scores before it are
    smaller than [m] and the scores after it are not greater, so that of
    several expressions with the greatest score the first in the order
    smile, frown, surprise, squint is taken.  The classifier returns
    neutral with confidence [1 - m] when [m] is below the neutral
    threshold, and that expression with confidence [m] otherwise. *)
Theorem classify_expression_first_greatest neutral_threshold metrics movement :
  metrics_finite metrics →
  ∃ before best m after,
    scores_of metrics = before ++ (best, m) :: after
    ∧ (scores_of metrics).*1 = [SMILE; FROWN; SURPRISE; SQUINT]
    ∧ Forall (λ p, (p.2 <? m)%float) before
    ∧ Forall (λ p, (p.2 <=? m)%float) after
    ∧ _classify_expression neutral_threshold metrics movement
      = Ok (if (m <? neutral_threshold)%float
            then (NEUTRAL, (Fin 1 - m)%float)
            else (best, m)).
Proof.
  intros Hm. pose proof (scores_finite metrics Hm) as Hf.
  unfold _classify_expression.
  destruct (scores_of metrics) as [|x l] eqn:Hs; [done|].
  destruct (max_by_first_greatest snd x l Hf) as (l1 & l2 & Hsplit & H1 & H2).
  set (b := foldl (keep_greater snd) x l) in *.
  exists l1, b.1, b.2, l2. rewrite <- surjective_pairing.
  split; [done|]. split; [by rewrite <- Hs|]. split; [done|]. split; [done|].
  cbn [Py.max_of Py.max_by map mbind result_bind].
  rewrite max_of_values. fold (keep_greater (A:=Expression * float) snd). fold b.
  destruct (b.2 <? neutral_threshold)%float; [done|].
  by rewrite <- surjective_pairing.
Qed.

Lemma list_to_map_finite (l : list (string * float)) :
  Forall (λ kv, is_finite kv.2) l → metrics_finite (list_to_map l).
Proof.
  intros Hl k v. rewrite lookup_list_to_map_assoc.
  induction Hl as [|[k' v'] l Hv Hl IH]; cbn; [done|].
  destruct (String.eqb k' k); [|done]. by intros [= <-].
Defined.

Lemma classify_expression_first_greatest_witness :
  ∃ before best m after,
    scores_of smiling_metrics = before ++ (best, m) :: after
    ∧ (scores_of smiling_metrics).*1 = [SMILE; FROWN; SURPRISE; SQUINT]
    ∧ Forall (λ p, (p.2 <? m)%float) before
    ∧ Forall (λ p, (p.2 <=? m)%float) after
    ∧ _classify_expression (Fin 0.1) smiling_metrics ∅
      = Ok (if (m <? Fin 0.1)%float
            then (NEUTRAL, (Fin 1 - m)%float)
            else (best, m)).
Proof.
  apply (classify_expression_first_greatest (Fin 0.1) smiling_metrics ∅).
  apply list_to_map_finite. by repeat constructor.
Defined.

(** With no metric at all the four scores are 0.0, and a threshold of 0
    lets the greatest score through: of the four tied expressions the
    classifier names the first, smile. *)
Example tie_goes_to_smile :
  _classify_expression (Fin 0) ∅ ∅ = Ok (SMILE, Fin 0).
Proof.
  unfold _classify_expression, scores_of, _calculate_expression_score,
         differences_of, characteristics.
  cbn [map omap list_omap]. rewrite !lookup_empty. cbn [mbind option_bind].
  rewrite !bool_decide_eq_true_2 by done.
  cbn [map snd Py.max_of Py.max_by foldl]. py_eval. reflexivity.
Qed.

End expression.

Section geometry.
Import GeometryAnalyzer.

(** *** C7 *)

(** Unfolds the numpy reductions over a concrete array. *)
Ltac np_eval :=
  unfold Np.maximum, Np.minimum, pmean, pnorm, psub, Np.std, Np.norm, Np.mean,
         Np.sum, of_nat;
  cbn [map foldl length INR zip_with];
  py_eval.

(** C7. On the landmark set [flat_contour_landmarks], whose face contour
    has height 0, [calculate_proportions] checks no denominator and returns
    no sentinel: it divides by the height, and [width_height_ratio] and
    [nose_face_ratio] are +infinity, which is not a finite number. *)
Theorem proportions_divide_by_zero_height :
  calculate_proportions small_feature_indices flat_contour_landmarks
  = Ok (list_to_map [
      ("width_height_ratio", PInf); ("eye_spacing_ratio", Fin 0.4);
      ("nose_face_ratio", PInf); ("mouth_face_ratio", Fin 0.3) ]%string)
  ∧ is_finite PInf = false.
Proof.
  split; [|done].
  unfold calculate_proportions, feature, small_feature_indices, rows,
         flat_contour_landmarks.
  py_eval. cbn [Py.mapM]. py_eval.
  cbn [lookup list_lookup mbind result_bind map Np.max Np.min foldl]. np_eval.
  cbn [Py.mapM]. py_eval. cbn [lookup list_lookup mbind result_bind]. np_eval.
  cbn [Py.mapM]. py_eval. cbn [lookup list_lookup mbind result_bind length Nat.sub].
  np_eval. cbn [lookup list_lookup mbind result_bind]. np_eval.
  cbn [Py.mapM]. py_eval. cbn [lookup list_lookup mbind result_bind]. np_eval.
  sqrt_eval 40. sqrt_eval 20. sqrt_eval 30. py_eval.
  do 2 f_equal. repeat (f_equal; try Rcompute).
Qed.

(** There the mean distance to the centre is 0, and [roundness], computed
    as [1 - std / mean], is NaN. *)
Example roundness_divides_by_zero_mean :
  ∃ shape,
    analyze_face_shape small_feature_indices point_contour_landmarks = Ok shape
    ∧ shape !! "roundness"%string = Some NaN.
Proof.
  eexists. split.
  - unfold analyze_face_shape, feature, small_feature_indices, rows,
           point_contour_landmarks, flat_contour_landmarks.
    py_eval. cbn [Py.mapM replicate app drop]. py_eval.
    cbn [lookup list_lookup mbind result_bind length Nat.sub]. py_eval.
    cbn [lookup list_lookup mbind result_bind]. reflexivity.
  - dict_eval. f_equal.
    unfold pmean, Np.mean, Np.sum, of_nat. cbn [map foldl length INR]. py_eval.
    replace ((150 + 150 + 150 + 150) / (1 + 1 + 1 + 1)) with 150 by Rcompute.
    replace ((200 + 200 + 200 + 200) / (1 + 1 + 1 + 1)) with 200 by Rcompute.
    replace ((0 + 0 + 0 + 0) / (1 + 1 + 1 + 1)) with 0 by Rcompute.
    unfold pnorm, psub, Np.norm, Np.sum. cbn [map foldl]. py_eval. sqrt_eval 0.
    unfold Np.std, Np.mean, Np.sum, of_nat. cbn [map foldl length INR]. py_eval.
    replace ((0 + 0 + 0 + 0) / (1 + 1 + 1 + 1)) with 0 by Rcompute.
    py_eval.
    replace ((0 + 0 * 0 + 0 * 0 + 0 * 0 + 0 * 0) / (1 + 1 + 1 + 1)) with 0 by Rcompute.
    py_eval. sqrt_eval 0. py_eval. reflexivity.
Qed.

End geometry.

Section mesh.
Import MeshGenerator.

(** *** C9 *)

Lemma norm_zero_row : pnorm (Fin 0, Fin 0, Fin 0) = Fin 0.
Proof. unfold pnorm. cbn [px py pz fst snd]. apply norm_zero3. Qed.

Lemma normalize_zero :
  normalize (Fin 0, Fin 0, Fin 0) = (NaN, NaN, NaN)
  ∧ normalize_warnings (Fin 0, Fin 0, Fin 0)
    = [Np.InvalidValue; Np.InvalidValue; Np.InvalidValue].
Proof.
  unfold normalize, normalize_warnings. rewrite norm_zero_row.
  cbn [px py pz fst snd div omap list_omap Np.divide_warning].
  by rewrite !bool_decide_eq_true_2 by done.
Qed.

Lemma normalize_nonzero (a b c : R) :
  ¬ (a = 0 ∧ b = 0 ∧ c = 0) →
  0 < R_sqrt.sqrt (0 + a * a + b * b + c * c)
  ∧ normalize (Fin a, Fin b, Fin c)
    = (Fin (a / R_sqrt.sqrt (0 + a * a + b * b + c * c)),
       Fin (b / R_sqrt.sqrt (0 + a * a + b * b + c * c)),
       Fin (c / R_sqrt.sqrt (0 + a * a + b * b + c * c)))
  ∧ normalize_warnings (Fin a, Fin b, Fin c) = [].
Proof.
  intros Hne.
  assert (0 < 0 + a * a + b * b + c * c) as Hpos.
  { destruct (Req_dec a 0) as [->|]; [|nra]. destruct (Req_dec b 0) as [->|]; [|nra].
    destruct (Req_dec c 0) as [->|]; [|nra]. by destruct Hne. }
  pose proof (sqrt_lt_R0 _ Hpos) as Hs. split; [done|].
  unfold normalize, normalize_warnings, pnorm, Np.norm, Np.sum.
  cbn [px py pz fst snd map foldl mul add Float.sqrt].
  rewrite (bool_decide_eq_false_2 (_ < 0)) by lra.
  cbn [div omap list_omap Np.divide_warning].
  by rewrite !(bool_decide_eq_false_2 (R_sqrt.sqrt _ = 0)) by lra.
Qed.

Lemma collinear_cross : face_cross collinear_triple = (Fin 0, Fin 0, Fin 0).
Proof.
  unfold collinear_triple, face_cross, cross, psub. py_eval.
  repeat (f_equal; try lra).
Qed.

(** The claim fails on a degenerate triangle: the call raises nothing and
    reports nothing, the area is 0, and the three components of the normal
    are the NaN that the division of the zero cross product by its zero
    norm produces, with numpy's "invalid value" warning for each. *)
Lemma degenerate_face_normal_by_division :
  _calculate_face_metrics collinear_vertices collinear_face
  = Ok {| areas := [Fin 0]; normals := [(NaN, NaN, NaN)];
          mean_area := Fin 0; total_area := Fin 0 |}
  ∧ face_normal_warnings collinear_vertices collinear_face
    = Ok [Np.InvalidValue; Np.InvalidValue; Np.InvalidValue].
Proof.
  unfold _calculate_face_metrics, face_normal_warnings, face_vertices,
         collinear_vertices, collinear_face.
  cbn [Py.mapM]. py_eval. cbn [lookup list_lookup mbind result_bind map concat app].
  change (face_cross _) with (face_cross collinear_triple).
  rewrite collinear_cross. destruct normalize_zero as [-> ->].
  rewrite norm_zero_row. split; [|done].
  unfold Np.mean, Np.sum, of_nat. cbn [foldl length INR]. py_eval.
  do 2 f_equal; repeat (f_equal; try Rcompute).
Qed.

(** C9. For every mesh whose faces index existing vertices, the call
    returns, for each face, as area half the norm of the cross product of
    the two edge vectors from its first vertex, and as normal that cross
    product divided component by component by its norm, with no guard: on
    a face whose cross product is zero the division is 0/0, each component
    of the normal is NaN and numpy warns of an invalid value, and no
    exception is raised; on a face whose cross product is a non-zero vector
    of numbers the normal is that vector over its positive norm, without a
    warning. *)
Theorem face_metrics_area_and_normal vertices faces fv :
  face_vertices vertices faces = Ok fv →
  ∃ m,
    _calculate_face_metrics vertices faces = Ok m
    ∧ areas m = map (λ '(a, b, c), (pnorm (cross (psub b a) (psub c a)) / Fin 2)%float) fv
    ∧ normals m = map (λ f, normalize (face_cross f)) fv
    ∧ face_normal_warnings vertices faces
      = Ok (concat (map (λ f, normalize_warnings (face_cross f)) fv))
    ∧ (∀ f, f ∈ fv → face_cross f = (Fin 0, Fin 0, Fin 0) →
         normalize (face_cross f) = (NaN, NaN, NaN)
         ∧ normalize_warnings (face_cross f)
           = [Np.InvalidValue; Np.InvalidValue; Np.InvalidValue])
    ∧ (∀ f a b c, f ∈ fv → face_cross f = (Fin a, Fin b, Fin c) →
         ¬ (a = 0 ∧ b = 0 ∧ c = 0) →
         normalize (face_cross f)
         = (Fin (a / R_sqrt.sqrt (0 + a * a + b * b + c * c)),
            Fin (b / R_sqrt.sqrt (0 + a * a + b * b + c * c)),
            Fin (c / R_sqrt.sqrt (0 + a * a + b * b + c * c)))
         ∧ normalize_warnings (face_cross f) = []).
Proof.
  intros Hfv. unfold _calculate_face_metrics, face_normal_warnings. rewrite Hfv.
  cbn [mbind result_bind]. eexists. split; [done|]. cbn [areas normals].
  split.
  { rewrite map_map. apply map_ext. by intros [[a b] c]. }
  split; [by rewrite map_map|]. split; [done|]. split.
  - intros f _ ->. apply normalize_zero.
  - intros f a b c _ -> Hne. by apply normalize_nonzero.
Qed.

Lemma collinear_face_vertices :
  face_vertices collinear_vertices collinear_face = Ok [collinear_triple].
Proof. reflexivity. Defined.

Lemma face_metrics_area_and_normal_witness :
  ∃ m,
    _calculate_face_metrics collinear_vertices collinear_face = Ok m
    ∧ areas m
      = map (λ '(a, b, c), (pnorm (cross (psub b a) (psub c a)) / Fin 2)%float)
          [collinear_triple]
    ∧ normals m = map (λ f, normalize (face_cross f)) [collinear_triple]
    ∧ face_normal_warnings collinear_vertices collinear_face
      = Ok (concat (map (λ f, normalize_warnings (face_cross f)) [collinear_triple]))
    ∧ (∀ f, f ∈ [collinear_triple] →
         face_cross f = (Fin 0, Fin 0, Fin 0) →
         normalize (face_cross f) = (NaN, NaN, NaN)
         ∧ normalize_warnings (face_cross f)
           = [Np.InvalidValue; Np.InvalidValue; Np.InvalidValue])
    ∧ (∀ f a b c, f ∈ [collinear_triple] → face_cross f = (Fin a, Fin b, Fin c) →
         ¬ (a = 0 ∧ b = 0 ∧ c = 0) →
         normalize (face_cross f)
         = (Fin (a / R_sqrt.sqrt (0 + a * a + b * b + c * c)),
            Fin (b / R_sqrt.sqrt (0 + a * a + b * b + c * c)),
            Fin (c / R_sqrt.sqrt (0 + a * a + b * b + c * c)))
         ∧ normalize_warnings (face_cross f) = []).
Proof.
  exact (face_metrics_area_and_normal collinear_vertices collinear_face _
           collinear_face_vertices).
Defined.

End mesh.

Section depth.
Import DepthMapper.

(** *** C6 *)

Lemma scatter_nan (depth_map smoothed : list float) :
  Forall (λ s, is_finite s) smoothed →
  length smoothed = length (filter (λ d, is_nan d = false) depth_map) →
  ∃ out, scatter depth_map smoothed = Ok out
         ∧ Forall2 (λ d v, is_nan v = is_nan d) depth_map out.
Proof.
  revert smoothed. induction depth_map as [|d ds IH]; intros smoothed Hfin Hlen.
  - destruct smoothed; [|done]. by exists [].
  - cbn [scatter]. destruct (is_nan d) eqn:Hd.
    + rewrite filter_cons_False in Hlen by (by rewrite Hd).
      destruct (IH smoothed Hfin Hlen) as (out & -> & Hout).
      exists (NaN :: out). split; [done|]. by constructor.
    + rewrite filter_cons_True in Hlen by done.
      destruct smoothed as [|s ss]; [done|]. apply Forall_cons in Hfin as [Hs Hss].
      destruct (IH ss Hss) as (out & -> & Hout); [by injection Hlen|].
      exists (s :: out). split; [done|]. constructor; [|done].
      rewrite Hd. by destruct s.
Qed.

Lemma fill_map {C} (cs : list C) (d : C → float) (m : C → bool) (q : C → point2)
    (g : point2 → float) :
  zip_with (λ '(d, m) q, if (is_nan d && m : bool) then g q else d)
           (zip (map d cs) (map m cs)) (map q cs)
  = map (λ c, if (is_nan (d c) && m c : bool) then g (q c) else d c) cs.
Proof. induction cs as [|c cs IH]; [done|]. cbn. by rewrite <- IH. Qed.

Lemma fill_none {C} (cs : list C) (d : C → float) (m : C → bool) (q : C → point2)
    (g : point2 → float) :
  existsb (λ '(d, m), is_nan d && m) (zip (map d cs) (map m cs)) = false →
  map d cs = map (λ c, if (is_nan (d c) && m c : bool) then g (q c) else d c) cs.
Proof.
  induction cs as [|c cs IH]; [done|]. cbn. intros H.
  apply orb_false_elim in H as [-> H]. f_equal. by apply IH.
Qed.

(** The hull grows with the points; no point is both inside and outside;
    the points of the list and of the segments between them are not
    outside; a point strictly inside a triangle of three of the points is
    strictly inside the hull. *)
Lemma inside_hull_subset (part whole : list point2) (q : point2) :
  (∀ p, p ∈ part → p ∈ whole) → inside_hull part q → inside_hull whole q.
Proof.
  intros Hsub (qx & qy & -> & H). exists qx, qy. split; [done|].
  intros a b Hab. destruct (H a b Hab) as (x & y & Hin & Hpos).
  exists x, y. split; [by apply Hsub|done].
Qed.

Lemma inside_not_outside (points : list point2) (q : point2) :
  inside_hull points q → ¬ outside_hull points q.
Proof.
  intros (qx & qy & -> & Hin) (qx' & qy' & a & b & Hq & Hout).
  injection Hq as <- <-.
  destruct (Req_dec a 0) as [->|Ha].
  - destruct (Req_dec b 0) as [->|Hb].
    + destruct (Hin 1 0) as (x & y & Hp & _); [left; lra|].
      destruct (Hout _ Hp) as (x' & y' & _ & Hneg). lra.
    + destruct (Hin 0 b) as (x & y & Hp & Hpos); [by right|].
      destruct (Hout _ Hp) as (x' & y' & [= <- <-] & Hneg). lra.
  - destruct (Hin a b) as (x & y & Hp & Hpos); [by left|].
    destruct (Hout _ Hp) as (x' & y' & [= <- <-] & Hneg). lra.
Qed.

Lemma hull_point_not_outside (points : list point2) (p : point2) :
  p ∈ points → ¬ outside_hull points p.
Proof.
  intros Hp (qx & qy & a & b & -> & Hout).
  destruct (Hout _ Hp) as (x & y & [= <- <-] & Hneg). lra.
Qed.

Lemma segment_not_outside (points : list point2) (x1 y1 x2 y2 t : R) :
  (Fin x1, Fin y1) ∈ points → (Fin x2, Fin y2) ∈ points → 0 <= t <= 1 →
  ¬ outside_hull points
      (Fin ((1 - t) * x1 + t * x2), Fin ((1 - t) * y1 + t * y2)).
Proof.
  intros H1 H2 Ht (qx & qy & a & b & [= <- <-] & Hout).
  destruct (Hout _ H1) as (x & y & [= <- <-] & N1).
  destruct (Hout _ H2) as (x & y & [= <- <-] & N2).
  set (q1 := (1 - t) * x1 + t * x2) in *. set (q2 := (1 - t) * y1 + t * y2) in *.
  assert ((1 - t) * (a * (x1 - q1) + b * (y1 - q2))
          + t * (a * (x2 - q1) + b * (y2 - q2)) = 0) as Hsum
    by (unfold q1, q2; ring).
  destruct (Rle_dec t (1 / 2)); nra.
Qed.

Lemma triangle_inside (points : list point2) (x1 y1 x2 y2 x3 y3 u v w : R) :
  (Fin x1, Fin y1) ∈ points → (Fin x2, Fin y2) ∈ points →
  (Fin x3, Fin y3) ∈ points →
  (x2 - x1) * (y3 - y1) - (x3 - x1) * (y2 - y1) ≠ 0 →
  0 < u → 0 < v → 0 < w → u + v + w = 1 →
  inside_hull points
    (Fin (u * x1 + v * x2 + w * x3), Fin (u * y1 + v * y2 + w * y3)).
Proof.
  intros H1 H2 H3 Hdet Hu Hv Hw Hsum. eexists _, _. split; [reflexivity|].
  intros a b Hab.
  set (qx := u * x1 + v * x2 + w * x3). set (qy := u * y1 + v * y2 + w * y3).
  set (e1 := a * (x1 - qx) + b * (y1 - qy)).
  set (e2 := a * (x2 - qx) + b * (y2 - qy)).
  set (e3 := a * (x3 - qx) + b * (y3 - qy)).
  assert (u * e1 + v * e2 + w * e3 = 0) as Hzero.
  { unfold e1, e2, e3, qx, qy. replace w with (1 - u - v) by lra. ring. }
  destruct (Rlt_dec 0 e1) as [|N1]; [by exists x1, y1|].
  destruct (Rlt_dec 0 e2) as [|N2]; [by exists x2, y2|].
  destruct (Rlt_dec 0 e3) as [|N3]; [by exists x3, y3|].
  exfalso.
  assert (u * e1 <= 0) by nra. assert (v * e2 <= 0) by nra.
  assert (w * e3 <= 0) by nra.
  assert (e1 = 0) as E1 by nra. assert (e2 = 0) as E2 by nra.
  assert (e3 = 0) as E3 by nra.
  assert (a * (x2 - x1) + b * (y2 - y1) = 0) as L2 by (unfold e1, e2 in *; lra).
  assert (a * (x3 - x1) + b * (y3 - y1) = 0) as L3 by (unfold e1, e3 in *; lra).
  set (d := (x2 - x1) * (y3 - y1) - (x3 - x1) * (y2 - y1)) in *.
  assert (a * d = 0) as Ha.
  { replace (a * d) with ((a * (x2 - x1) + b * (y2 - y1)) * (y3 - y1)
                          - (a * (x3 - x1) + b * (y3 - y1)) * (y2 - y1))
      by (unfold d; ring). rewrite L2, L3. ring. }
  assert (b * d = 0) as Hb.
  { replace (b * d) with ((a * (x3 - x1) + b * (y3 - y1)) * (x2 - x1)
                          - (a * (x2 - x1) + b * (y2 - y1)) * (x3 - x1))
      by (unfold d; ring). rewrite L2, L3. ring. }
  apply Rmult_integral in Ha as [Ha|Ha]; [|done].
  apply Rmult_integral in Hb as [Hb|Hb]; [|done].
  destruct Hab; done.
Qed.

Lemma mapM_index_subset {A} (l : list A) (indices : list nat) (rs : list A) :
  Py.mapM (Py.index l) indices = Ok rs → ∀ x, x ∈ rs → x ∈ l.
Proof.
  revert rs. induction indices as [|i indices IH]; intros rs; cbn [Py.mapM].
  - intros [= <-] x Hx. by apply elem_of_nil in Hx.
  - destruct (Py.index l i) as [y|] eqn:Hy; [|done]. cbn [mbind result_bind].
    destruct (Py.mapM (Py.index l) indices) as [ys|]; [|done].
    cbn [mbind result_bind]. intros [= <-] x Hx.
    apply elem_of_cons in Hx as [->|Hx]; [|by eapply IH].
    unfold Py.index in Hy. destruct (l !! i) as [z|] eqn:Hz; [|done].
    injection Hy as ->. by eapply list_elem_of_lookup_2.
Qed.

Section library.
Variables (image_width image_height : Z).
Variables (nose_tip : nat) (face_contour : list nat).
Variable cv2_convexHull : list point2 → result (list point2).
Variable cv2_fillConvexPoly : Z * Z → list (Z * Z) → result (nat → nat → bool).
Variable griddata_linear : list point2 → list float → result (point2 → float).
Variable griddata_nearest : list point2 → list float → result (point2 → float).
Variable cv2_GaussianBlur : list float → result (list float).

(** What the proofs below assume of the libraries: the blur returns a
    column of the same size, of numbers when it is given numbers; the linear
    interpolant of numbers is, at each point, NaN or a number; the
    nearest-neighbour interpolant of numbers is a number at each point. *)
Hypothesis blur_contract : ∀ l,
  ∃ l', cv2_GaussianBlur l = Ok l' ∧ length l' = length l
        ∧ (Forall (λ x, is_finite x) l → Forall (λ x, is_finite x) l').
Hypothesis linear_contract : ∀ points values f,
  griddata_linear points values = Ok f → Forall (λ x, is_finite x) values →
  ∀ q, nan_or_finite (f q).
Hypothesis nearest_contract : ∀ points values g,
  griddata_nearest points values = Ok g → Forall (λ x, is_finite x) values →
  ∀ q, is_finite (g q).

Lemma smooth_nan (depth_map : list float) :
  Forall nan_or_finite depth_map →
  ∃ out, smooth cv2_GaussianBlur depth_map = Ok out
         ∧ Forall2 (λ d v, is_nan v = is_nan d) depth_map out.
Proof.
  intros Hd. unfold smooth. case_bool_decide as Hv.
  - exists depth_map. split; [done|]. by apply Forall_Forall2_diag, Forall_true.
  - destruct (blur_contract (filter (λ d, is_nan d = false) depth_map))
      as (sm & -> & Hlen & Hfin).
    cbn [mbind result_bind]. apply scatter_nan; [|done]. apply Hfin.
    apply Forall_forall. intros x Hx. apply list_elem_of_filter in Hx as [Hn Hin].
    rewrite Forall_forall in Hd. destruct (Hd x Hin) as [H|H]; [|done].
    by rewrite Hn in H.
Qed.

Lemma create_depth_map_cells landmarks_array resolution normalized points mfn f :
  let r := default ((image_width `div` 4)%Z, (image_height `div` 4)%Z) resolution in
  normalized_depths image_width nose_tip face_contour landmarks_array r
    = Ok normalized →
  Forall (λ x, is_finite x) normalized →
  scaled_points image_width image_height landmarks_array r = Ok points →
  _create_face_mask image_width image_height face_contour
    cv2_convexHull cv2_fillConvexPoly points r = Ok (map (λ c, mfn c.1 c.2) (cells r)) →
  griddata_linear points normalized = Ok f →
  is_ok (griddata_nearest points normalized) →
  ∃ depth_map,
    create_depth_map image_width image_height nose_tip face_contour
      cv2_convexHull cv2_fillConvexPoly griddata_linear griddata_nearest
      cv2_GaussianBlur landmarks_array resolution = Ok depth_map
    ∧ Forall2 (λ c v, is_nan v = is_nan (f (grid_point r c)) && negb (mfn c.1 c.2))
              (cells r) depth_map.
Proof.
  intros r Hn Hfin Hp Hm Hf Hnn. unfold create_depth_map. fold r.
  rewrite Hn. cbn [mbind result_bind]. rewrite Hp. cbn [mbind result_bind].
  rewrite Hm. cbn [mbind result_bind]. rewrite Hf. cbn [mbind result_bind].
  destruct (griddata_nearest points normalized) as [g|] eqn:Hg; [|done].
  set (filled := map (λ c, if (is_nan (f (grid_point r c)) && mfn c.1 c.2 : bool)
                           then g (grid_point r c) else f (grid_point r c)) (cells r)).
  assert (fill_in_face griddata_nearest (map f (map (grid_point r) (cells r)))
            (map (λ c, mfn c.1 c.2) (cells r)) points normalized
            (map (grid_point r) (cells r)) = Ok filled) as ->.
  { unfold fill_in_face. rewrite map_map.
    destruct (existsb _ _) eqn:He.
    - rewrite Hg. cbn [mbind result_bind]. f_equal. apply fill_map.
    - f_equal. by apply fill_none. }
  cbn [mbind result_bind].
  assert (Forall2 (λ c v, is_nan v = is_nan (f (grid_point r c)) && negb (mfn c.1 c.2)
                          ∧ nan_or_finite v) (cells r) filled) as Hfilled.
  { unfold filled. apply Forall2_fmap_r, Forall_Forall2_diag, Forall_true.
    intros c. cbn.
    pose proof (linear_contract _ _ _ Hf Hfin (grid_point r c)) as Hl.
    pose proof (nearest_contract _ _ _ Hg Hfin (grid_point r c)) as Hgq.
    unfold nan_or_finite in Hl |- *.
    destruct (f (grid_point r c)) as [x|s|]; cbn [is_nan andb] in Hl |- *.
    - split; [done|by right].
    - by destruct Hl.
    - destruct (mfn c.1 c.2); cbn [negb].
      + split; [by destruct (g _)|by right].
      + split; [done|by left]. }
  destruct (smooth_nan filled) as (out & -> & Hout).
  { eapply Forall2_Forall_r; [exact Hfilled|]. apply Forall_true. by intros c v [_ H]. }
  exists out. split; [done|].
  apply Forall2_same_length_lookup_2.
  { rewrite (Forall2_length _ _ _ Hfilled). by eapply Forall2_length. }
  intros k c v Hc Hv.
  destruct (Forall2_lookup_l _ _ _ _ _ Hfilled Hc) as (w & Hw & Hcw & _).
  destruct (Forall2_lookup_l _ _ _ _ _ Hout Hw) as (v' & Hv' & Hwv).
  rewrite Hv in Hv'. injection Hv' as <-. by rewrite Hwv.
Qed.

(** C6. When the library calls return, the normalized depths are numbers
    and the linear interpolant is a number strictly inside the convex hull of
    the scaled landmark points and NaN outside of it, [create_depth_map]
    returns one value for every cell, and the value of a cell is NaN exactly
    when the cell lies outside the face mask and the linear interpolant is
    NaN at its grid point.  So every cell inside the face mask is defined
    after the fill; every cell whose grid point lies strictly inside the
    convex hull of the face contour points is defined; a cell outside the
    face mask whose grid point lies outside the convex hull of all the
    landmark points is NaN; and a cell that is NaN lies outside the face mask
    and not strictly inside the convex hull of all the landmark points.
    Outside the face mask the map is NaN only where the interpolation over
    all the landmarks is, not wherever the cell leaves the face contour. *)
Theorem depth_map_nan_cells landmarks_array resolution normalized points mfn f :
  let r := default ((image_width `div` 4)%Z, (image_height `div` 4)%Z) resolution in
  normalized_depths image_width nose_tip face_contour landmarks_array r
    = Ok normalized →
  Forall (λ x, is_finite x) normalized →
  scaled_points image_width image_height landmarks_array r = Ok points →
  _create_face_mask image_width image_height face_contour
    cv2_convexHull cv2_fillConvexPoly points r = Ok (map (λ c, mfn c.1 c.2) (cells r)) →
  griddata_linear points normalized = Ok f →
  linear_on_hull points f →
  is_ok (griddata_nearest points normalized) →
  ∃ depth_map contour_points,
    create_depth_map image_width image_height nose_tip face_contour
      cv2_convexHull cv2_fillConvexPoly griddata_linear griddata_nearest
      cv2_GaussianBlur landmarks_array resolution = Ok depth_map
    ∧ Py.mapM (Py.index points) face_contour = Ok contour_points
    ∧ length depth_map = length (cells r)
    ∧ ∀ k c v, cells r !! k = Some c → depth_map !! k = Some v →
        is_nan v = is_nan (f (grid_point r c)) && negb (mfn c.1 c.2)
        ∧ (mfn c.1 c.2 = true → is_nan v = false)
        ∧ (mfn c.1 c.2 = false → is_nan v = is_nan (f (grid_point r c)))
        ∧ (inside_hull contour_points (grid_point r c) → is_nan v = false)
        ∧ (mfn c.1 c.2 = false → outside_hull points (grid_point r c) →
           is_nan v = true)
        ∧ (is_nan v = true →
           mfn c.1 c.2 = false ∧ ¬ inside_hull points (grid_point r c)).
Proof.
  intros r Hn Hfin Hp Hm Hf Hhull Hnn.
  destruct (create_depth_map_cells landmarks_array resolution normalized points
              mfn f Hn Hfin Hp Hm Hf Hnn) as (depth_map & Hd & Hcells).
  destruct (Py.mapM (Py.index points) face_contour) as [contour_points|] eqn:Hc.
  2: { unfold _create_face_mask in Hm. by rewrite Hc in Hm. }
  exists depth_map, contour_points.
  split; [done|]. split; [done|]. split; [symmetry; by eapply Forall2_length|].
  intros k c v Hk Hv. pose proof (Forall2_lookup_lr _ _ _ _ _ _ Hcells Hk Hv) as E.
  cbn beta in E. destruct (Hhull (grid_point r c)) as [Hinside Houtside].
  assert (inside_hull points (grid_point r c) → is_nan (f (grid_point r c)) = false)
    as Hnumber.
  { intros Hq. apply Hinside in Hq. by destruct (f (grid_point r c)). }
  split; [done|]. split; [intros Hmask; by rewrite E, Hmask, andb_false_r|].
  split; [intros Hmask; by rewrite E, Hmask, andb_true_r|].
  split.
  { intros Hq. rewrite E. apply andb_false_iff. left. apply Hnumber.
    eapply inside_hull_subset; [|exact Hq]. by eapply mapM_index_subset. }
  split.
  { intros Hmask Hq. rewrite E, Hmask, andb_true_r. apply Houtside in Hq.
    by apply Is_true_true. }
  intros Hnan. rewrite Hnan in E. symmetry in E. apply andb_true_iff in E as [Ef Emask].
  split; [by destruct (mfn c.1 c.2)|].
  intros Hq. apply Hnumber in Hq. fold r in Ef. by rewrite Ef in Hq.
Qed.

End library.

(** **** An image of 4 x 4 pixels

    The library stand-ins meet the contracts. *)

Lemma same_blur_contract (l : list float) :
  ∃ l', same_blur l = Ok l' ∧ length l' = length l
        ∧ (Forall (λ x, is_finite x) l → Forall (λ x, is_finite x) l').
Proof. by exists l. Qed.

Lemma flat_linear_contract points values f :
  flat_linear points values = Ok f → Forall (λ x, is_finite x) values →
  ∀ q, nan_or_finite (f q).
Proof.
  intros [= <-] Hv q. destruct (in_bounding_box points q); [|by left].
  destruct Hv as [|v values Hv _]; [by left|by right].
Qed.

Lemma flat_nearest_contract points values g :
  flat_nearest points values = Ok g → Forall (λ x, is_finite x) values →
  ∀ q, is_finite (g q).
Proof. destruct 2 as [|v values Hv _]; [done|]. by intros q; simplify_eq/=. Qed.

Lemma square_nose : Py.index square_landmarks square_nose_tip = Ok (Fin 0, Fin 0, Fin 0).
Proof. reflexivity. Qed.

Lemma square_contour_rows :
  rows square_landmarks square_contour
  = Ok [ (Fin 0, Fin 0, Fin 0); (Fin 1, Fin 0, Fin 0);
         (Fin 1, Fin 1, Fin 0); (Fin 0, Fin 1, Fin 0) ].
Proof. reflexivity. Qed.

Lemma square_forehead_rows :
  rows square_landmarks [10; 108; 67; 69; 104; 151; 337; 299; 333; 297; 338]%nat
  = Ok (replicate 11 (Fin 0, Fin 0, Fin 0)).
Proof. reflexivity. Qed.

Lemma square_depths_zero : Forall (λ p, pz p = Fin 0) square_landmarks.
Proof.
  apply Forall_app. split; [by repeat constructor|]. by apply Forall_replicate.
Qed.

Lemma mapM_index_map {A B} (g : A → B) (l : list A) (indices : list nat) :
  Py.mapM (Py.index (map g l)) indices
  = (rs ← Py.mapM (Py.index l) indices; Ok (map g rs)).
Proof.
  induction indices as [|i indices IH]; [done|]. cbn [Py.mapM]. rewrite IH.
  assert (Py.index (map g l) i = (x ← Py.index l i; Ok (g x))) as ->.
  { unfold Py.index. rewrite list_lookup_fmap. by destruct (l !! i). }
  destruct (Py.index l i) as [x|]; [|done]. cbn [mbind result_bind].
  destruct (Py.mapM (Py.index l) indices); reflexivity.
Qed.

(** The scale of an image of 4 x 4 pixels mapped at 4 x 4 cells. *)
Lemma scale_4_4 : Py.truediv (of_Z 4) (of_Z 4) = Ok (Fin 1).
Proof.
  unfold Py.truediv, of_Z. cbn [eqb div]. Rdecide. do 2 f_equal. Rcompute.
Qed.

Lemma square_normalized :
  ∃ normalized,
    normalized_depths 4 square_nose_tip square_contour square_landmarks (4, 4)%Z
    = Ok normalized
    ∧ Forall (λ x, is_finite x) normalized
    ∧ normalized ≠ [].
Proof.
  unfold normalized_depths. rewrite square_nose, square_contour_rows.
  cbn [mbind result_bind map Np.max Np.min foldl fst]. rewrite scale_4_4.
  unfold Np.maximum, Np.minimum. py_eval. sqrt_eval 1. py_eval.
  eexists. split; [reflexivity|]. split; [|done].
  rewrite Forall_fmap, Forall_fmap. eapply Forall_impl; [apply square_depths_zero|].
  intros p Hp. cbn. rewrite Hp. py_eval. done.
Qed.

Lemma square_points :
  scaled_points 4 4 square_landmarks (4, 4)%Z = Ok (map square_scale square_landmarks).
Proof. unfold scaled_points. cbn [fst snd]. by rewrite scale_4_4. Qed.

Ltac Int_part_eval :=
  repeat match goal with
    | |- context [Int_part ?r] =>
        first [ rewrite <- (Int_part_spec r 0) by lra
              | rewrite <- (Int_part_spec r 1) by lra
              | rewrite <- (Int_part_spec r 2) by lra ]
    end.

Lemma square_face_mask :
  _create_face_mask 4 4 square_contour all_points_hull box_fill
    (map square_scale square_landmarks) (4, 4)%Z
  = Ok (map (λ c, square_mask c.1 c.2) (cells (4, 4)%Z)).
Proof.
  unfold _create_face_mask. rewrite !mapM_index_map.
  fold (rows square_landmarks square_contour).
  fold (rows square_landmarks [10; 108; 67; 69; 104; 151; 337; 299; 333; 297; 338]%nat).
  rewrite square_contour_rows, square_forehead_rows.
  cbn [mbind result_bind fst snd]. unfold all_points_hull. cbn [mbind result_bind].
  rewrite scale_4_4. cbn [mbind result_bind]. unfold box_fill. cbn [mbind result_bind].
  do 2 f_equal.
  assert (map (λ p : point2, (astype_int32 p.1, astype_int32 p.2))
            (map (λ p : point2, (p.1 * Fin 1, p.2 * Fin 1)%float)
               (map square_scale
                  [(Fin 0, Fin 0, Fin 0); (Fin 1, Fin 0, Fin 0);
                   (Fin 1, Fin 1, Fin 0); (Fin 0, Fin 1, Fin 0)]
                ++ map square_scale (replicate 11 (Fin 0, Fin 0, Fin 0))))
          = square_polygon) as ->; [|done].
  unfold square_polygon, square_scale, astype_int32.
  cbn [map replicate app fst snd px py mul]. Rdecide. Int_part_eval. reflexivity.
Qed.

Lemma square_grid_point :
  grid_point (4, 4)%Z (2, 2)%nat = (Fin (8 / 3), Fin (8 / 3)).
Proof.
  unfold grid_point, grid_axis, of_Z, of_nat. cbn [fst snd INR].
  rewrite bool_decide_eq_false_2 by lia. change (4 - 1)%Z with 3%Z.
  cbn [div mul]. Rdecide. f_equal; f_equal; Rcompute.
Qed.

Lemma square_cell_in_box :
  in_bounding_box (map square_scale square_landmarks) (grid_point (4, 4)%Z (2, 2)%nat)
  = true.
Proof.
  rewrite square_grid_point.
  assert (In (square_scale (Fin 0, Fin 0, Fin 0)) (map square_scale square_landmarks))
    as Hlow by (apply in_map; left; reflexivity).
  assert (In (square_scale (Fin 4, Fin 4, Fin 0)) (map square_scale square_landmarks))
    as Hhigh by (apply in_map; do 6 right; left; reflexivity).
  unfold in_bounding_box. rewrite !andb_true_iff. repeat split;
    apply existsb_exists;
    [eexists; split; [exact Hlow|] | eexists; split; [exact Hhigh|]
    |eexists; split; [exact Hlow|] | eexists; split; [exact Hhigh|]];
    unfold square_scale, leb; cbn [fst snd px py mul ltb eqb];
    rewrite bool_decide_eq_true_2 by lra; reflexivity.
Qed.

Lemma square_cell_outside_mask : square_mask 2 2 = false.
Proof. reflexivity. Qed.

Lemma square_cell_index : cells (4, 4)%Z !! 10%nat = Some (2, 2)%nat.
Proof. reflexivity. Qed.

(** The claim fails on [square_landmarks]: the cell of row 2 and column 2,
    at the grid point (8/3, 8/3), lies outside the face mask (and outside
    the unit square that the face contour spans), and the returned map
    holds a number there, not NaN. *)
Lemma outside_mask_cell_defined :
  ∃ face_mask depth_map v,
    _create_face_mask 4 4 square_contour all_points_hull box_fill
      (map square_scale square_landmarks) (4, 4)%Z = Ok face_mask
    ∧ create_depth_map 4 4 square_nose_tip square_contour
        all_points_hull box_fill flat_linear flat_nearest same_blur
        square_landmarks (Some (4, 4)%Z) = Ok depth_map
    ∧ cells (4, 4)%Z !! 10%nat = Some (2, 2)%nat
    ∧ grid_point (4, 4)%Z (2, 2)%nat = (Fin (8 / 3), Fin (8 / 3))
    ∧ face_mask !! 10%nat = Some false
    ∧ depth_map !! 10%nat = Some v
    ∧ is_nan v = false.
Proof.
  destruct square_normalized as (normalized & Hn & Hfin & Hne).
  destruct (create_depth_map_cells 4 4 square_nose_tip square_contour
              all_points_hull box_fill flat_linear flat_nearest same_blur
              same_blur_contract flat_linear_contract flat_nearest_contract
              square_landmarks (Some (4, 4)%Z) normalized
              (map square_scale square_landmarks) square_mask
              (λ q, if in_bounding_box (map square_scale square_landmarks) q
                    then default NaN (head normalized) else NaN))
    as (depth_map & Hd & Hcells);
    [exact Hn|exact Hfin|exact square_points|exact square_face_mask|reflexivity
    |by destruct normalized|].
  destruct (Forall2_lookup_l _ _ _ _ _ Hcells square_cell_index) as (v & Hv & Hnan).
  exists (map (λ c, square_mask c.1 c.2) (cells (4, 4)%Z)), depth_map, v.
  split; [exact square_face_mask|]. split; [exact Hd|].
  split; [reflexivity|]. split; [exact square_grid_point|].
  split; [reflexivity|]. split; [exact Hv|].
  rewrite Hnan. cbn [default from_option Datatypes.id fst snd].
  rewrite square_cell_in_box.
  destruct normalized as [|x normalized]; [done|].
  apply Forall_cons in Hfin as [Hx _]. by destruct x.
Qed.

(** **** An oblong face on the same image

    A sample on which the fill runs and the map keeps NaN cells: the
    stand-ins, which interpolate over the bounding box of the points, meet
    [linear_on_hull] because the corners of that box are landmarks. *)

Lemma oblong_nose :
  Py.index oblong_landmarks square_nose_tip = Ok (Fin 0, Fin 0, Fin 0).
Proof. reflexivity. Qed.

Lemma oblong_contour_rows :
  rows oblong_landmarks square_contour
  = Ok [ (Fin 0, Fin 0, Fin 0); (Fin 2.5, Fin 0, Fin 0);
         (Fin 2.5, Fin 1.6, Fin 0); (Fin 0, Fin 1.6, Fin 0) ].
Proof. reflexivity. Qed.

Lemma oblong_forehead_rows :
  rows oblong_landmarks [10; 108; 67; 69; 104; 151; 337; 299; 333; 297; 338]%nat
  = Ok (replicate 11 (Fin 0, Fin 0, Fin 0)).
Proof. reflexivity. Qed.

Lemma oblong_depths_zero : Forall (λ p, pz p = Fin 0) oblong_landmarks.
Proof.
  apply Forall_app. split; [by repeat constructor|]. by apply Forall_replicate.
Qed.

Lemma oblong_normalized :
  ∃ normalized,
    normalized_depths 4 square_nose_tip square_contour oblong_landmarks (4, 4)%Z
    = Ok normalized
    ∧ Forall (λ x, is_finite x) normalized
    ∧ normalized ≠ [].
Proof.
  unfold normalized_depths. rewrite oblong_nose, oblong_contour_rows.
  cbn [mbind result_bind map Np.max Np.min foldl fst]. rewrite scale_4_4.
  unfold Np.maximum, Np.minimum. py_eval. sqrt_eval 2. py_eval.
  eexists. split; [reflexivity|]. split; [|done].
  rewrite Forall_fmap, Forall_fmap. eapply Forall_impl; [apply oblong_depths_zero|].
  intros p Hp. cbn. rewrite Hp. py_eval. done.
Qed.

Lemma oblong_points :
  scaled_points 4 4 oblong_landmarks (4, 4)%Z = Ok (map square_scale oblong_landmarks).
Proof. unfold scaled_points. cbn [fst snd]. by rewrite scale_4_4. Qed.

Lemma oblong_contour_scaled :
  Py.mapM (Py.index (map square_scale oblong_landmarks)) square_contour
  = Ok oblong_contour_points.
Proof.
  rewrite mapM_index_map. fold (rows oblong_landmarks square_contour).
  rewrite oblong_contour_rows. cbn [mbind result_bind]. f_equal.
  unfold oblong_contour_points, square_scale. cbn [map fst snd px py mul].
  repeat f_equal; lra.
Qed.

Lemma oblong_face_mask :
  _create_face_mask 4 4 square_contour all_points_hull box_fill
    (map square_scale oblong_landmarks) (4, 4)%Z
  = Ok (map (λ c, oblong_mask c.1 c.2) (cells (4, 4)%Z)).
Proof.
  unfold _create_face_mask. rewrite !mapM_index_map.
  fold (rows oblong_landmarks square_contour).
  fold (rows oblong_landmarks [10; 108; 67; 69; 104; 151; 337; 299; 333; 297; 338]%nat).
  rewrite oblong_contour_rows, oblong_forehead_rows.
  cbn [mbind result_bind fst snd]. unfold all_points_hull. cbn [mbind result_bind].
  rewrite scale_4_4. cbn [mbind result_bind]. unfold box_fill. cbn [mbind result_bind].
  do 2 f_equal.
  assert (map (λ p : point2, (astype_int32 p.1, astype_int32 p.2))
            (map (λ p : point2, (p.1 * Fin 1, p.2 * Fin 1)%float)
               (map square_scale
                  [(Fin 0, Fin 0, Fin 0); (Fin 2.5, Fin 0, Fin 0);
                   (Fin 2.5, Fin 1.6, Fin 0); (Fin 0, Fin 1.6, Fin 0)]
                ++ map square_scale (replicate 11 (Fin 0, Fin 0, Fin 0))))
          = oblong_polygon) as ->; [|done].
  unfold oblong_polygon, square_scale, astype_int32.
  cbn [map replicate app fst snd px py mul]. Rdecide. Int_part_eval. reflexivity.
Qed.

(** Every landmark of the sample lies in the rectangle of width 4 and height
    2, and the corners of that rectangle are landmarks. *)
Lemma oblong_points_in_box :
  Forall (λ p : point2, ∃ x y, p = (Fin x, Fin y) ∧ 0 <= x <= 4 ∧ 0 <= y <= 2)
         (map square_scale oblong_landmarks).
Proof.
  unfold oblong_landmarks. rewrite map_app. apply Forall_app. split.
  - repeat (apply Forall_cons; split;
              [eexists _, _; split; [reflexivity|lra]|]).
    apply Forall_nil_2.
  - rewrite Forall_fmap. apply Forall_replicate.
    eexists _, _. split; [reflexivity|lra].
Qed.

Lemma oblong_corners (x y : R) :
  (x = 0 ∨ x = 4) → (y = 0 ∨ y = 2) →
  (Fin x, Fin y) ∈ map square_scale oblong_landmarks.
Proof.
  intros [->| ->] [->| ->].
  - apply (list_elem_of_lookup_2 _ 0%nat). cbn. unfold square_scale. cbn [px py fst snd mul]. repeat f_equal; lra.
  - apply (list_elem_of_lookup_2 _ 7%nat). cbn. unfold square_scale. cbn [px py fst snd mul]. repeat f_equal; lra.
  - apply (list_elem_of_lookup_2 _ 5%nat). cbn. unfold square_scale. cbn [px py fst snd mul]. repeat f_equal; lra.
  - apply (list_elem_of_lookup_2 _ 6%nat). cbn. unfold square_scale. cbn [px py fst snd mul]. repeat f_equal; lra.
Qed.

Lemma leb_Fin_le (x y : R) : (Fin x <=? Fin y)%float = true → x <= y.
Proof.
  unfold leb. cbn [ltb eqb]. intros H. apply orb_true_iff in H as [H|H];
    apply bool_decide_eq_true_1 in H; lra.
Qed.

(** Whatever the points, a point strictly inside their hull lies in their
    bounding box. *)
Lemma inside_hull_in_bounding_box (points : list point2) (q : point2) :
  inside_hull points q → in_bounding_box points q = true.
Proof.
  intros (qx & qy & -> & H). unfold in_bounding_box.
  destruct (H (-1) 0) as (x1 & y1 & H1 & L1); [left; lra|].
  destruct (H 1 0) as (x2 & y2 & H2 & L2); [left; lra|].
  destruct (H 0 (-1)) as (x3 & y3 & H3 & L3); [right; lra|].
  destruct (H 0 1) as (x4 & y4 & H4 & L4); [right; lra|].
  rewrite !andb_true_iff. repeat split; apply existsb_exists.
  - exists (Fin x1, Fin y1). split; [by apply list_elem_of_In|].
    unfold leb. cbn [fst snd ltb]. rewrite (bool_decide_eq_true_2 (x1 < qx)) by lra. done.
  - exists (Fin x2, Fin y2). split; [by apply list_elem_of_In|].
    unfold leb. cbn [fst snd ltb]. rewrite (bool_decide_eq_true_2 (qx < x2)) by lra. done.
  - exists (Fin x3, Fin y3). split; [by apply list_elem_of_In|].
    unfold leb. cbn [fst snd ltb]. rewrite (bool_decide_eq_true_2 (y3 < qy)) by lra. done.
  - exists (Fin x4, Fin y4). split; [by apply list_elem_of_In|].
    unfold leb. cbn [fst snd ltb]. rewrite (bool_decide_eq_true_2 (qy < y4)) by lra. done.
Qed.

(** On the sample, no point of the bounding box is outside the hull. *)
Lemma oblong_box_not_outside (q : point2) :
  in_bounding_box (map square_scale oblong_landmarks) q = true →
  ¬ outside_hull (map square_scale oblong_landmarks) q.
Proof.
  intros Hbox (qx & qy & a & b & -> & Hout). unfold in_bounding_box in Hbox.
  pose proof oblong_points_in_box as Hall. rewrite Forall_forall in Hall.
  rewrite !andb_true_iff in Hbox. destruct Hbox as [[[B1 B2] B3] B4].
  apply existsb_exists in B1 as (p1 & P1 & B1), B2 as (p2 & P2 & B2),
    B3 as (p3 & P3 & B3), B4 as (p4 & P4 & B4).
  apply list_elem_of_In, Hall in P1 as (x1 & y1 & -> & ? & ?).
  apply list_elem_of_In, Hall in P2 as (x2 & y2 & -> & ? & ?).
  apply list_elem_of_In, Hall in P3 as (x3 & y3 & -> & ? & ?).
  apply list_elem_of_In, Hall in P4 as (x4 & y4 & -> & ? & ?).
  cbn [fst snd] in B1, B2, B3, B4.
  apply leb_Fin_le in B1, B2, B3, B4.
  assert (∀ x y, (x = 0 ∨ x = 4) → (y = 0 ∨ y = 2) →
                 a * (x - qx) + b * (y - qy) < 0) as Hcorner.
  { intros x y Hx Hy. destruct (Hout _ (oblong_corners x y Hx Hy))
      as (x' & y' & [= <- <-] & Hneg). exact Hneg. }
  destruct (Rle_dec 0 a) as [Ha|Ha], (Rle_dec 0 b) as [Hb|Hb].
  - pose proof (Hcorner 4 2 (or_intror eq_refl) (or_intror eq_refl)).
    assert (0 <= a * (4 - qx)) by (apply Rmult_le_pos; lra).
    assert (0 <= b * (2 - qy)) by (apply Rmult_le_pos; lra). lra.
  - pose proof (Hcorner 4 0 (or_intror eq_refl) (or_introl eq_refl)).
    assert (0 <= a * (4 - qx)) by (apply Rmult_le_pos; lra).
    assert (0 <= (- b) * (qy - 0)) by (apply Rmult_le_pos; lra). lra.
  - pose proof (Hcorner 0 2 (or_introl eq_refl) (or_intror eq_refl)).
    assert (0 <= (- a) * (qx - 0)) by (apply Rmult_le_pos; lra).
    assert (0 <= b * (2 - qy)) by (apply Rmult_le_pos; lra). lra.
  - pose proof (Hcorner 0 0 (or_introl eq_refl) (or_introl eq_refl)).
    assert (0 <= (- a) * (qx - 0)) by (apply Rmult_le_pos; lra).
    assert (0 <= (- b) * (qy - 0)) by (apply Rmult_le_pos; lra). lra.
Qed.

(** The stand-in for the linear interpolation meets [linear_on_hull] on the
    sample. *)
Lemma oblong_linear_on_hull (v : float) :
  is_finite v →
  linear_on_hull (map square_scale oblong_landmarks)
    (λ q, if in_bounding_box (map square_scale oblong_landmarks) q then v else NaN).
Proof.
  intros Hv q. split.
  - intros Hq. by rewrite (inside_hull_in_bounding_box _ _ Hq).
  - intros Hq. destruct (in_bounding_box _ q) eqn:Hbox; [|done].
    by destruct (oblong_box_not_outside q Hbox).
Qed.

Lemma grid_point_4_4 (i j : nat) :
  grid_point (4, 4)%Z (i, j) = (Fin (INR i * (4 / 3)), Fin (INR j * (4 / 3))).
Proof.
  unfold grid_point, grid_axis, of_Z, of_nat. cbn [fst snd].
  rewrite bool_decide_eq_false_2 by lia. change (4 - 1)%Z with 3%Z.
  cbn [div mul]. Rdecide. done.
Qed.

(** The grid point (4/3, 4/3) lies strictly inside the hull of the face
    contour; the grid points (0, 8/3) and (0, 4) lie outside the hull of all
    the landmarks. *)
Lemma oblong_cell_inside_contour :
  inside_hull oblong_contour_points (grid_point (4, 4)%Z (1, 1)%nat).
Proof.
  rewrite grid_point_4_4. eexists _, _. split; [reflexivity|]. cbn [INR].
  intros a b Hab.
  assert (∀ x y, (x = 0 ∨ x = 2.5) → (y = 0 ∨ y = 1.6) →
                 (Fin x, Fin y) ∈ oblong_contour_points) as Hcorner.
  { intros x y [->| ->] [->| ->]; unfold oblong_contour_points;
      rewrite !elem_of_cons; auto. }
  destruct (Rle_dec 0 a) as [Ha|Ha], (Rle_dec 0 b) as [Hb|Hb].
  - exists 2.5, 1.6. split; [apply Hcorner; by right|]. nra.
  - exists 2.5, 0. split; [apply Hcorner; [by right|by left]|]. nra.
  - exists 0, 1.6. split; [apply Hcorner; [by left|by right]|]. nra.
  - exists 0, 0. split; [apply Hcorner; by left|]. nra.
Qed.

Lemma oblong_cell_outside_hull (j : nat) :
  (2 <= j)%nat →
  outside_hull (map square_scale oblong_landmarks) (grid_point (4, 4)%Z (0%nat, j)).
Proof.
  intros Hj. rewrite grid_point_4_4. exists (INR 0 * (4 / 3)), (INR j * (4 / 3)), 0, 1.
  split; [done|]. intros p Hp.
  pose proof oblong_points_in_box as Hall. rewrite Forall_forall in Hall.
  destruct (Hall p Hp) as (x & y & -> & Hx & Hy). exists x, y. split; [done|].
  apply le_INR in Hj. cbn [INR] in Hj. lra.
Qed.

(** The theorem on the oblong face.  The cell of row 1 and column 1 lies
    strictly inside the hull of the face contour and is defined; the cell of
    row 0 and column 2 is in the face mask where the linear interpolant is
    NaN, and the fill defines it; the cell of row 0 and column 3 is outside
    the face mask and outside the hull of all the landmarks, and is NaN. *)
Lemma depth_map_nan_cells_witness :
  ∃ normalized f depth_map,
    normalized_depths 4 square_nose_tip square_contour oblong_landmarks (4, 4)%Z
    = Ok normalized
    ∧ flat_linear (map square_scale oblong_landmarks) normalized = Ok f
    ∧ linear_on_hull (map square_scale oblong_landmarks) f
    ∧ create_depth_map 4 4 square_nose_tip square_contour
        all_points_hull box_fill flat_linear flat_nearest same_blur
        oblong_landmarks (Some (4, 4)%Z) = Ok depth_map
    ∧ Py.mapM (Py.index (map square_scale oblong_landmarks)) square_contour
      = Ok oblong_contour_points
    ∧ length depth_map = length (cells (4, 4)%Z)
    ∧ (∀ k c v, cells (4, 4)%Z !! k = Some c → depth_map !! k = Some v →
        is_nan v = is_nan (f (grid_point (4, 4)%Z c)) && negb (oblong_mask c.1 c.2)
        ∧ (oblong_mask c.1 c.2 = true → is_nan v = false)
        ∧ (oblong_mask c.1 c.2 = false →
           is_nan v = is_nan (f (grid_point (4, 4)%Z c)))
        ∧ (inside_hull oblong_contour_points (grid_point (4, 4)%Z c) →
           is_nan v = false)
        ∧ (oblong_mask c.1 c.2 = false →
           outside_hull (map square_scale oblong_landmarks) (grid_point (4, 4)%Z c) →
           is_nan v = true)
        ∧ (is_nan v = true →
           oblong_mask c.1 c.2 = false
           ∧ ¬ inside_hull (map square_scale oblong_landmarks)
                 (grid_point (4, 4)%Z c)))
    ∧ (inside_hull oblong_contour_points (grid_point (4, 4)%Z (1, 1)%nat)
       ∧ ∃ v, depth_map !! 5%nat = Some v ∧ is_nan v = false)
    ∧ (oblong_mask 0 2 = true
       ∧ is_nan (f (grid_point (4, 4)%Z (0, 2)%nat)) = true
       ∧ ∃ v, depth_map !! 2%nat = Some v ∧ is_nan v = false)
    ∧ (oblong_mask 0 3 = false
       ∧ outside_hull (map square_scale oblong_landmarks)
           (grid_point (4, 4)%Z (0, 3)%nat)
       ∧ ∃ v, depth_map !! 3%nat = Some v ∧ is_nan v = true).
Proof.
  destruct oblong_normalized as (normalized & Hn & Hfin & Hne).
  assert (is_finite (default NaN (head normalized))) as Hhead.
  { destruct Hfin as [|x normalized Hx _]; [done|exact Hx]. }
  pose proof (oblong_linear_on_hull _ Hhead) as Hhull.
  exists normalized, (λ q, if in_bounding_box (map square_scale oblong_landmarks) q
                           then default NaN (head normalized) else NaN).
  destruct (depth_map_nan_cells 4 4 square_nose_tip square_contour
              all_points_hull box_fill flat_linear flat_nearest same_blur
              same_blur_contract flat_linear_contract flat_nearest_contract
              oblong_landmarks (Some (4, 4)%Z) normalized
              (map square_scale oblong_landmarks) oblong_mask
              (λ q, if in_bounding_box (map square_scale oblong_landmarks) q
                    then default NaN (head normalized) else NaN)
              Hn Hfin oblong_points oblong_face_mask eq_refl Hhull
              ltac:(by destruct normalized))
    as (depth_map & contour_points & Hd & Hc & Hlen & Hcells).
  rewrite oblong_contour_scaled in Hc. injection Hc as <-.
  exists depth_map. split; [exact Hn|]. split; [reflexivity|]. split; [exact Hhull|].
  split; [exact Hd|]. split; [exact oblong_contour_scaled|]. split; [exact Hlen|].
  split; [exact Hcells|].
  change (length depth_map = 16%nat) in Hlen.
  destruct (lookup_lt_is_Some_2 depth_map 5) as [v5 H5]; [lia|].
  destruct (lookup_lt_is_Some_2 depth_map 2) as [v2 H2]; [lia|].
  destruct (lookup_lt_is_Some_2 depth_map 3) as [v3 H3]; [lia|].
  destruct (Hcells 5%nat (1, 1)%nat v5 eq_refl H5) as (_ & _ & _ & Hin5 & _).
  destruct (Hcells 2%nat (0, 2)%nat v2 eq_refl H2) as (_ & Hmask2 & _).
  destruct (Hcells 3%nat (0, 3)%nat v3 eq_refl H3) as (_ & _ & _ & _ & Hout3 & _).
  split; [|split].
  - split; [exact oblong_cell_inside_contour|].
    exists v5. split; [exact H5|]. exact (Hin5 oblong_cell_inside_contour).
  - split; [reflexivity|]. split.
    + apply Is_true_true. apply (proj2 (Hhull _)).
      apply oblong_cell_outside_hull. lia.
    + exists v2. split; [exact H2|]. exact (Hmask2 eq_refl).
  - split; [reflexivity|]. split; [apply oblong_cell_outside_hull; lia|].
    exists v3. split; [exact H3|].
    apply (Hout3 eq_refl). apply oblong_cell_outside_hull. lia.
Defined.

End depth.

(** ** Scores of the matcher *)

Section matcher_scores.
Import BiometricAuthenticator.

Lemma Rdiv_nonneg (a b : R) : 0 <= a → 0 < b → 0 <= a / b.
Proof. intros Ha Hb. apply Rle_mult_inv_pos; lra. Qed.

Lemma Rdiv_le_iff (a b c : R) : 0 < b → a / b <= c ↔ a <= c * b.
Proof.
  intros Hb. assert (a = a / b * b) as E by (field; lra).
  split; intros H; [rewrite E|]; nra.
Qed.

Lemma Rdiv_ge_iff (a b c : R) : 0 < b → c <= a / b ↔ c * b <= a.
Proof.
  intros Hb. assert (a = a / b * b) as E by (field; lra).
  split; intros H; [rewrite E|]; nra.
Qed.










Lemma sum_squares_from (a : R) (l : list R) :
  0 <= a → ∃ b, foldl add (Fin a) (map (λ x, x * x)%float (map Fin l)) = Fin b ∧ 0 <= b.
Proof.
  revert a. induction l as [|x l IH]; intros a Ha; [by exists a|].
  cbn [map foldl mul add]. apply IH. nra.
Qed.

Lemma norm_finite (l : list R) : ∃ n, Np.norm (map Fin l) = Fin n ∧ 0 <= n.
Proof.
  unfold Np.norm, Np.sum. destruct (sum_squares_from 0 l) as (b & -> & Hb); [lra|].
  cbn [Float.sqrt]. rewrite bool_decide_eq_false_2 by lra.
  eexists. split; [done|]. by apply sqrt_pos.
Qed.


Lemma geb_Fin (x y : R) : (Fin x >=? Fin y)%float = bool_decide (y <= x).
Proof.
  unfold geb, leb. cbn [ltb eqb].
  destruct (Rtotal_order y x) as [H|[H|H]].
  - rewrite (bool_decide_eq_true_2 (y < x)) by done. cbn.
    symmetry. apply bool_decide_eq_true_2. lra.
  - rewrite (bool_decide_eq_true_2 (y = x)) by done. rewrite orb_true_r.
    symmetry. apply bool_decide_eq_true_2. lra.
  - by rewrite !bool_decide_eq_false_2 by lra.
Qed.










(** X2. When [mean * threshold] is positive, the score of a geometry
    metric is a number between 0 and 1; it is 1 exactly when the live value
    equals the stored mean, and 0 exactly when the live value is at least
    [mean * threshold] away from it. *)
Theorem geometry_score_positive_denominator tol metric pv (live mean t : R) :
  g_mean pv = Fin mean → tolerance_of tol metric = Fin t → 0 < mean * t →
  ∃ s, geometry_match_score tol metric pv (Fin live) = Ok (Fin s)
       ∧ 0 <= s <= 1
       ∧ (s = 1 ↔ live = mean)
       ∧ (s = 0 ↔ mean * t <= Rabs (live - mean)).
Proof.
  intros Hm Ht Hd. rewrite geometry_match_score_ok.
  2:{ rewrite Hm, Ht. cbn. apply bool_decide_eq_false_2. lra. }
  rewrite Hm, Ht, spec_geometry_score_real by lra.
  eexists. split; [done|].
  pose proof (Rabs_pos (live - mean)) as Ha.
  assert (0 <= Rabs (live - mean) / (mean * t)) as Hq.
  { apply Rdiv_nonneg; lra. }
  set (q := Rabs (live - mean) / (mean * t)) in *.
  assert (q = 0 ↔ live = mean) as Hq0.
  { unfold q. split.
    - intros E. assert (Rabs (live - mean) <= 0) as Hle.
      { pose proof (proj1 (Rdiv_le_iff (Rabs (live - mean)) (mean * t) 0 Hd)) as H0.
        rewrite Rmult_0_l in H0. apply H0. lra. }
      destruct (Req_dec (live - mean) 0) as [?|Hne]; [lra|].
      apply Rabs_no_R0 in Hne. lra.
    - intros ->. replace (mean - mean) with 0 by lra. rewrite Rabs_R0.
      unfold Rdiv. lra. }
  assert (1 <= q ↔ mean * t <= Rabs (live - mean)) as Hq1.
  { unfold q. rewrite Rdiv_ge_iff by done. by rewrite Rmult_1_l. }
  destruct (Rle_dec 0 (1 - q)) as [Hle|Hgt].
  - rewrite Rmax_right by done. split; [lra|]. split; split; intros E.
    + apply Hq0. lra.
    + apply Hq0 in E. lra.
    + apply Hq1. lra.
    + apply Hq1 in E. lra.
  - rewrite Rmax_left by lra. split; [lra|]. split; split; intros E.
    + lra.
    + apply Hq0 in E. lra.
    + apply Hq1. lra.
    + done.
Qed.

Lemma geometry_score_positive_denominator_witness :
  ∃ s, geometry_match_score default_tolerance_thresholds "eye_distance"
         {| g_mean := Fin 60; g_std := Fin 1; g_min := Fin 58; g_max := Fin 62 |}
         (Fin 63) = Ok (Fin s)
       ∧ 0 <= s <= 1
       ∧ (s = 1 ↔ 63 = 60)
       ∧ (s = 0 ↔ 60 * 0.1 <= Rabs (63 - 60)).
Proof.
  apply (geometry_score_positive_denominator default_tolerance_thresholds
           "eye_distance"
           {| g_mean := Fin 60; g_std := Fin 1; g_min := Fin 58; g_max := Fin 62 |}
           63 60 0.1).
  - reflexivity.
  - unfold tolerance_of, default_tolerance_thresholds. by dict_eval.
  - lra.
Defined.

(** X3. When [mean * threshold] is negative (a negative stored mean, such
    as an angle, under a positive threshold), the score of a geometry metric
    is [1 + |live - mean| / |mean * threshold|]: it is never below 1 and
    grows with the distance of the live value from the stored mean. *)
Theorem geometry_score_negative_denominator tol metric pv (live mean t : R) :
  g_mean pv = Fin mean → tolerance_of tol metric = Fin t → mean * t < 0 →
  geometry_match_score tol metric pv (Fin live)
  = Ok (Fin (1 + Rabs (live - mean) / Rabs (mean * t)))
  ∧ 1 <= 1 + Rabs (live - mean) / Rabs (mean * t).
Proof.
  intros Hm Ht Hd. rewrite geometry_match_score_ok.
  2:{ rewrite Hm, Ht. cbn. apply bool_decide_eq_false_2. lra. }
  rewrite Hm, Ht, spec_geometry_score_real by lra.
  pose proof (Rabs_pos (live - mean)) as Ha.
  rewrite (Rabs_left (mean * t)) by done.
  assert (0 <= Rabs (live - mean) / - (mean * t)) as Hq
    by (apply Rdiv_nonneg; lra).
  split; [|lra]. do 2 f_equal.
  replace (1 - Rabs (live - mean) / (mean * t))
    with (1 + Rabs (live - mean) / - (mean * t)) by (field; split; nra).
  apply Rmax_right. lra.
Qed.

Lemma geometry_score_negative_denominator_witness :
  geometry_match_score default_tolerance_thresholds "nose_angle"
    {| g_mean := Fin (-10); g_std := Fin 1; g_min := Fin (-12); g_max := Fin (-8) |}
    (Fin 40)
  = Ok (Fin (1 + Rabs (40 - -10) / Rabs (-10 * 5)))
  ∧ 1 <= 1 + Rabs (40 - -10) / Rabs (-10 * 5).
Proof.
  apply (geometry_score_negative_denominator default_tolerance_thresholds
           "nose_angle"
           {| g_mean := Fin (-10); g_std := Fin 1; g_min := Fin (-12);
              g_max := Fin (-8) |}
           40 (-10) 5).
  - reflexivity.
  - unfold tolerance_of, default_tolerance_thresholds. by dict_eval.
  - lra.
Defined.

Lemma getitem_Some {V} (d : gmap string V) (k : string) (v : V) :
  d !! k = Some v → Py.getitem d k = Ok v.
Proof. intros H. unfold Py.getitem. by rewrite H. Qed.

Lemma getitem_None {V} (d : gmap string V) (k : string) :
  d !! k = None → Py.getitem d k = Raise (KeyError k).
Proof. intros H. unfold Py.getitem. by rewrite H. Qed.

(** X4. A custom tolerance map that is not empty replaces the default
    thresholds as a whole.  When it has no "color_tolerance" entry and the
    profile and the live data both hold a colour, [verify_biometric] raises
    [KeyError] for that entry once the geometry and pose categories have
    been evaluated. *)
Theorem custom_thresholds_replace_defaults tol p d pc c :
  tol ≠ ∅ → tol !! "color_tolerance"%string = None →
  color p = Some pc → cur_color d = Some c →
  is_ok (_verify_geometry tol (geometry p) (cur_geometry d)) →
  is_ok (_verify_pose tol (pose p) (cur_pose d)) →
  init (Some tol) = tol
  ∧ verify_biometric (init (Some tol)) (Some p) (Some d)
    = Raise (KeyError "color_tolerance").
Proof.
  intros Hne Hnone Hpc Hc Hg Hp.
  assert (init (Some tol) = tol) as ->.
  { unfold init. by rewrite bool_decide_eq_false_2. }
  split; [done|]. unfold verify_biometric.
  destruct (_verify_geometry _ _ _) as [rg|]; [|done].
  destruct (_verify_pose _ _ _) as [rp|]; [|done].
  cbn [mbind result_bind]. rewrite Hpc, Hc. destruct c as [[b g] r].
  unfold _verify_color. by rewrite (getitem_None _ _ Hnone).
Qed.

Lemma custom_thresholds_replace_defaults_witness :
  init (Some geometry_only_tolerance) = geometry_only_tolerance
  ∧ verify_biometric (init (Some geometry_only_tolerance))
      (Some color_profile) (Some live_sample)
    = Raise (KeyError "color_tolerance").
Proof.
  apply (custom_thresholds_replace_defaults geometry_only_tolerance color_profile
           live_sample
           {| c_mean := (Fin 120, Fin 110, Fin 100); c_std := (Fin 2, Fin 2, Fin 2) |}
           (Fin 118, Fin 112, Fin 101)).
  - intros H. apply (f_equal (λ m : gmap string float, m !! "eye_distance"%string)) in H.
    rewrite lookup_empty in H. revert H. unfold geometry_only_tolerance. by dict_eval.
  - unfold geometry_only_tolerance. by dict_eval.
  - reflexivity.
  - reflexivity.
  - exact I.
  - exact I.
Defined.

End matcher_scores.

(** ** Enrolment *)

Section enrollment.
Import BiometricAuthenticator.

Lemma mapM_Forall2 {A B} (f : A → result B) (l : list A) (ys : list B) :
  Py.mapM f l = Ok ys ↔ Forall2 (λ x y, f x = Ok y) l ys.
Proof.
  revert ys. induction l as [|x l IH]; intros ys; cbn [Py.mapM].
  - split; [intros [= <-]; constructor|by inversion 1].
  - destruct (f x) as [y|e] eqn:Ex; cbn [mbind result_bind].
    + destruct (Py.mapM f l) as [ys'|e] eqn:El; cbn [mbind result_bind].
      * split.
        -- intros [= <-]. constructor; [done|]. by apply IH.
        -- inversion 1 as [|? y' ? ys'' Hy Hys]; subst. rewrite Ex in Hy.
           injection Hy as <-. apply IH in Hys. by injection Hys as <-.
      * split; [done|]. inversion 1 as [|? y' ? ys'' Hy Hys]; subst.
        by apply IH in Hys.
    + split; [done|]. inversion 1 as [|? y' ? ys'' Hy Hys]; subst.
      by rewrite Ex in Hy.
Qed.


Lemma metric_values_ok data metric :
  in_every_frame data metric →
  ∃ values, metric_values data metric = Ok values
    ∧ Forall2 (λ frame v, (list_to_map frame : gmap string float) !! metric = Some v)
              data values.
Proof.
  intros H. unfold metric_values. induction H as [|frame data [v Hv] H IH].
  - by exists [].
  - destruct IH as (values & IH & H2). exists (v :: values). cbn [Py.mapM].
    rewrite (getitem_Some _ _ _ Hv). cbn [mbind result_bind]. rewrite IH.
    split; [done|]. by constructor.
Qed.

Lemma metric_values_raise data metric :
  ¬ in_every_frame data metric →
  metric_values data metric = Raise (KeyError metric).
Proof.
  unfold metric_values, in_every_frame. induction data as [|frame data IH]; intros H.
  - destruct H. constructor.
  - cbn [Py.mapM].
    destruct ((list_to_map frame : gmap string float) !! metric) as [v|] eqn:Hv.
    2:{ by rewrite (getitem_None _ _ Hv). }
    rewrite (getitem_Some _ _ _ Hv). cbn [mbind result_bind].
    rewrite IH; [done|]. intros Hall. apply H. by constructor.
Qed.

Lemma min_from_finite (a : R) (l : list float) :
  Forall (λ x, is_finite x) l →
  ∃ m, foldl Np.minimum (Fin a) l = Fin m ∧ m <= a
       ∧ (m = a ∨ Fin m ∈ l)
       ∧ Forall (λ x, ∃ r, x = Fin r ∧ m <= r) l.
Proof.
  revert a. induction l as [|x l IH]; intros a Hl.
  - exists a. repeat split; [lra|by left|constructor].
  - apply Forall_cons in Hl as [Hx Hl]. apply is_finite_Fin in Hx as [r ->].
    cbn [foldl]. unfold Np.minimum at 2. cbn [is_nan ltb].
    case_bool_decide as Hlt.
    + destruct (IH r Hl) as (m & -> & Hm & Hin & Hall). exists m.
      split; [done|]. split; [lra|]. split.
      * right. destruct Hin as [->|Hin]; [left|by right].
      * constructor; [by exists r|done].
    + destruct (IH a Hl) as (m & -> & Hm & Hin & Hall). exists m.
      split; [done|]. split; [done|]. split.
      * destruct Hin as [->|Hin]; [by left|right; by right].
      * constructor; [exists r; split; [done|lra]|done].
Qed.

Lemma max_from_finite (a : R) (l : list float) :
  Forall (λ x, is_finite x) l →
  ∃ m, foldl Np.maximum (Fin a) l = Fin m ∧ a <= m
       ∧ (m = a ∨ Fin m ∈ l)
       ∧ Forall (λ x, ∃ r, x = Fin r ∧ r <= m) l.
Proof.
  revert a. induction l as [|x l IH]; intros a Hl.
  - exists a. repeat split; [lra|by left|constructor].
  - apply Forall_cons in Hl as [Hx Hl]. apply is_finite_Fin in Hx as [r ->].
    cbn [foldl]. unfold Np.maximum at 2. cbn [is_nan ltb].
    case_bool_decide as Hlt.
    + destruct (IH r Hl) as (m & -> & Hm & Hin & Hall). exists m.
      split; [done|]. split; [lra|]. split.
      * right. destruct Hin as [->|Hin]; [left|by right].
      * constructor; [by exists r|done].
    + destruct (IH a Hl) as (m & -> & Hm & Hin & Hall). exists m.
      split; [done|]. split; [done|]. split.
      * destruct Hin as [->|Hin]; [by left|right; by right].
      * constructor; [exists r; split; [done|lra]|done].
Qed.

Lemma np_min_finite (l : list float) :
  l ≠ [] → Forall (λ x, is_finite x) l →
  ∃ m, Np.min l = Ok (Fin m) ∧ Fin m ∈ l
       ∧ Forall (λ x, ∃ r, x = Fin r ∧ m <= r) l.
Proof.
  intros Hne Hl. destruct l as [|x l]; [done|].
  apply Forall_cons in Hl as [Hx Hl]. apply is_finite_Fin in Hx as [a ->].
  destruct (min_from_finite a l Hl) as (m & E & Hm & Hin & Hall).
  exists m. cbn [Np.min]. rewrite E. split; [done|]. split.
  - destruct Hin as [->|Hin]; [left|by right].
  - constructor; [by exists a|done].
Qed.

Lemma np_max_finite (l : list float) :
  l ≠ [] → Forall (λ x, is_finite x) l →
  ∃ m, Np.max l = Ok (Fin m) ∧ Fin m ∈ l
       ∧ Forall (λ x, ∃ r, x = Fin r ∧ r <= m) l.
Proof.
  intros Hne Hl. destruct l as [|x l]; [done|].
  apply Forall_cons in Hl as [Hx Hl]. apply is_finite_Fin in Hx as [a ->].
  destruct (max_from_finite a l Hl) as (m & E & Hm & Hin & Hall).
  exists m. cbn [Np.max]. rewrite E. split; [done|]. split.
  - destruct Hin as [->|Hin]; [left|by right].
  - constructor; [by exists a|done].
Qed.

(** The body of the loop of [_process_geometry_data]. *)
Lemma process_metric_ok data metric :
  data ≠ [] → in_every_frame data metric →
  ∃ values vmin vmax,
    metric_values data metric = Ok values
    ∧ Forall2 (λ frame v, (list_to_map frame : gmap string float) !! metric = Some v)
              data values
    ∧ Np.min values = Ok vmin ∧ Np.max values = Ok vmax.
Proof.
  intros Hne H. destruct (metric_values_ok data metric H) as (values & E & H2).
  assert (values ≠ []) as Hv.
  { intros ->. apply Forall2_length in H2. by destruct data. }
  destruct values as [|v values]; [done|]. by repeat eexists.
Qed.

Lemma process_metrics data keys :
  data ≠ [] →
  (Forall (in_every_frame data) keys ∧
   ∃ metrics,
     Py.mapM (λ metric,
        values ← metric_values data metric;
        vmin ← Np.min values;
        vmax ← Np.max values;
        Ok (metric, {| g_mean := Np.mean values; g_std := Np.std values;
                       g_min := vmin; g_max := vmax |})) keys = Ok metrics
     ∧ metrics.*1 = keys)
  ∨ (∃ missing,
       Py.mapM (λ metric,
        values ← metric_values data metric;
        vmin ← Np.min values;
        vmax ← Np.max values;
        Ok (metric, {| g_mean := Np.mean values; g_std := Np.std values;
                       g_min := vmin; g_max := vmax |})) keys
       = Raise (KeyError missing)
       ∧ missing ∈ keys ∧ ¬ in_every_frame data missing).
Proof.
  intros Hne. induction keys as [|k keys IH].
  - left. split; [constructor|]. by exists [].
  - cbn [Py.mapM]. destruct (decide (in_every_frame data k)) as [Hk|Hk].
    + destruct (process_metric_ok data k Hne Hk)
        as (values & vmin & vmax & E1 & _ & E2 & E3).
      rewrite E1. cbn [mbind result_bind]. rewrite E2. cbn [mbind result_bind].
      rewrite E3. cbn [mbind result_bind].
      destruct IH as [(Hall & metrics & -> & Hm)|(missing & -> & Hin & Hmiss)].
      * left. split; [by constructor|]. eexists. split; [done|].
        cbn. by rewrite Hm.
      * right. exists missing. split; [done|]. split; [by right|done].
    + right. exists k. rewrite metric_values_raise by done.
      split; [done|]. split; [by left|done].
Qed.

Lemma process_geometry_ok first rest :
  (∀ frame metric, frame ∈ first :: rest → metric ∈ first.*1 →
     is_Some ((list_to_map frame : gmap string float) !! metric)) →
  ∃ metrics,
    _process_geometry_data (first :: rest) = Ok (Some metrics)
    ∧ metrics.*1 = first.*1.
Proof.
  intros Hall. unfold _process_geometry_data.
  destruct (process_metrics (first :: rest) first.*1 ltac:(done))
    as [(_ & metrics & E & Hm)|(missing & E & Hin & Hmiss)].
  - exists metrics. by rewrite E.
  - destruct Hmiss. apply Forall_forall. intros frame Hf. by apply Hall.
Qed.

(** X5. [_process_geometry_data] on a session that is not empty: when
    every frame has every metric of the first frame, the profile lists
    exactly the metrics of the first frame, in its order (metrics that only
    later frames have are left out); when a frame lacks a metric of the
    first frame, the call raises [KeyError] for a metric of the first frame
    that some frame lacks. *)
Theorem process_geometry_metrics_of_first_frame first rest :
  ((∀ frame metric, frame ∈ first :: rest → metric ∈ first.*1 →
      is_Some ((list_to_map frame : gmap string float) !! metric)) →
   ∃ metrics,
     _process_geometry_data (first :: rest) = Ok (Some metrics)
     ∧ metrics.*1 = first.*1)
  ∧ (∀ frame metric, frame ∈ first :: rest → metric ∈ first.*1 →
       (list_to_map frame : gmap string float) !! metric = None →
       ∃ missing culprit,
         _process_geometry_data (first :: rest) = Raise (KeyError missing)
         ∧ missing ∈ first.*1 ∧ culprit ∈ first :: rest
         ∧ (list_to_map culprit : gmap string float) !! missing = None).
Proof.
  split; [apply process_geometry_ok|].
  intros frame metric Hf Hk Hnone. unfold _process_geometry_data.
  destruct (process_metrics (first :: rest) first.*1 ltac:(done))
    as [(Hall & _)|(missing & E & Hin & Hmiss)].
  - rewrite Forall_forall in Hall.
    specialize (Hall metric Hk). unfold in_every_frame in Hall.
    rewrite Forall_forall in Hall. specialize (Hall frame Hf).
    rewrite Hnone in Hall. by destruct Hall.
  - unfold in_every_frame in Hmiss.
    apply not_Forall_Exists in Hmiss; [|apply _].
    apply Exists_exists in Hmiss as (culprit & Hc & Hnone').
    exists missing, culprit. rewrite E. split; [done|]. split; [done|].
    split; [done|]. by apply eq_None_not_Some.
Qed.

Lemma metric_values_inv data metric values :
  metric_values data metric = Ok values →
  Forall2 (λ frame v, (list_to_map frame : gmap string float) !! metric = Some v)
          data values.
Proof.
  intros H. apply mapM_Forall2 in H. eapply Forall2_impl; [exact H|].
  intros frame v. cbn beta. unfold Py.getitem.
  destruct (_ !! metric); [by intros [= ->]|done].
Qed.

Lemma elem_of_Forall2_r {A B} (P : A → B → Prop) (l : list A) (k : list B) (y : B) :
  Forall2 P l k → y ∈ k → ∃ x, x ∈ l ∧ P x y.
Proof.
  intros H Hy. apply list_elem_of_lookup in Hy as [i Hi].
  destruct (Forall2_lookup_r _ _ _ _ _ H Hi) as (x & Hx & HP).
  exists x. split; [by eapply list_elem_of_lookup_2|done].
Qed.

Lemma elem_of_Forall2_l {A B} (P : A → B → Prop) (l : list A) (k : list B) (x : A) :
  Forall2 P l k → x ∈ l → ∃ y, y ∈ k ∧ P x y.
Proof.
  intros H Hx. apply list_elem_of_lookup in Hx as [i Hi].
  destruct (Forall2_lookup_l _ _ _ _ _ H Hi) as (y & Hy & HP).
  exists y. split; [by eapply list_elem_of_lookup_2|done].
Qed.

(** X6. For a session whose frames all have the metrics of the first frame,
    with values that are numbers, [_process_geometry_data] returns a
    profile in which, for every metric, the stored minimum and maximum are
    values of that metric in some frame and the value of every frame lies
    between them. *)
Theorem enrolled_values_within_min_max first rest :
  (∀ frame metric, frame ∈ first :: rest → metric ∈ first.*1 →
     is_Some ((list_to_map frame : gmap string float) !! metric)) →
  (∀ frame k v, frame ∈ first :: rest → (k, v) ∈ frame → is_finite v) →
  ∃ metrics,
    _process_geometry_data (first :: rest) = Ok (Some metrics)
    ∧ ∀ metric st, (metric, st) ∈ metrics →
        ∃ lo hi,
          g_min st = Fin lo ∧ g_max st = Fin hi
          ∧ (∃ frame, frame ∈ first :: rest
               ∧ (list_to_map frame : gmap string float) !! metric = Some (Fin lo))
          ∧ (∃ frame, frame ∈ first :: rest
               ∧ (list_to_map frame : gmap string float) !! metric = Some (Fin hi))
          ∧ (∀ frame, frame ∈ first :: rest →
               ∃ v, (list_to_map frame : gmap string float) !! metric = Some (Fin v)
                    ∧ lo <= v <= hi).
Proof.
  intros Hhas Hfin.
  destruct (process_geometry_ok first rest Hhas) as (metrics & E & Hkeys).
  exists metrics. split; [done|]. intros metric st Hin.
  unfold _process_geometry_data in E.
  destruct (Py.mapM _ _) as [metrics'|] eqn:EM in E; [|done].
  cbn [mbind result_bind] in E. injection E as ->.
  apply mapM_Forall2 in EM.
  destruct (elem_of_Forall2_r _ _ _ _ EM Hin) as (k & Hk & Hbody). cbn beta in Hbody.
  destruct (metric_values (first :: rest) k) as [values|] eqn:Ev; [|done].
  cbn [mbind result_bind] in Hbody.
  destruct (Np.min values) as [vmin|] eqn:Emin; [|done]. cbn [mbind result_bind] in Hbody.
  destruct (Np.max values) as [vmax|] eqn:Emax; [|done]. cbn [mbind result_bind] in Hbody.
  injection Hbody as <- <-. cbn [g_min g_max].
  apply metric_values_inv in Ev.
  assert (Forall (λ x, is_finite x) values) as Hvf.
  { apply Forall_forall. intros v Hv.
    destruct (elem_of_Forall2_r _ _ _ _ Ev Hv) as (frame & Hf & Hl).
    apply elem_of_list_to_map_2 in Hl. by eapply Hfin. }
  assert (values ≠ []) as Hne.
  { intros ->. by apply Forall2_length in Ev. }
  destruct (np_min_finite values Hne Hvf) as (lo & Elo & Hlo & Hlo').
  destruct (np_max_finite values Hne Hvf) as (hi & Ehi & Hhi & Hhi').
  rewrite Elo in Emin. injection Emin as <-.
  rewrite Ehi in Emax. injection Emax as <-.
  exists lo, hi. split; [done|]. split; [done|].
  split; [by apply (elem_of_Forall2_r _ _ _ _ Ev)|].
  split; [by apply (elem_of_Forall2_r _ _ _ _ Ev)|].
  intros frame Hf. destruct (elem_of_Forall2_l _ _ _ _ Ev Hf) as (v & Hv & Hl).
  rewrite Forall_forall in Hlo', Hhi'.
  destruct (Hlo' v Hv) as (r & -> & Hr1). destruct (Hhi' _ Hv) as (r' & [= <-] & Hr2).
  exists r. split; [done|lra].
Qed.

Lemma session_frames_have_metrics frame metric :
  frame ∈ [enrolled_frame; later_frame] → metric ∈ enrolled_frame.*1 →
  is_Some ((list_to_map frame : gmap string float) !! metric).
Proof.
  intros Hf Hm. rewrite !elem_of_cons in Hf. cbn in Hm. rewrite !elem_of_cons in Hm.
  destruct Hf as [->|[->|Hn]]; [| |by apply elem_of_nil in Hn];
    (destruct Hm as [->|[->|Hn]]; [| |by apply elem_of_nil in Hn]);
    unfold enrolled_frame, later_frame; dict_eval; by eexists.
Defined.

Lemma session_frames_finite frame k v :
  frame ∈ [enrolled_frame; later_frame] → (k, v) ∈ frame → is_finite v.
Proof.
  intros Hf Hin. rewrite !elem_of_cons in Hf.
  destruct Hf as [->|[->|Hn]]; [| |by apply elem_of_nil in Hn];
    unfold enrolled_frame, later_frame in Hin; rewrite !elem_of_cons in Hin;
    repeat (destruct Hin as [[= _ ->]|Hin]; [done|]); by apply elem_of_nil in Hin.
Defined.

Lemma enrolled_values_within_min_max_witness :
  ∃ metrics,
    _process_geometry_data [enrolled_frame; later_frame] = Ok (Some metrics)
    ∧ ∀ metric st, (metric, st) ∈ metrics →
        ∃ lo hi,
          g_min st = Fin lo ∧ g_max st = Fin hi
          ∧ (∃ frame, frame ∈ [enrolled_frame; later_frame]
               ∧ (list_to_map frame : gmap string float) !! metric = Some (Fin lo))
          ∧ (∃ frame, frame ∈ [enrolled_frame; later_frame]
               ∧ (list_to_map frame : gmap string float) !! metric = Some (Fin hi))
          ∧ (∀ frame, frame ∈ [enrolled_frame; later_frame] →
               ∃ v, (list_to_map frame : gmap string float) !! metric = Some (Fin v)
                    ∧ lo <= v <= hi).
Proof.
  exact (enrolled_values_within_min_max enrolled_frame [later_frame]
           session_frames_have_metrics session_frames_finite).
Defined.

(** X7. A session without frames gives the profile whose three entries are
    [None]; verifying any live data against that profile is not the
    "Missing profile or current data" error: it is a reject with the overall
    score 0.0 and the three "Missing ... data" category results. *)
Theorem empty_session_profile_scores_zero tol d :
  create_biometric_profile {| geometries := []; poses := []; colors := [] |}
  = Ok {| geometry := None; pose := None; color := None |}
  ∧ verify_biometric tol (Some {| geometry := None; pose := None; color := None |})
      (Some d)
    = Ok (false,
          ScoreInfo (Fin 0)
            (MissingCategory (Fin 0) "Missing geometry data",
             MissingCategory (Fin 0) "Missing pose data",
             MissingCategory (Fin 0) "Missing color data")).
Proof.
  split; [done|]. unfold verify_biometric. cbn [geometry pose color].
  cbn [_verify_geometry _verify_pose _verify_color mbind result_bind map match_score_of].
  rewrite bool_decide_eq_false_2 by done.
  unfold Np.mean, Np.sum, of_nat. cbn [foldl add length INR div].
  rewrite bool_decide_eq_false_2 by lra.
  replace ((0 + 0 + 0 + 0) / (1 + 1 + 1)) with 0 by (unfold Rdiv; lra).
  rewrite geb_Fin. by rewrite bool_decide_eq_false_2 by lra.
Qed.







End enrollment.

(** ** Landmarks that are numbers *)

Section landmark_facts.

Lemma finite_point_Fin (p : point) :
  finite_point p → ∃ x y z, p = (Fin x, Fin y, Fin z).
Proof.
  destruct p as [[a b] c]. intros (Ha & Hb & Hc). cbn in *.
  apply is_finite_Fin in Ha as [x ->], Hb as [y ->], Hc as [z ->]. by exists x, y, z.
Qed.

Lemma psub_finite (p q : point) :
  finite_point p → finite_point q → finite_point (psub p q).
Proof.
  intros Hp Hq. apply finite_point_Fin in Hp as (x & y & z & ->).
  apply finite_point_Fin in Hq as (x' & y' & z' & ->). by repeat split.
Qed.

Lemma psub_self (p : point) :
  finite_point p → psub p p = (Fin 0, Fin 0, Fin 0).
Proof.
  intros Hp. apply finite_point_Fin in Hp as (x & y & z & ->).
  unfold psub. cbn [px py pz fst snd sub neg add].
  repeat f_equal; lra.
Qed.

Lemma pnorm_nonneg (p : point) : finite_point p → nonneg (pnorm p).
Proof.
  intros Hp. apply finite_point_Fin in Hp as (x & y & z & ->).
  unfold pnorm. cbn [px py pz fst snd]. apply (norm_finite [x; y; z]).
Qed.

Lemma nonneg_finite (x : float) : nonneg x → is_finite x.
Proof. by intros (r & -> & _). Qed.

Lemma sum_nonneg_from (a : R) (l : list float) :
  Forall nonneg l → ∃ b, foldl add (Fin a) l = Fin b ∧ a <= b.
Proof.
  revert a. induction l as [|x l IH]; intros a Hl.
  - exists a. split; [done|lra].
  - apply Forall_cons in Hl as [(r & -> & Hr) Hl]. cbn [foldl add].
    destruct (IH (a + r) Hl) as (b & -> & Hb). exists b. split; [done|lra].
Qed.

Lemma mean_nonneg (l : list float) : l ≠ [] → Forall nonneg l → nonneg (Np.mean l).
Proof.
  intros Hne Hl. unfold Np.mean, Np.sum, of_nat.
  destruct (sum_nonneg_from 0 l Hl) as (b & -> & Hb).
  assert (0 < INR (length l)) as Hn.
  { apply lt_0_INR. destruct l; [done|cbn; lia]. }
  cbn [div]. rewrite bool_decide_eq_false_2 by lra.
  eexists. split; [done|]. apply Rdiv_nonneg; lra.
Qed.

Lemma sum_zeros_from (a : R) (l : list float) :
  Forall (λ x, x = Fin 0) l → foldl add (Fin a) l = Fin a.
Proof.
  revert a. induction l as [|x l IH]; intros a Hl; [done|].
  apply Forall_cons in Hl as [-> Hl]. cbn [foldl add]. rewrite IH by done.
  f_equal. lra.
Qed.

Lemma mean_zeros (l : list float) :
  l ≠ [] → Forall (λ x, x = Fin 0) l → Np.mean l = Fin 0.
Proof.
  intros Hne Hl. unfold Np.mean, Np.sum, of_nat. rewrite sum_zeros_from by done.
  assert (0 < INR (length l)) as Hn.
  { apply lt_0_INR. destruct l; [done|cbn; lia]. }
  cbn [div]. rewrite bool_decide_eq_false_2 by lra. f_equal. unfold Rdiv. lra.
Qed.

Lemma array_sub_same_length (a b : list point) :
  length a = length b → array_sub a b = Ok (zip_with psub a b).
Proof. intros H. unfold array_sub. by rewrite bool_decide_eq_true_2. Qed.

Lemma zip_with_psub_finite (a b : list point) :
  finite_landmarks a → finite_landmarks b → finite_landmarks (zip_with psub a b).
Proof.
  intros Ha. revert b. induction Ha as [|p a Hp Ha IH]; intros b Hb; [constructor|].
  destruct Hb as [|q b Hq Hb]; [constructor|]. cbn [zip_with].
  constructor; [by apply psub_finite|by apply IH].
Qed.

Lemma distances_self (l : landmarks) :
  finite_landmarks l → Forall (λ x, x = Fin 0) (map pnorm (zip_with psub l l)).
Proof.
  induction 1 as [|p l Hp Hl IH]; [constructor|]. cbn [zip_with map].
  constructor; [|done]. rewrite psub_self by done.
  unfold pnorm. cbn [px py pz fst snd]. apply norm_zero3.
Qed.

Lemma map_px_finite (l : landmarks) :
  finite_landmarks l → Forall (λ x, is_finite x) (map px l).
Proof. intros H. apply Forall_fmap. eapply Forall_impl; [exact H|]. by intros p (? & _). Qed.

Lemma map_py_finite (l : landmarks) :
  finite_landmarks l → Forall (λ x, is_finite x) (map py l).
Proof. intros H. apply Forall_fmap. eapply Forall_impl; [exact H|]. by intros p (_ & ? & _). Qed.

Lemma map_pz_finite (l : landmarks) :
  finite_landmarks l → Forall (λ x, is_finite x) (map pz l).
Proof. intros H. apply Forall_fmap. eapply Forall_impl; [exact H|]. by intros p (_ & _ & ?). Qed.

Lemma index_Some {A} (l : list A) (i : nat) (x : A) :
  l !! i = Some x → Py.index l i = Ok x.
Proof. intros H. unfold Py.index. by rewrite H. Qed.

Lemma index_Ok_inv {A} (l : list A) (i : nat) (x : A) :
  Py.index l i = Ok x → l !! i = Some x.
Proof. unfold Py.index. destruct (l !! i); [by intros [= ->]|done]. Qed.

Lemma lookup_map {A B} (f : A → B) (l : list A) (i : nat) :
  map f l !! i = f <$> (l !! i).
Proof. exact (list_lookup_fmap f l i). Qed.

Lemma index_finite (l : landmarks) (i : nat) :
  finite_landmarks l → (i < length l)%nat →
  ∃ p, Py.index l i = Ok p ∧ finite_point p.
Proof.
  intros Hl Hi. apply lookup_lt_is_Some_2 in Hi as [p Hp].
  exists p. unfold Py.index. rewrite Hp. split; [done|].
  unfold finite_landmarks in Hl. rewrite Forall_lookup in Hl. by eapply Hl.
Qed.

Lemma rows_finite (l : landmarks) (indices : list nat) :
  finite_landmarks l → Forall (λ i, (i < length l)%nat) indices →
  ∃ ps, rows l indices = Ok ps ∧ finite_landmarks ps ∧ length ps = length indices.
Proof.
  intros Hl. unfold rows. induction 1 as [|i indices Hi Hidx IH].
  - exists []. split; [done|]. split; [constructor|done].
  - destruct IH as (ps & E & Hps & Hlen).
    destruct (index_finite l i Hl Hi) as (p & Ep & Hp).
    exists (p :: ps). cbn [Py.mapM]. rewrite Ep. cbn [mbind result_bind].
    rewrite E. cbn [mbind result_bind]. split; [done|].
    split; [by constructor|]. cbn. by rewrite Hlen.
Qed.

Lemma abs_sub_self (a : float) : is_finite a → abs (a - a) = Fin 0.
Proof.
  intros H. apply is_finite_Fin in H as [x ->]. cbn [sub neg add abs].
  replace (x + - x) with 0 by lra. by rewrite Rabs_R0.
Qed.

Lemma existsb_false {A} (f : A → bool) (l : list A) :
  (∀ x, x ∈ l → f x = false) → existsb f l = false.
Proof.
  induction l as [|x l IH]; intros H; [done|]. cbn [existsb].
  rewrite (H x) by left. apply IH. intros y Hy. apply H. by right.
Qed.

End landmark_facts.

(** ** The change gate over time *)

Section change_gate_runs.
Import ChangeDetector.

Lemma landmark_change_of_distances (current : landmarks) (distances : list float) :
  current ≠ [] → finite_landmarks current →
  distances ≠ [] → Forall nonneg distances →
  ∃ r, (xmax ← Np.max (map px current);
        xmin ← Np.min (map px current);
        ymax ← Np.max (map py current);
        ymin ← Np.min (map py current);
        let face_size := Np.norm [xmax - xmin; ymax - ymin]%float in
        Ok (if (face_size >? Fin 0)%float
            then (Np.mean distances / face_size)%float
            else Fin 0)) = Ok (Fin r)
       ∧ 0 <= r
       ∧ (Forall (λ x, x = Fin 0) distances → r = 0).
Proof.
  intros Hne Hfin Hd Hdist.
  assert (map px current ≠ [] ∧ map py current ≠ []) as [Hx Hy]
    by (by destruct current).
  destruct (np_max_finite _ Hx (map_px_finite _ Hfin)) as (xmax & -> & _).
  destruct (np_min_finite _ Hx (map_px_finite _ Hfin)) as (xmin & -> & _).
  destruct (np_max_finite _ Hy (map_py_finite _ Hfin)) as (ymax & -> & _).
  destruct (np_min_finite _ Hy (map_py_finite _ Hfin)) as (ymin & -> & _).
  cbn [mbind result_bind sub neg add].
  destruct (norm_finite [xmax + - xmin; ymax + - ymin]) as (n & Hn & Hn0).
  cbn [map] in Hn. rewrite Hn. unfold gtb. cbn [ltb].
  destruct (mean_nonneg distances Hd Hdist) as (m & Em & Hm).
  case_bool_decide as Hpos.
  - rewrite Em. cbn [div]. rewrite bool_decide_eq_false_2 by lra.
    eexists. split; [done|]. split; [apply Rdiv_nonneg; lra|].
    intros Hz. rewrite mean_zeros in Em by done. injection Em as <-.
    unfold Rdiv. lra.
  - exists 0. split; [done|]. split; [lra|done].
Qed.

(** X9. For two landmark sets of the same size, not empty, whose
    coordinates are numbers, [calculate_landmark_change] returns a number
    that is not negative, and 0 when the two sets are equal. *)
Theorem landmark_change_nonnegative (current previous : landmarks) :
  current ≠ [] → length current = length previous →
  finite_landmarks current → finite_landmarks previous →
  ∃ r, calculate_landmark_change current (Some previous) = Ok (Fin r)
       ∧ 0 <= r
       ∧ (current = previous → r = 0).
Proof.
  intros Hne Hlen Hc Hp. unfold calculate_landmark_change.
  rewrite array_sub_same_length by done. cbn [mbind result_bind].
  destruct (landmark_change_of_distances current
              (map pnorm (zip_with psub current previous)) Hne Hc)
    as (r & E & Hr & Hz).
  - destruct current, previous; done.
  - apply Forall_fmap. eapply Forall_impl; [by apply zip_with_psub_finite|].
    intros p. apply pnorm_nonneg.
  - exists r. split; [exact E|]. split; [done|].
    intros <-. apply Hz. by apply distances_self.
Qed.

Lemma first_shot_finite : finite_landmarks first_shot.
Proof. by repeat constructor. Defined.

Lemma second_shot_finite : finite_landmarks second_shot.
Proof. by repeat constructor. Defined.

Lemma landmark_change_nonnegative_witness :
  ∃ r, calculate_landmark_change second_shot (Some first_shot) = Ok (Fin r)
       ∧ 0 <= r
       ∧ (second_shot = first_shot → r = 0).
Proof.
  apply (landmark_change_nonnegative second_shot first_shot);
    [done|reflexivity|exact second_shot_finite|exact first_shot_finite].
Defined.

Lemma ratio_finite (v h k : float) :
  nonneg v → nonneg h → k = Fin 1 ∨ k = Fin 2 →
  is_finite (if (h >? Fin 0)%float then (v / (k * h))%float else Fin 0).
Proof.
  intros (a & -> & Ha) (b & -> & Hb) Hk. unfold gtb. cbn [ltb].
  case_bool_decide; [|done].
  destruct Hk as [-> | ->]; cbn [mul div]; by rewrite bool_decide_eq_false_2 by lra.
Qed.

Lemma eye_aspect_ratio_finite (eye_points : list point) :
  finite_landmarks eye_points → length eye_points = 6%nat →
  ∃ e, eye_aspect_ratio eye_points = Ok e ∧ is_finite e.
Proof.
  intros Hf Hlen. destruct eye_points as [|p0 [|p1 [|p2 [|p3 [|p4 [|p5 [|]]]]]]]; try done.
  unfold finite_landmarks in Hf. rewrite !Forall_cons in Hf.
  destruct Hf as (H0 & H1 & H2 & H3 & H4 & H5 & _).
  unfold eye_aspect_ratio, Py.index. cbn [lookup list_lookup mbind result_bind].
  eexists. split; [done|]. apply ratio_finite; [| |by right].
  - apply mean_nonneg; [done|].
    repeat constructor; by apply pnorm_nonneg, psub_finite.
  - by apply pnorm_nonneg, psub_finite.
Qed.

Lemma mouth_aspect_ratio_finite (l : landmarks) :
  finite_landmarks l → (308 < length l)%nat →
  ∃ m, mouth_aspect_ratio l = Ok m ∧ is_finite m.
Proof.
  intros Hf Hlen. unfold mouth_aspect_ratio.
  destruct (index_finite l 13 Hf) as (p13 & -> & H13); [lia|].
  destruct (index_finite l 14 Hf) as (p14 & -> & H14); [lia|].
  destruct (index_finite l 78 Hf) as (p78 & -> & H78); [lia|].
  destruct (index_finite l 308 Hf) as (p308 & -> & H308); [lia|].
  cbn [mbind result_bind]. eexists. split; [done|].
  pose proof (ratio_finite (pnorm (psub p13 p14)) (pnorm (psub p78 p308)) (Fin 1)) as H.
  destruct (pnorm_nonneg (psub p78 p308)) as (h & Eh & Hh); [by apply psub_finite|].
  destruct (pnorm_nonneg (psub p13 p14)) as (v & Ev & Hv); [by apply psub_finite|].
  rewrite Eh, Ev in *. unfold gtb in *. cbn [ltb mul div] in *.
  case_bool_decide; [|done]. by rewrite bool_decide_eq_false_2 by lra.
Qed.

Lemma eyebrow_position_finite (l : landmarks) :
  finite_landmarks l → (308 < length l)%nat →
  ∃ b, eyebrow_position l = Ok b ∧ is_finite b.
Proof.
  intros Hf Hlen. unfold eyebrow_position.
  destruct (index_finite l 282 Hf) as (p282 & -> & H282); [lia|].
  destruct (index_finite l 257 Hf) as (p257 & -> & H257); [lia|].
  destruct (index_finite l 52 Hf) as (p52 & -> & H52); [lia|].
  destruct (index_finite l 27 Hf) as (p27 & -> & H27); [lia|].
  cbn [mbind result_bind]. eexists. split; [done|].
  apply mean_finite; [done|].
  apply finite_point_Fin in H282 as (? & ? & ? & ->), H257 as (? & ? & ? & ->),
    H52 as (? & ? & ? & ->), H27 as (? & ? & ? & ->).
  by repeat constructor.
Qed.

Lemma expression_change_self (l : landmarks) :
  finite_landmarks l → (308 < length l)%nat →
  ∃ changes,
    calculate_expression_change l l = Ok changes
    ∧ ∀ k v, changes !! k = Some v → v = Fin 0.
Proof.
  intros Hf Hlen. unfold calculate_expression_change.
  destruct (rows_finite l [33; 160; 158; 133; 153; 144]%nat Hf)
    as (ps & Eps & Hps & Hl6); [repeat constructor; lia|].
  destruct (eye_aspect_ratio_finite ps Hps Hl6) as (e & Ee & He).
  destruct (mouth_aspect_ratio_finite l Hf Hlen) as (m & Em & Hm).
  destruct (eyebrow_position_finite l Hf Hlen) as (b & Eb & Hb).
  rewrite Eps. cbn [mbind result_bind]. rewrite Ee. cbn [mbind result_bind].
  rewrite Em. cbn [mbind result_bind]. rewrite Eb. cbn [mbind result_bind].
  eexists. split; [done|].
  rewrite !abs_sub_self by done. cbn [div].
  rewrite bool_decide_eq_false_2 by lra.
  intros k v. rewrite lookup_list_to_map_assoc. cbn [assoc].
  repeat (destruct (String.eqb _ k); [intros [= <-]; f_equal; unfold Rdiv; lra|]).
  done.
Qed.

Lemma expression_unchanged (metrics changes : gmap string float) :
  (∀ k v, changes !! k = Some v → v = Fin 0) →
  (∀ k limit, metrics !! k = Some limit → (limit <? Fin 0)%float = false) →
  expression_changed_of metrics changes = false.
Proof.
  intros Hc Hm. unfold expression_changed_of. apply existsb_false.
  intros [k limit] Hin. apply elem_of_map_to_list in Hin.
  assert (default (Fin 0) (changes !! k) = Fin 0) as ->.
  { destruct (changes !! k) as [v|] eqn:E; [|done]. by apply Hc in E as ->. }
  unfold gtb. cbn [abs]. rewrite Rabs_R0. by eapply Hm.
Qed.

Lemma pose_changes_of_self (axes : list string) (hp : gmap string float) :
  (∀ axis, axis ∈ axes → ∃ x, hp !! axis = Some (Fin x)) →
  ∃ pose_changes,
    pose_changes_of axes hp hp = Ok pose_changes
    ∧ ∀ axis, axis ∈ axes → pose_changes !! axis = Some (Fin 0).
Proof.
  induction axes as [|k axes IH]; intros H.
  - exists ∅. split; [done|]. by intros axis Hin%elem_of_nil.
  - destruct IH as (rest & E & Hrest); [intros axis Hin; apply H; by right|].
    destruct (H k ltac:(left)) as [x Hx]. cbn [pose_changes_of].
    rewrite (getitem_Some _ _ _ Hx). cbn [mbind result_bind]. rewrite E.
    cbn [mbind result_bind]. eexists. split; [done|].
    intros axis Hin. rewrite abs_sub_self by done.
    destruct (decide (k = axis)) as [->|Hne]; [by simplify_map_eq|].
    rewrite lookup_insert_ne by done. apply Hrest.
    apply elem_of_cons in Hin as [->|Hin]; done.
Qed.

Lemma any_pose_unchanged (axes : list string) (pose_changes limits : gmap string float) :
  (∀ axis, axis ∈ axes →
     pose_changes !! axis = Some (Fin 0)
     ∧ ∃ limit, limits !! axis = Some limit ∧ (limit <? Fin 0)%float = false) →
  any_pose_changed axes pose_changes limits = Ok false.
Proof.
  induction axes as [|k axes IH]; intros H; [done|].
  destruct (H k ltac:(left)) as (Hc & limit & Hl & Hn). cbn [any_pose_changed].
  rewrite (getitem_Some _ _ _ Hc), (getitem_Some _ _ _ Hl).
  cbn [mbind result_bind]. unfold gtb. rewrite Hn. apply IH.
  intros axis Hin. apply H. by right.
Qed.

Lemma pose_unchanged (limits hp : gmap string float) :
  (∀ axis, axis ∈ ["pitch"; "yaw"; "roll"]%string →
     (∃ x, hp !! axis = Some (Fin x))
     ∧ ∃ limit, limits !! axis = Some limit ∧ (limit <? Fin 0)%float = false) →
  (pose_changes ← pose_changes_of ["pitch"; "yaw"; "roll"]%string hp hp;
   any_pose_changed ["pitch"; "yaw"; "roll"]%string pose_changes limits) = Ok false.
Proof.
  intros H.
  destruct (pose_changes_of_self ["pitch"; "yaw"; "roll"]%string hp)
    as (pose_changes & -> & Hpc); [intros axis Hin; by apply H|].
  cbn [mbind result_bind]. apply any_pose_unchanged.
  intros axis Hin. split; [by apply Hpc|by apply H].
Qed.

Lemma landmark_change_self (l : landmarks) :
  l ≠ [] → finite_landmarks l → calculate_landmark_change l (Some l) = Ok (Fin 0).
Proof.
  intros Hne Hf. unfold calculate_landmark_change.
  rewrite array_sub_same_length by done. cbn [mbind result_bind].
  destruct (landmark_change_of_distances l (map pnorm (zip_with psub l l)) Hne Hf)
    as (r & E & Hr & Hz).
  - by destruct l.
  - apply Forall_fmap. eapply Forall_impl; [by apply zip_with_psub_finite|].
    intros p. apply pnorm_nonneg.
  - rewrite Hz in E; [exact E|]. by apply distances_self.
Qed.

(** X10. A detector whose last admitted landmarks are numbers, with at
    least 309 rows, and whose thresholds are not negative, answers [False]
    and keeps its state when it is shown the last admitted landmarks and the
    last admitted pose again, however much time has passed. *)
Theorem repeated_observation_rejected th self current_time l :
  last_landmarks self = Some l →
  finite_landmarks l → (308 < length l)%nat →
  (LANDMARK_CHANGE_THRESHOLD th <? Fin 0)%float = false →
  (∀ k limit, EXPRESSION_METRICS th !! k = Some limit →
     (limit <? Fin 0)%float = false) →
  (∀ hp axis, last_pose self = Some hp → axis ∈ ["pitch"; "yaw"; "roll"]%string →
     (∃ x, hp !! axis = Some (Fin x))
     ∧ ∃ limit, HEAD_POSE_THRESHOLD th !! axis = Some limit
                ∧ (limit <? Fin 0)%float = false) →
  should_save_frame th self current_time l (last_pose self) = Ok (false, self).
Proof.
  intros Hlast Hf Hlen Hlm Hex Hpose. unfold should_save_frame.
  destruct (match last_save_time self with Some _ => _ | None => _ end); [done|].
  case_bool_decide; [done|]. rewrite Hlast.
  rewrite landmark_change_self by (try done; intros ->; cbn in Hlen; lia).
  cbn [mbind result_bind].
  destruct (expression_change_self l Hf Hlen) as (changes & -> & Hch).
  cbn [mbind result_bind]. rewrite (expression_unchanged _ _ Hch Hex).
  assert (match last_pose self with
          | Some lp =>
              match last_pose self with
              | Some hp =>
                  pose_changes ← pose_changes_of ["pitch"; "yaw"; "roll"]%string hp lp;
                  any_pose_changed ["pitch"; "yaw"; "roll"]%string pose_changes
                    (HEAD_POSE_THRESHOLD th)
              | None => Ok false
              end
          | None => Ok false
          end = Ok false) as ->.
  { destruct (last_pose self) as [hp|] eqn:Ehp; [|done].
    apply pose_unchanged. intros axis Hin. by apply (Hpose hp). }
  cbn [mbind result_bind]. unfold gtb. by rewrite Hlm.
Qed.

Lemma still_landmarks_finite : finite_landmarks still_landmarks.
Proof. apply Forall_replicate. by repeat split. Defined.

Lemma settings_expression_limits k limit :
  EXPRESSION_METRICS settings_thresholds !! k = Some limit →
  (limit <? Fin 0)%float = false.
Proof.
  cbn [EXPRESSION_METRICS settings_thresholds].
  rewrite lookup_list_to_map_assoc. cbn [assoc].
  repeat (destruct (String.eqb _ k);
          [intros [= <-]; cbn; apply bool_decide_eq_false_2; lra|]).
  done.
Defined.

Lemma watching_pose hp axis :
  last_pose watching = Some hp → axis ∈ ["pitch"; "yaw"; "roll"]%string →
  (∃ x, hp !! axis = Some (Fin x))
  ∧ ∃ limit, HEAD_POSE_THRESHOLD settings_thresholds !! axis = Some limit
             ∧ (limit <? Fin 0)%float = false.
Proof.
  intros [= <-] Hin. rewrite !elem_of_cons in Hin.
  cbn [HEAD_POSE_THRESHOLD settings_thresholds]. unfold level_pose.
  destruct Hin as [->|[->|[->|Hn]]]; [..|by apply elem_of_nil in Hn];
    dict_eval; (split; [by eexists|]); eexists; (split; [done|]);
    cbn; apply bool_decide_eq_false_2; lra.
Defined.

Lemma repeated_observation_rejected_witness :
  should_save_frame settings_thresholds watching 600000%Z still_landmarks
    (last_pose watching) = Ok (false, watching).
Proof.
  apply (repeated_observation_rejected settings_thresholds watching 600000%Z
           still_landmarks).
  - reflexivity.
  - exact still_landmarks_finite.
  - unfold still_landmarks. rewrite length_replicate. lia.
  - cbn. apply bool_decide_eq_false_2. lra.
  - exact settings_expression_limits.
  - exact watching_pose.
Defined.

Lemma should_save_frame_admitted_spacing th self t lm hp self' :
  should_save_frame th self t lm hp = Ok (true, self') →
  ∀ t0, last_save_time self = Some t0 →
    (total_seconds t t0 <? MIN_FRAME_INTERVAL th)%float = false.
Proof.
  unfold should_save_frame. intros H t0 Ht0. rewrite Ht0 in H.
  by destruct (total_seconds t t0 <? MIN_FRAME_INTERVAL th)%float.
Qed.

Lemma spaced_cons th t times :
  spaced th (t :: times) ↔
  (∀ t', head times = Some t' →
     (total_seconds t' t <? MIN_FRAME_INTERVAL th)%float = false)
  ∧ spaced th times.
Proof.
  unfold spaced. split.
  - intros H. split.
    + intros t' Ht'. apply (H 0%nat t t'); [done|]. by destruct times.
    + intros i a b Ha Hb. by apply (H (S i) a b).
  - intros [H0 H] [|i] a b Ha Hb.
    + cbn in Ha. injection Ha as <-. apply H0. by destruct times.
    + by apply (H i a b).
Qed.

(** The bookkeeping of a run from any state of the detector. *)
Lemma admitted_times_invariant th obs self :
  frame_count (foldl (step th) self obs)
  = (frame_count self + Z.of_nat (length (admitted_times th self obs)))%Z
  ∧ last_save_time (foldl (step th) self obs)
    = match last (admitted_times th self obs) with
      | Some t => Some t
      | None => last_save_time self
      end
  ∧ (∀ t0 t, last_save_time self = Some t0 →
       head (admitted_times th self obs) = Some t →
       (total_seconds t t0 <? MIN_FRAME_INTERVAL th)%float = false)
  ∧ spaced th (admitted_times th self obs).
Proof.
  revert self. induction obs as [|o obs IH]; intros self.
  - cbn. split; [lia|]. split; [done|]. split; [done|]. by intros i t t' H.
  - cbn [foldl admitted_times].
    destruct (should_save_frame th self (obs_time o) (obs_landmarks o) (obs_pose o))
      as [[[|] self']|e] eqn:E.
    all: unfold step at 2 4; rewrite E.
    + destruct (IH self') as (Hc & Hl & Hh & Hs).
      pose proof (should_save_frame_admitted_spacing _ _ _ _ _ _ E) as Hsp.
      apply should_save_frame_outcome in E as [[? _]|(_ & _ & Hfc & Hlt & _)]; [done|].
      split; [rewrite Hc, Hfc, length_cons; lia|]. split.
      { rewrite Hl, Hlt, last_cons. by destruct (last _). }
      split; [intros t0 t Ht0 [= <-]; by apply Hsp|].
      apply spaced_cons. split; [|done]. intros t' Ht'. by apply Hh.
    + apply should_save_frame_outcome in E as [[_ ->]|[? _]]; [|done]. apply IH.
    + apply IH.
Qed.

(** X11. After any sequence of observations fed to a fresh detector, the
    frame count is the number of observations that were admitted, the last
    save time is the time of the last admitted one, and no admitted
    observation is less than [MIN_FRAME_INTERVAL] after the admitted one
    before it. *)
Theorem admissions_counted_and_spaced th obs :
  frame_count (run th obs) = Z.of_nat (length (admitted_times th init obs))
  ∧ last_save_time (run th obs) = last (admitted_times th init obs)
  ∧ spaced th (admitted_times th init obs).
Proof.
  destruct (admitted_times_invariant th obs init) as (Hc & Hl & _ & Hs).
  unfold run. split; [by rewrite Hc|]. split; [|done].
  rewrite Hl. by destruct (last _).
Qed.

Lemma mouth_aspect_ratio_short (l : landmarks) :
  (length l <= 308)%nat → ∃ e, mouth_aspect_ratio l = Raise e.
Proof.
  intros Hlen. unfold mouth_aspect_ratio.
  destruct (Py.index l 13); [|by eexists]. destruct (Py.index l 14); [|by eexists].
  destruct (Py.index l 78); [|by eexists]. cbn [mbind result_bind].
  unfold Py.index. rewrite lookup_ge_None_2 by lia. by eexists.
Qed.

Lemma expression_change_short (current previous : landmarks) :
  (length previous <= 308)%nat →
  ∃ e, calculate_expression_change current previous = Raise e.
Proof.
  intros Hlen. unfold calculate_expression_change.
  destruct (rows current _); [|by eexists]. cbn [mbind result_bind].
  destruct (eye_aspect_ratio _); [|by eexists]. cbn [mbind result_bind].
  destruct (rows previous _); [|by eexists]. cbn [mbind result_bind].
  destruct (eye_aspect_ratio _); [|by eexists]. cbn [mbind result_bind].
  destruct (mouth_aspect_ratio current); [|by eexists]. cbn [mbind result_bind].
  destruct (mouth_aspect_ratio_short previous Hlen) as [e ->]. by eexists.
Qed.

Lemma step_short th self o prev :
  last_landmarks self = Some prev → (length prev <= 308)%nat →
  step th self o = self
  ∧ (∀ self', should_save_frame th self (obs_time o) (obs_landmarks o) (obs_pose o)
              ≠ Ok (true, self')).
Proof.
  intros Hlast Hlen. unfold step, should_save_frame.
  destruct (match last_save_time self with Some _ => _ | None => _ end); [done|].
  case_bool_decide; [done|].
  destruct (calculate_landmark_change _ _); [|done]. cbn [mbind result_bind].
  rewrite Hlast. destruct (expression_change_short (obs_landmarks o) prev Hlen) as [e ->].
  done.
Qed.

(** X12. A detector whose last admitted landmark set has fewer than 309
    rows admits nothing any more: each later call answers [False] or raises,
    and after any sequence of observations the detector is as it was. *)
Theorem short_frame_blocks_gate th self prev (obs : list observation) :
  last_landmarks self = Some prev → (length prev <= 308)%nat →
  foldl (step th) self obs = self
  ∧ admitted_times th self obs = []
  ∧ ∀ o, o ∈ obs →
      should_save_frame th self (obs_time o) (obs_landmarks o) (obs_pose o)
      = Ok (false, self)
      ∨ ∃ e, should_save_frame th self (obs_time o) (obs_landmarks o) (obs_pose o)
             = Raise e.
Proof.
  intros Hlast Hlen. split; [|split].
  - induction obs as [|o obs IH]; [done|]. cbn [foldl].
    by rewrite (proj1 (step_short th self o prev Hlast Hlen)).
  - induction obs as [|o obs IH]; [done|]. cbn [admitted_times].
    destruct (step_short th self o prev Hlast Hlen) as [_ Hno].
    destruct (should_save_frame _ _ _ _ _) as [[[|] self']|e] eqn:E; [|..|done].
    + by destruct (Hno self').
    + by apply should_save_frame_outcome in E as [[_ ->]|[? _]].
  - intros o _. destruct (step_short th self o prev Hlast Hlen) as [_ Hno].
    destruct (should_save_frame _ _ _ _ _) as [[[|] self']|e] eqn:E.
    + by destruct (Hno self').
    + left. by apply should_save_frame_outcome in E as [[_ ->]|[? _]].
    + right. by eexists.
Qed.

Lemma short_frame_blocks_gate_witness :
  foldl (step settings_thresholds) wedged
    [ {| obs_time := 600000%Z; obs_landmarks := second_shot; obs_pose := None |} ]
  = wedged
  ∧ admitted_times settings_thresholds wedged
      [ {| obs_time := 600000%Z; obs_landmarks := second_shot; obs_pose := None |} ]
    = []
  ∧ ∀ o,
      o ∈ [ {| obs_time := 600000%Z; obs_landmarks := second_shot;
               obs_pose := None |} ] →
      should_save_frame settings_thresholds wedged (obs_time o) (obs_landmarks o)
        (obs_pose o) = Ok (false, wedged)
      ∨ ∃ e, should_save_frame settings_thresholds wedged (obs_time o)
               (obs_landmarks o) (obs_pose o) = Raise e.
Proof.
  apply (short_frame_blocks_gate settings_thresholds wedged first_shot).
  - reflexivity.
  - cbn. lia.
Defined.

End change_gate_runs.

(** ** Confidence and movement of the expression analyzer *)

Section expression_confidence.
Import ExpressionAnalyzer.

Lemma differences_nonneg metrics chars :
  metrics_finite metrics → Forall (λ kt, is_finite kt.2) chars →
  Forall nonneg (differences_of metrics chars).
Proof.
  intros Hm Hc. apply Forall_forall. intros d Hin.
  apply list_elem_of_omap in Hin as ([k t] & Hkt & Hd).
  cbn in Hd. destruct (metrics !! k) as [v|] eqn:Hv; [|done].
  cbn in Hd. injection Hd as <-.
  apply Hm, is_finite_Fin in Hv as [r ->].
  rewrite Forall_forall in Hc. apply Hc, is_finite_Fin in Hkt as [r' Ht].
  cbn in Ht. rewrite Ht. eexists. split; [done|]. apply Rabs_pos.
Qed.

Lemma expression_score_le_one metrics chars :
  metrics_finite metrics → Forall (λ kt, is_finite kt.2) chars →
  ∃ s, _calculate_expression_score metrics chars = Fin s ∧ s <= 1.
Proof.
  intros Hm Hc. unfold _calculate_expression_score.
  case_bool_decide as Hd; [exists 0; split; [done|lra]|].
  destruct (mean_nonneg _ Hd (differences_nonneg _ _ Hm Hc)) as (m & -> & Hm0).
  eexists. split; [done|]. lra.
Qed.

Lemma scores_le_one metrics p :
  metrics_finite metrics → p ∈ scores_of metrics →
  p.1 ≠ NEUTRAL ∧ ∃ s, p.2 = Fin s ∧ s <= 1.
Proof.
  intros Hm Hin. unfold scores_of in Hin.
  apply list_elem_of_fmap in Hin as ([e chars] & -> & Hin). cbn [fst snd].
  unfold characteristics in Hin. rewrite !elem_of_cons in Hin.
  destruct Hin as [[= -> ->]|[[= -> ->]|[[= -> ->]|[[= -> ->]|Hn]]]];
    [..|by apply elem_of_nil in Hn];
    (split; [done|]; apply expression_score_le_one; [done|by repeat constructor]).
Qed.

(** X13. For metrics that are numbers and a neutral threshold [t],
    [_classify_expression] returns a confidence that is a number: above
    [1 - t] when the result is neutral (so possibly above 1), and between
    [t] and 1 when the result is one of the four expressions. *)
Theorem classification_confidence_bounds (t : R) metrics movement :
  metrics_finite metrics →
  ∃ e c,
    _classify_expression (Fin t) metrics movement = Ok (e, Fin c)
    ∧ (e = NEUTRAL → 1 - t < c)
    ∧ (e ≠ NEUTRAL → t <= c <= 1).
Proof.
  intros Hm. pose proof (scores_finite metrics Hm) as Hf.
  unfold _classify_expression.
  destruct (scores_of metrics) as [|x l] eqn:Hs; [done|].
  destruct (max_by_first_greatest snd x l Hf) as (l1 & l2 & Hsplit & _ & _).
  set (b := foldl (keep_greater snd) x l) in *.
  assert (b ∈ scores_of metrics) as Hb.
  { rewrite Hs, Hsplit. apply elem_of_app. right. by left. }
  destruct (scores_le_one metrics b Hm Hb) as (Hne & s & Es & Hs1).
  cbn [Py.max_of Py.max_by map mbind result_bind].
  rewrite max_of_values. fold (keep_greater (A:=Expression * float) snd). fold b.
  rewrite Es. cbn [ltb]. case_bool_decide as Hlt.
  - exists NEUTRAL, (1 + - s). split; [done|]. split; [lra|done].
  - exists b.1, s. split; [done|]. split; [done|lra].
Qed.

Lemma smiling_metrics_finite : metrics_finite smiling_metrics.
Proof. apply list_to_map_finite. by repeat constructor. Defined.

Lemma classification_confidence_bounds_witness :
  ∃ e c,
    _classify_expression (Fin 0.1) smiling_metrics ∅ = Ok (e, Fin c)
    ∧ (e = NEUTRAL → 1 - 0.1 < c)
    ∧ (e ≠ NEUTRAL → 0.1 <= c <= 1).
Proof.
  exact (classification_confidence_bounds 0.1 smiling_metrics ∅ smiling_metrics_finite).
Defined.

Lemma score_without_metrics metrics chars :
  (∀ kt, kt ∈ chars → metrics !! kt.1 = None) →
  _calculate_expression_score metrics chars = Fin 0.
Proof.
  intros H. unfold _calculate_expression_score.
  assert (differences_of metrics chars = []) as ->; [|done].
  unfold differences_of. induction chars as [|[k t] chars IH]; [done|].
  cbn [omap list_omap]. pose proof (H (k, t) ltac:(left)) as Hk. cbn [fst] in Hk.
  rewrite Hk. cbn. apply IH.
  intros kt Hin. apply H. by right.
Qed.

(** X14. When the metrics hold none of the five names that the expression
    characteristics list, every score is 0.0: the result is neutral with
    confidence 1.0 under a positive threshold, and smile with confidence 0.0
    otherwise. *)
Theorem classify_without_known_metrics (t : R) metrics movement :
  (∀ k, k ∈ ["mouth_width_ratio"; "mouth_openness"; "brow_height";
              "left_eye_openness"; "right_eye_openness"]%string →
        metrics !! k = None) →
  _classify_expression (Fin t) metrics movement
  = Ok (if bool_decide (0 < t) then (NEUTRAL, Fin 1) else (SMILE, Fin 0)).
Proof.
  intros H. unfold _classify_expression, scores_of, characteristics. cbn [map].
  rewrite !score_without_metrics.
  2-5: intros kt Hin; rewrite !elem_of_cons in Hin; apply H; rewrite !elem_of_cons;
       repeat (destruct Hin as [->|Hin];
               [cbn [fst]; repeat (first [left; reflexivity|right])|]);
       by apply elem_of_nil in Hin.
  cbn [map snd Py.max_of Py.max_by foldl].
  case_bool_decide; py_eval; [|done].
  do 3 f_equal. lra.
Qed.

Lemma foreign_metrics_unknown k :
  k ∈ ["mouth_width_ratio"; "mouth_openness"; "brow_height";
       "left_eye_openness"; "right_eye_openness"]%string →
  foreign_metrics !! k = None.
Proof.
  intros Hin. rewrite !elem_of_cons in Hin. unfold foreign_metrics.
  destruct Hin as [->|[->|[->|[->|[->|Hn]]]]]; [..|by apply elem_of_nil in Hn];
    by dict_eval.
Defined.

Lemma classify_without_known_metrics_witness :
  _classify_expression (Fin 0.1) foreign_metrics ∅
  = Ok (if bool_decide (0 < 0.1) then (NEUTRAL, Fin 1) else (SMILE, Fin 0)).
Proof.
  exact (classify_without_known_metrics 0.1 foreign_metrics ∅ foreign_metrics_unknown).
Defined.












End expression_confidence.

(** ** Orientation and degrees of a mesh *)

Section mesh_orientation.
Import MeshGenerator.

Lemma mul_comm (a b : float) : (a * b = b * a)%float.
Proof.
  destruct a as [x|s|], b as [y|t|]; cbn; try done.
  - f_equal. lra.
  - by rewrite xorb_comm.
Qed.

Lemma neg_sub (a b : float) : neg (a - b) = (b - a)%float.
Proof.
  destruct a as [x|s|], b as [y|t|]; cbn; try done.
  - f_equal. lra.
  - by rewrite negb_involutive.
  - destruct s, t; done.
Qed.

Lemma mul_neg_neg (a : float) : (neg a * neg a = a * a)%float.
Proof.
  destruct a as [x|s|]; cbn; try done.
  - f_equal. lra.
  - by destruct s.
Qed.

Lemma div_neg_l (a b : float) : (neg a / b = neg (a / b))%float.
Proof.
  destruct a as [x|s|], b as [y|t|]; cbn; try done.
  - destruct (decide (y = 0)) as [->|Hy].
    + rewrite !(bool_decide_eq_true_2 (0 = 0)) by done.
      destruct (decide (x = 0)) as [->|Hx].
      * rewrite !bool_decide_eq_true_2 by lra. done.
      * rewrite !(bool_decide_eq_false_2 (_ = 0)) by lra. cbn. f_equal.
        destruct (Rlt_dec x 0).
        -- rewrite (bool_decide_eq_true_2 (x < 0)), (bool_decide_eq_false_2 (- x < 0)) by lra. done.
        -- rewrite (bool_decide_eq_false_2 (x < 0)), (bool_decide_eq_true_2 (- x < 0)) by lra. done.
    + rewrite !(bool_decide_eq_false_2 (y = 0)) by done. cbn. f_equal. by field.
  - f_equal. lra.
  - f_equal. by destruct s, (bool_decide (y < 0)).
Qed.

Lemma cross_flip (u v : point) : cross v u = pneg (cross u v).
Proof.
  unfold cross, pneg. cbn [px py pz fst snd]. rewrite !neg_sub.
  by rewrite (mul_comm (py v)), (mul_comm (pz v) (py u)), (mul_comm (pz v) (px u)),
    (mul_comm (px v)), (mul_comm (px v) (py u)), (mul_comm (py v) (px u)).
Qed.

Lemma pnorm_pneg (p : point) : pnorm (pneg p) = pnorm p.
Proof.
  unfold pnorm, pneg, Np.norm. cbn [px py pz fst snd map]. by rewrite !mul_neg_neg.
Qed.

Lemma normalize_pneg (p : point) : normalize (pneg p) = pneg (normalize p).
Proof.
  unfold normalize. rewrite pnorm_pneg. unfold pneg at 1 2 3 4.
  cbn [px py pz fst snd]. by rewrite !div_neg_l.
Qed.

Lemma face_vertices_flip vertices faces :
  face_vertices vertices (map flip_face faces)
  = (fv ← face_vertices vertices faces;
     Ok (map (λ '(a, b, c), (a, c, b)) fv)).
Proof.
  unfold face_vertices. induction faces as [|[[i j] k] faces IH]; [done|].
  cbn [map flip_face Py.mapM]. rewrite IH. clear IH.
  unfold Py.index.
  destruct (vertices !! i) as [a|], (vertices !! j) as [b|], (vertices !! k) as [c|];
    try done.
  cbn [mbind result_bind]. by destruct (Py.mapM _ faces).
Qed.

(** X16. Exchanging the second and the third vertex of every face changes
    nothing in the result of [_calculate_face_metrics] but the normals,
    each of which becomes its opposite; the areas, their mean and their sum
    are the same, and the call raises for the same meshes. *)
Theorem flipped_faces_negate_normals vertices faces :
  _calculate_face_metrics vertices (map flip_face faces)
  = (m ← _calculate_face_metrics vertices faces;
     Ok {| areas := areas m;
           normals := map pneg (normals m);
           mean_area := mean_area m;
           total_area := total_area m |}).
Proof.
  unfold _calculate_face_metrics. rewrite face_vertices_flip.
  destruct (face_vertices vertices faces) as [fv|]; [|done].
  cbn [mbind result_bind areas normals mean_area total_area].
  assert (map face_cross (map (λ '(a, b, c), (a, c, b)) fv)
          = map pneg (map face_cross fv)) as ->.
  { rewrite !map_map. apply map_ext. intros [[a b] c]. apply cross_flip. }
  assert (map (λ n, (pnorm n / Fin 2)%float) (map pneg (map face_cross fv))
          = map (λ n, (pnorm n / Fin 2)%float) (map face_cross fv)) as ->.
  { rewrite (map_map pneg). apply map_ext. intros n. by rewrite pnorm_pneg. }
  do 2 f_equal. rewrite !map_map. apply map_ext. intros f. apply normalize_pneg.
Qed.

Lemma ravel_length (faces : list (nat * nat * nat)) :
  length (ravel faces) = (3 * length faces)%nat.
Proof.
  unfold ravel. induction faces as [|[[i j] k] faces IH]; [done|].
  cbn [map concat app length]. rewrite IH. lia.
Qed.

Lemma sum_insert_plus_one (a : R) (deg : list float) (i : nat) (d : R) :
  Forall (λ x, is_finite x) deg → deg !! i = Some (Fin d) →
  ∃ r, foldl add (Fin a) deg = Fin r
       ∧ foldl add (Fin a) (<[i := Fin (d + 1)]> deg) = Fin (r + 1).
Proof.
  intros Hf. revert a i. induction Hf as [|x deg Hx Hf IH]; intros a i Hi; [done|].
  destruct i as [|i]; cbn in Hi.
  - injection Hi as ->. cbn [insert list_insert foldl add].
    destruct (sum_from_finite (a + d) deg Hf) as [r Er].
    assert (∀ b c, foldl add (Fin b) deg = Fin c → foldl add (Fin (b + 1)) deg = Fin (c + 1)) as Hshift.
    { clear -Hf. induction Hf as [|y deg Hy Hf IH]; intros b c.
      - cbn. by intros [= ->].
      - apply is_finite_Fin in Hy as [y' ->]. cbn [foldl add]. intros H.
        replace (b + 1 + y') with (b + y' + 1) by lra. by apply IH. }
    exists r. split; [done|].
    replace (a + (d + 1)) with (a + d + 1) by lra. by apply Hshift.
  - apply is_finite_Fin in Hx as [x' ->]. cbn [insert list_insert foldl add].
    by apply IH.
Qed.

Lemma add_at_ok (deg : list float) (i : nat) (d : R) :
  deg !! i = Some (Fin d) → add_at deg i = Ok (<[i := Fin (d + 1)]> deg).
Proof. intros H. unfold add_at. by rewrite (index_Some _ _ _ H). Qed.

(** The degrees after the indices are counted, from degrees [a v]. *)
Lemma count_degrees (indices : list nat) (deg : list float) (a : nat → R) (s : R) :
  Forall (λ i, (i < length deg)%nat) indices →
  (∀ v, (v < length deg)%nat → deg !! v = Some (Fin (a v))) →
  Np.sum deg = Fin s →
  ∃ deg',
    Py.foldM add_at deg indices = Ok deg'
    ∧ length deg' = length deg
    ∧ (∀ v, (v < length deg)%nat →
         deg' !! v = Some (Fin (a v + INR (count_occ Nat.eq_dec indices v))))
    ∧ Np.sum deg' = Fin (s + INR (length indices)).
Proof.
  revert deg a s. induction indices as [|i indices IH]; intros deg a s Hidx Hdeg Hs.
  - exists deg. split; [done|]. split; [done|]. split.
    + intros v Hv. rewrite (Hdeg v Hv). cbn. do 2 f_equal. lra.
    + rewrite Hs. cbn. f_equal. lra.
  - apply Forall_cons in Hidx as [Hi Hidx].
    cbn [Py.foldM]. rewrite (add_at_ok deg i (a i)) by (by apply Hdeg).
    cbn [mbind result_bind].
    assert (Forall (λ x, is_finite x) deg) as Hf.
    { apply Forall_lookup. intros v x Hx.
      rewrite (Hdeg v) in Hx by (by eapply lookup_lt_Some). by injection Hx as <-. }
    destruct (sum_insert_plus_one 0 deg i (a i) Hf (Hdeg i Hi)) as (r & Er & Er').
    unfold Np.sum in Hs. rewrite Er in Hs. injection Hs as ->.
    destruct (IH (<[i := Fin (a i + 1)]> deg)
                 (λ v, if decide (i = v) then a i + 1 else a v) (s + 1))
      as (deg' & E & Hlen & Hv & Hsum).
    + by rewrite length_insert.
    + rewrite length_insert. intros v Hlt. destruct (decide (i = v)) as [->|Hne].
      * by rewrite list_lookup_insert_eq.
      * rewrite list_lookup_insert_ne by done. by apply Hdeg.
    + exact Er'.
    + exists deg'. split; [done|]. rewrite length_insert in Hlen, Hv.
      split; [done|]. split.
      * intros v Hlt. rewrite (Hv v Hlt). do 2 f_equal. cbn [count_occ].
        destruct (Nat.eq_dec i v) as [->|Hne].
        -- rewrite decide_True by done. rewrite S_INR. lra.
        -- by rewrite decide_False.
      * rewrite Hsum. f_equal. cbn [length]. rewrite S_INR. lra.
Qed.

Lemma vertex_metrics_degrees vertices faces :
  vertices ≠ [] → Forall (λ i, (i < length vertices)%nat) (ravel faces) →
  ∃ vm,
    _calculate_vertex_metrics vertices faces = Ok vm
    ∧ length (degrees vm) = length vertices
    ∧ (∀ v, (v < length vertices)%nat →
         degrees vm !! v = Some (of_nat (count_occ Nat.eq_dec (ravel faces) v)))
    ∧ Np.sum (degrees vm) = of_nat (3 * length faces)
    ∧ mean_degree vm = (of_nat (3 * length faces) / of_nat (length vertices))%float.
Proof.
  intros Hne Hidx. unfold _calculate_vertex_metrics.
  destruct (count_degrees (ravel faces) (replicate (length vertices) (Fin 0))
              (λ _, 0) 0) as (deg & E & Hlen & Hv & Hsum).
  - by rewrite length_replicate.
  - rewrite length_replicate. intros v Hlt. by apply lookup_replicate_2.
  - unfold Np.sum. apply sum_zeros_from, Forall_replicate. done.
  - rewrite length_replicate in Hlen, Hv. rewrite E. cbn [mbind result_bind].
    assert (Np.sum deg = of_nat (3 * length faces)) as Hsum'.
    { rewrite Hsum, ravel_length. unfold of_nat. f_equal. lra. }
    destruct deg as [|d deg]; [by destruct vertices|].
    cbn [Np.max mbind result_bind]. eexists. split; [done|].
    cbn [degrees mean_degree]. split; [done|]. split.
    + intros v Hlt. rewrite (Hv v Hlt). unfold of_nat. do 2 f_equal. lra.
    + split; [done|]. unfold Np.mean. by rewrite Hsum', Hlen.
Qed.

Lemma face_vertices_in_range vertices faces :
  Forall (λ i, (i < length vertices)%nat) (ravel faces) →
  ∃ fv, face_vertices vertices faces = Ok fv ∧ length fv = length faces.
Proof.
  unfold face_vertices, ravel. induction faces as [|[[i j] k] faces IH]; intros H.
  - by exists [].
  - cbn [map concat app] in H. rewrite !Forall_cons in H.
    destruct H as (Hi & Hj & Hk & H). destruct (IH H) as (fv & E & Hlen).
    apply lookup_lt_is_Some_2 in Hi as [a Ha], Hj as [b Hb], Hk as [c Hc].
    cbn [Py.mapM]. rewrite (index_Some _ _ _ Ha), (index_Some _ _ _ Hb),
      (index_Some _ _ _ Hc). cbn [mbind result_bind]. rewrite E.
    cbn [mbind result_bind]. eexists. split; [done|]. cbn. by rewrite Hlen.
Qed.

(** X17. [calculate_mesh_metrics] returns [None] when no mesh was created.
    For a mesh with at least one vertex whose faces index existing vertices
    it returns one area and one normal for each face and one degree for each
    vertex; the degree of a vertex is the number of times the faces list
    it, the degrees sum to three times the number of faces, and the mean
    degree is that sum over the number of vertices. *)
Theorem mesh_metrics_count_faces vertices faces :
  vertices ≠ [] → Forall (λ i, (i < length vertices)%nat) (ravel faces) →
  calculate_mesh_metrics None = Ok None
  ∧ ∃ fm vm,
      calculate_mesh_metrics (Some (vertices, faces)) = Ok (Some (fm, vm))
      ∧ length (areas fm) = length faces
      ∧ length (normals fm) = length faces
      ∧ length (degrees vm) = length vertices
      ∧ (∀ v, (v < length vertices)%nat →
           degrees vm !! v = Some (of_nat (count_occ Nat.eq_dec (ravel faces) v)))
      ∧ Np.sum (degrees vm) = of_nat (3 * length faces)
      ∧ mean_degree vm = (of_nat (3 * length faces) / of_nat (length vertices))%float.
Proof.
  intros Hne Hidx. split; [done|].
  destruct (face_vertices_in_range vertices faces Hidx) as (fv & Efv & Hfv).
  destruct (vertex_metrics_degrees vertices faces Hne Hidx)
    as (vm & Evm & Hlen & Hdeg & Hsum & Hmean).
  unfold calculate_mesh_metrics, _calculate_face_metrics. rewrite Efv.
  cbn [mbind result_bind]. rewrite Evm. cbn [mbind result_bind].
  eexists _, vm. split; [done|]. cbn [areas normals].
  by rewrite !length_map.
Qed.

Lemma mesh_metrics_count_faces_witness :
  calculate_mesh_metrics None = Ok None
  ∧ ∃ fm vm,
      calculate_mesh_metrics (Some (quad_vertices, quad_faces)) = Ok (Some (fm, vm))
      ∧ length (areas fm) = length quad_faces
      ∧ length (normals fm) = length quad_faces
      ∧ length (degrees vm) = length quad_vertices
      ∧ (∀ v, (v < length quad_vertices)%nat →
           degrees vm !! v
           = Some (of_nat (count_occ Nat.eq_dec (ravel quad_faces) v)))
      ∧ Np.sum (degrees vm) = of_nat (3 * length quad_faces)
      ∧ mean_degree vm
        = (of_nat (3 * length quad_faces) / of_nat (length quad_vertices))%float.
Proof.
  apply (mesh_metrics_count_faces quad_vertices quad_faces); [done|].
  repeat constructor; cbn; lia.
Defined.

End mesh_orientation.

(** ** Proportions and contour of a well-formed face *)

Section face_contour.
Import GeometryAnalyzer.

Lemma feature_rows feature_indices (l : landmarks) (name : string) (n : nat) :
  finite_landmarks l → feature_ready feature_indices l name n →
  ∃ ps, feature feature_indices l name = Ok ps
        ∧ finite_landmarks ps ∧ (n <= length ps)%nat.
Proof.
  intros Hf (indices & Hi & Hn & Hr). unfold feature.
  rewrite (getitem_Some _ _ _ Hi). cbn [mbind result_bind].
  destruct (rows_finite l indices Hf Hr) as (ps & -> & Hps & Hlen).
  exists ps. split; [done|]. split; [done|lia].
Qed.

Lemma rows_lookup (l : landmarks) (indices : list nat) (ps : list point) (i : nat)
    (p : point) :
  rows l indices = Ok ps → i ∈ indices → l !! i = Some p → p ∈ ps.
Proof.
  intros H Hi Hp. apply mapM_Forall2 in H.
  destruct (elem_of_Forall2_l _ _ _ _ H Hi) as (q & Hq & Hiq).
  cbn beta in Hiq. rewrite (index_Some _ _ _ Hp) in Hiq. by injection Hiq as <-.
Qed.

(** The extent of a list of numbers that holds two different ones. *)
Lemma extent_positive (xs : list float) (a b : R) :
  Forall (λ x, is_finite x) xs → Fin a ∈ xs → Fin b ∈ xs → a < b →
  ∃ hi lo, Np.max xs = Ok (Fin hi) ∧ Np.min xs = Ok (Fin lo) ∧ 0 < hi - lo
           ∧ lo <= a ∧ b <= hi.
Proof.
  intros Hf Ha Hb Hab.
  assert (xs ≠ []) as Hne by (intros ->; by apply elem_of_nil in Ha).
  destruct (np_max_finite xs Hne Hf) as (hi & -> & _ & Hhi).
  destruct (np_min_finite xs Hne Hf) as (lo & -> & _ & Hlo).
  rewrite Forall_forall in Hhi, Hlo.
  destruct (Hhi _ Hb) as (? & [= <-] & ?). destruct (Hlo _ Ha) as (? & [= <-] & ?).
  exists hi, lo. repeat split; try done. lra.
Qed.

Lemma spans_extent (l : landmarks) (indices : list nat) (ps : list point)
    (coord : point → float) :
  (∀ p, finite_point p → is_finite (coord p)) →
  finite_landmarks ps → rows l indices = Ok ps → spans l indices coord →
  ∃ hi lo, Np.max (map coord ps) = Ok (Fin hi) ∧ Np.min (map coord ps) = Ok (Fin lo)
           ∧ 0 < hi - lo.
Proof.
  intros Hc Hps Hrows (i & j & p & q & Hi & Hj & Hp & Hq & Hlt).
  pose proof (rows_lookup _ _ _ _ _ Hrows Hi Hp) as Hpin.
  pose proof (rows_lookup _ _ _ _ _ Hrows Hj Hq) as Hqin.
  unfold finite_landmarks in Hps. rewrite Forall_forall in Hps.
  destruct (is_finite_Fin _ (Hc p (Hps p Hpin))) as [a Ea].
  destruct (is_finite_Fin _ (Hc q (Hps q Hqin))) as [b Eb].
  rewrite Ea, Eb in Hlt. cbn in Hlt. apply bool_decide_unpack in Hlt.
  destruct (extent_positive (map coord ps) a b) as (hi & lo & ? & ? & ? & _); try done.
  - apply Forall_fmap, Forall_forall. intros x Hx. by apply Hc, Hps.
  - rewrite <- Ea. by apply list_elem_of_fmap_2.
  - rewrite <- Eb. by apply list_elem_of_fmap_2.
  - by exists hi, lo.
Qed.

Lemma pmean_finite (ps : list point) :
  ps ≠ [] → finite_landmarks ps → finite_point (pmean ps).
Proof.
  intros Hne Hf. unfold pmean, finite_point. cbn [px py pz fst snd].
  repeat split; (apply mean_finite; [by destruct ps|]).
  - by apply map_px_finite.
  - by apply map_py_finite.
  - by apply map_pz_finite.
Qed.

Lemma div_nonneg_pos (a : float) (w : R) :
  nonneg a → 0 < w → nonneg (a / Fin w).
Proof.
  intros (r & -> & Hr) Hw. cbn [div]. rewrite bool_decide_eq_false_2 by lra.
  eexists. split; [done|]. by apply Rdiv_nonneg.
Qed.

(** X18. On landmarks that are numbers, with a face contour that has two
    points of different [x] and two points of different [y], eyes and a nose
    bridge of at least one landmark and a mouth of at least two,
    [calculate_proportions] returns four numbers: a positive width to height
    ratio, and eye spacing, nose and mouth ratios that are not negative. *)
Theorem proportions_defined feature_indices (l : landmarks) :
  proportions_ready feature_indices l →
  ∃ (proportions : gmap string float) (a b c d : R),
    calculate_proportions feature_indices l = Ok proportions
    ∧ proportions !! "width_height_ratio"%string = Some (Fin a) ∧ 0 < a
    ∧ proportions !! "eye_spacing_ratio"%string = Some (Fin b) ∧ 0 <= b
    ∧ proportions !! "nose_face_ratio"%string = Some (Fin c) ∧ 0 <= c
    ∧ proportions !! "mouth_face_ratio"%string = Some (Fin d) ∧ 0 <= d.
Proof.
  intros (Hf & (contour & Hci & Hcr & Hsx & Hsy) & Hle & Hre & Hnb & Hm).
  unfold calculate_proportions.
  destruct (feature_rows feature_indices l "face_contour" 0 Hf) as (cp & Ecp & Hcp & _).
  { exists contour. split; [done|]. split; [lia|done]. }
  rewrite Ecp. cbn [mbind result_bind].
  assert (rows l contour = Ok cp) as Hrows.
  { unfold feature in Ecp. by rewrite (getitem_Some _ _ _ Hci) in Ecp. }
  destruct (spans_extent l contour cp px) as (xhi & xlo & -> & -> & Hw);
    [by intros p (? & _)|done..|].
  destruct (spans_extent l contour cp py) as (yhi & ylo & -> & -> & Hh);
    [by intros p (_ & ? & _)|done..|].
  cbn [mbind result_bind sub neg add].
  destruct (feature_rows _ _ _ _ Hf Hle) as (le & -> & Hlef & Hlen).
  destruct (feature_rows _ _ _ _ Hf Hre) as (re & -> & Hreg & Hren).
  cbn [mbind result_bind].
  destruct (feature_rows _ _ _ _ Hf Hnb) as (nb & -> & Hnbf & Hnbn).
  cbn [mbind result_bind].
  destruct (index_finite nb (length nb - 1) Hnbf) as (nlast & -> & Hnlast); [lia|].
  destruct (index_finite nb 0 Hnbf) as (nfirst & -> & Hnfirst); [lia|].
  cbn [mbind result_bind].
  destruct (feature_rows _ _ _ _ Hf Hm) as (mp & -> & Hmpf & Hmpn).
  cbn [mbind result_bind].
  destruct (index_finite mp 0 Hmpf) as (m0 & -> & Hm0); [lia|].
  destruct (index_finite mp 1 Hmpf) as (m1 & -> & Hm1); [lia|].
  cbn [mbind result_bind].
  assert (nonneg (pnorm (psub (pmean re) (pmean le)))) as Heye.
  { apply pnorm_nonneg, psub_finite; apply pmean_finite; try done;
      intros ->; cbn in *; lia. }
  destruct (div_nonneg_pos _ (xhi + - xlo) Heye) as (b & Eb & Hb); [lra|].
  destruct (div_nonneg_pos (pnorm (psub nlast nfirst)) (yhi + - ylo))
    as (c & Ec & Hc); [by apply pnorm_nonneg, psub_finite|lra|].
  destruct (div_nonneg_pos (pnorm (psub m0 m1)) (xhi + - xlo))
    as (d & Ed & Hd); [by apply pnorm_nonneg, psub_finite|lra|].
  rewrite Eb, Ec, Ed. cbn [div]. rewrite bool_decide_eq_false_2 by lra.
  eexists _, _, b, c, d. split; [done|].
  dict_eval. repeat split; try done. apply Rdiv_lt_0_compat; lra.
Qed.

Lemma oval_contour_landmarks_finite : finite_landmarks oval_contour_landmarks.
Proof. by repeat constructor. Defined.

Lemma oval_feature_ready name n indices :
  small_feature_indices !! name = Some indices → (n <= length indices)%nat →
  feature_ready small_feature_indices oval_contour_landmarks name n.
Proof.
  intros Hi Hn. exists indices. split; [done|]. split; [done|].
  revert Hi. unfold small_feature_indices. rewrite lookup_list_to_map_assoc.
  cbn [assoc].
  repeat (destruct (String.eqb _ name); [intros [= <-]; repeat constructor; cbn; lia|]).
  done.
Defined.

Lemma oval_proportions_ready :
  proportions_ready small_feature_indices oval_contour_landmarks.
Proof.
  split; [exact oval_contour_landmarks_finite|]. split.
  - exists [0; 1; 2; 3]%nat. split; [unfold small_feature_indices; by dict_eval|].
    split; [repeat constructor; cbn; lia|]. split.
    + exists 0%nat, 1%nat, (Fin 100, Fin 200, Fin 0), (Fin 200, Fin 200, Fin 0).
      split; [by left|]. split; [right; by left|]. split; [done|]. split; [done|].
      cbn. apply bool_decide_pack. lra.
    + exists 3%nat, 2%nat, (Fin 150, Fin 140, Fin 0), (Fin 150, Fin 260, Fin 0).
      split; [do 3 right; by left|]. split; [do 2 right; by left|].
      split; [done|]. split; [done|]. cbn. apply bool_decide_pack. lra.
  - repeat split; (eapply oval_feature_ready;
      [unfold small_feature_indices; by dict_eval|cbn; lia]).
Defined.

Lemma proportions_defined_witness :
  ∃ (proportions : gmap string float) (a b c d : R),
    calculate_proportions small_feature_indices oval_contour_landmarks = Ok proportions
    ∧ proportions !! "width_height_ratio"%string = Some (Fin a) ∧ 0 < a
    ∧ proportions !! "eye_spacing_ratio"%string = Some (Fin b) ∧ 0 <= b
    ∧ proportions !! "nose_face_ratio"%string = Some (Fin c) ∧ 0 <= c
    ∧ proportions !! "mouth_face_ratio"%string = Some (Fin d) ∧ 0 <= d.
Proof.
  exact (proportions_defined small_feature_indices oval_contour_landmarks
           oval_proportions_ready).
Defined.

Lemma diff_length (l : list point) : length (diff l) = (length l - 1)%nat.
Proof. unfold diff. rewrite length_zip_with. destruct l; cbn; lia. Qed.

Lemma diff_finite (l : list point) : finite_landmarks l → finite_landmarks (diff l).
Proof.
  intros H. unfold diff. apply zip_with_psub_finite; [|done].
  destruct H; [constructor|done].
Qed.

Lemma smoothness_in_range (contour : list point) :
  finite_landmarks contour → (3 <= length contour)%nat →
  ∃ s, _calculate_contour_smoothness contour = Fin s ∧ 0 < s <= 1.
Proof.
  intros Hf Hlen. unfold _calculate_contour_smoothness.
  destruct (mean_nonneg (map pnorm (diff (diff contour)))) as (m & -> & Hm).
  - intros E. apply (f_equal length) in E.
    rewrite length_map, !diff_length in E. cbn in E. lia.
  - apply Forall_fmap. eapply Forall_impl; [by apply diff_finite, diff_finite|].
    intros p. apply pnorm_nonneg.
  - cbn [add div]. rewrite bool_decide_eq_false_2 by lra.
    eexists. split; [done|]. split.
    + apply Rdiv_lt_0_compat; lra.
    + apply Rdiv_le_iff; lra.
Qed.

(** X19. The smoothness of a contour of at least three points whose
    coordinates are numbers is a number greater than 0 and at most 1; the
    smoothness of a contour of fewer than three points is NaN. *)
Theorem contour_smoothness_range (contour : list point) :
  finite_landmarks contour → (3 <= length contour)%nat →
  (∃ s, _calculate_contour_smoothness contour = Fin s ∧ 0 < s <= 1)
  ∧ ∀ short : list point,
      (length short < 3)%nat → _calculate_contour_smoothness short = NaN.
Proof.
  intros Hf Hlen. split; [by apply smoothness_in_range|].
  intros short Hshort. unfold _calculate_contour_smoothness.
  assert (diff (diff short) = []) as ->.
  { apply length_zero_iff_nil. rewrite !diff_length. lia. }
  unfold Np.mean, Np.sum, of_nat. cbn [map foldl length INR div add].
  by rewrite !bool_decide_eq_true_2 by done.
Qed.

Lemma quad_vertices_finite : finite_landmarks quad_vertices.
Proof. by repeat constructor. Defined.

Lemma contour_smoothness_range_witness :
  (∃ s, _calculate_contour_smoothness quad_vertices = Fin s ∧ 0 < s <= 1)
  ∧ ∀ short : list point,
      (length short < 3)%nat → _calculate_contour_smoothness short = NaN.
Proof.
  apply (contour_smoothness_range quad_vertices quad_vertices_finite). cbn. lia.
Defined.

Lemma finite_sublist (l k : list point) :
  (∀ p, p ∈ k → p ∈ l) → finite_landmarks l → finite_landmarks k.
Proof.
  intros Hsub Hl. apply Forall_forall. intros p Hp.
  unfold finite_landmarks in Hl. rewrite Forall_forall in Hl. by apply Hl, Hsub.
Qed.

Lemma norms_nonneg (l : list point) :
  finite_landmarks l → Forall nonneg (map pnorm l).
Proof.
  intros H. apply Forall_fmap. eapply Forall_impl; [exact H|]. intros p. apply pnorm_nonneg.
Qed.

Lemma min_min_l (a b : nat) : Nat.min (Nat.min a b) a = Nat.min a b.
Proof. apply Nat.min_l, Nat.le_min_l. Qed.

Lemma min_min_r (a b : nat) : Nat.min (Nat.min a b) b = Nat.min a b.
Proof. apply Nat.min_l, Nat.le_min_r. Qed.

Lemma contour_symmetry_value (contour : list point) :
  contour ≠ [] → finite_landmarks contour →
  ∃ sym,
    _calculate_contour_symmetry contour = Ok sym
    ∧ (left_of_center contour = [] ∨ right_of_center contour = [] → sym = NaN)
    ∧ (left_of_center contour ≠ [] → right_of_center contour ≠ [] →
       ∃ r, sym = Fin r ∧ r <= 1).
Proof.
  intros Hne Hf. unfold _calculate_contour_symmetry.
  fold (left_of_center contour). fold (right_of_center contour).
  destruct (pmean_finite contour Hne Hf) as (Hcx & _).
  apply is_finite_Fin in Hcx as [cx Ecx]. rewrite Ecx.
  set (left := left_of_center contour). set (right := right_of_center contour).
  set (mirrored := map _ right).
  assert (finite_landmarks left) as Hl.
  { apply (finite_sublist contour); [|done]. intros p Hp.
    by apply list_elem_of_filter in Hp as [_ ?]. }
  assert (finite_landmarks right) as Hr.
  { apply (finite_sublist contour); [|done]. intros p Hp.
    by apply list_elem_of_filter in Hp as [_ ?]. }
  assert (finite_landmarks mirrored) as Hm.
  { apply Forall_fmap. eapply Forall_impl; [exact Hr|]. intros p Hp.
    apply finite_point_Fin in Hp as (x & y & z & ->). by repeat split. }
  assert (length mirrored = length right) as Hlen by apply length_map.
  set (n := Nat.min (length left) (length mirrored)).
  rewrite array_sub_same_length
    by (rewrite !length_take; unfold n; by rewrite min_min_l, min_min_r).
  cbn [mbind result_bind].
  assert (map px contour ≠ []) as Hxne by (by destruct contour).
  destruct (np_max_finite _ Hxne (map_px_finite _ Hf)) as (hi & Ehi & _ & Hhi).
  destruct (np_min_finite _ Hxne (map_px_finite _ Hf)) as (lo & Elo & _ & Hlo).
  rewrite Ehi, Elo. cbn [mbind result_bind sub neg add].
  set (d := zip_with psub (take n left) (take n mirrored)).
  assert (length d = n) as Hd.
  { unfold d. rewrite length_zip_with, !length_take. unfold n.
    rewrite min_min_l, min_min_r. apply Nat.min_id. }
  eexists. split; [done|]. split.
  - intros Hempty. assert (d = []) as ->.
    { apply length_zero_iff_nil. rewrite Hd. unfold n. rewrite Hlen.
      destruct Hempty as [E|E]; fold left right in E; rewrite E; cbn; lia. }
    unfold Np.mean, Np.sum, of_nat. cbn [map foldl length INR div].
    by rewrite !bool_decide_eq_true_2 by done.
  - intros Hln Hrn. fold left in Hln. fold right in Hrn.
    destruct (mean_nonneg (map pnorm d)) as (a & -> & Ha).
    + intros E. apply (f_equal length) in E. rewrite length_map, Hd in E.
      unfold n in E. rewrite Hlen in E. destruct left, right; cbn in E; done || lia.
    + apply norms_nonneg. unfold d. apply zip_with_psub_finite.
      * apply (finite_sublist left); [|done]. intros p Hp. eapply elem_of_sublist; [exact Hp|apply sublist_take].
      * apply (finite_sublist mirrored); [|done]. intros p Hp. eapply elem_of_sublist; [exact Hp|apply sublist_take].
    + assert (0 < hi + - lo) as Hw.
      { destruct left as [|p left'] eqn:El; [done|].
        destruct right as [|q right'] eqn:Er; [done|].
        assert (p ∈ left_of_center contour) as Hp by (fold left; rewrite El; left).
        assert (q ∈ right_of_center contour) as Hq by (fold right; rewrite Er; left).
        apply list_elem_of_filter in Hp as [Hpx Hpin].
        apply list_elem_of_filter in Hq as [Hqx Hqin].
        rewrite Ecx in Hpx, Hqx. unfold gtb in Hqx.
        rewrite Forall_forall in Hhi, Hlo.
        destruct (Hlo (px p)) as (xp & Exp & Hxp); [by apply list_elem_of_fmap_2|].
        destruct (Hhi (px q)) as (xq & Exq & Hxq); [by apply list_elem_of_fmap_2|].
        rewrite Exp in Hpx. rewrite Exq in Hqx. cbn in Hpx, Hqx.
        apply bool_decide_eq_true_1 in Hpx, Hqx. lra. }
      cbn [div]. rewrite bool_decide_eq_false_2 by lra. cbn [neg add].
      eexists. split; [done|].
      assert (0 <= a / (hi + - lo)) by (apply Rdiv_nonneg; lra). lra.
Qed.

(** X20. On landmarks that are numbers, with a face contour of at least
    three existing landmarks, [analyze_face_contour] returns a length that is
    a number and not negative, a smoothness greater than 0 and at most 1,
    and a symmetry that is NaN when no contour point lies strictly left, or
    none strictly right, of the mean [x] of the contour, and a number that is
    at most 1 otherwise. *)
Theorem face_contour_metrics feature_indices (l : landmarks) :
  finite_landmarks l → feature_ready feature_indices l "face_contour" 3 →
  ∃ contour (metrics : gmap string float) (len s : R) (sym : float),
    feature feature_indices l "face_contour" = Ok contour
    ∧ analyze_face_contour feature_indices l = Ok metrics
    ∧ metrics !! "length"%string = Some (Fin len) ∧ 0 <= len
    ∧ metrics !! "smoothness"%string = Some (Fin s) ∧ 0 < s <= 1
    ∧ metrics !! "symmetry"%string = Some sym
    ∧ (left_of_center contour = [] ∨ right_of_center contour = [] → sym = NaN)
    ∧ (left_of_center contour ≠ [] → right_of_center contour ≠ [] →
       ∃ r, sym = Fin r ∧ r <= 1).
Proof.
  intros Hf Hready. unfold analyze_face_contour.
  destruct (feature_rows _ _ _ _ Hf Hready) as (contour & Ec & Hcf & Hlen).
  rewrite Ec. cbn [mbind result_bind].
  rewrite array_sub_same_length by (rewrite length_drop, length_take; lia).
  cbn [mbind result_bind].
  destruct (contour_symmetry_value contour) as (sym & -> & Hnan & Hnum);
    [intros ->; cbn in Hlen; lia|done|].
  cbn [mbind result_bind].
  destruct (smoothness_in_range contour Hcf Hlen) as (s & -> & Hs).
  destruct (sum_nonneg_from 0
              (map pnorm (zip_with psub (drop 1 contour)
                            (take (length contour - 1) contour))))
    as (len & Elen & Hl0).
  { apply norms_nonneg, zip_with_psub_finite.
    - apply (finite_sublist contour); [|done]. intros p Hp. eapply elem_of_sublist; [exact Hp|apply sublist_drop].
    - apply (finite_sublist contour); [|done]. intros p Hp. eapply elem_of_sublist; [exact Hp|apply sublist_take]. }
  unfold Np.sum. rewrite Elen.
  exists contour. eexists _, len, s, sym. split; [done|]. split; [done|].
  dict_eval. split; [done|]. split; [lra|]. split; [done|]. split; [done|].
  split; [done|]. split; [exact Hnan|exact Hnum].
Qed.

Lemma oval_contour_ready :
  feature_ready small_feature_indices oval_contour_landmarks "face_contour" 3.
Proof.
  eapply oval_feature_ready; [unfold small_feature_indices; by dict_eval|cbn; lia].
Defined.

Lemma face_contour_metrics_witness :
  ∃ contour (metrics : gmap string float) (len s : R) (sym : float),
    feature small_feature_indices oval_contour_landmarks "face_contour" = Ok contour
    ∧ analyze_face_contour small_feature_indices oval_contour_landmarks = Ok metrics
    ∧ metrics !! "length"%string = Some (Fin len) ∧ 0 <= len
    ∧ metrics !! "smoothness"%string = Some (Fin s) ∧ 0 < s <= 1
    ∧ metrics !! "symmetry"%string = Some sym
    ∧ (left_of_center contour = [] ∨ right_of_center contour = [] → sym = NaN)
    ∧ (left_of_center contour ≠ [] → right_of_center contour ≠ [] →
       ∃ r, sym = Fin r ∧ r <= 1).
Proof.
  exact (face_contour_metrics small_feature_indices oval_contour_landmarks
           oval_contour_landmarks_finite oval_contour_ready).
Defined.

End face_contour.

(** ** Normalized depths *)

Section normalized_depth_order.
Import DepthMapper.

(** X21. For landmarks that are numbers, a face contour with a width and a
    height, and a positive image width and resolution, the normalized depths
    that [create_depth_map] interpolates are numbers, one for each landmark:
    the depth of the nose tip is 0, landmarks of equal depth get equal
    values, and a landmark that is deeper than another gets a greater
    value. *)
Theorem normalized_depths_keep_order image_width nose_tip face_contour
    (l : landmarks) (resolution : Z * Z) :
  finite_landmarks l → (nose_tip < length l)%nat →
  Forall (λ i, (i < length l)%nat) face_contour →
  spans l face_contour px → spans l face_contour py →
  (0 < image_width)%Z → (0 < resolution.1)%Z →
  ∃ depths,
    normalized_depths image_width nose_tip face_contour l resolution = Ok depths
    ∧ length depths = length l
    ∧ depths !! nose_tip = Some (Fin 0)
    ∧ ∀ i j p q, l !! i = Some p → l !! j = Some q →
        ∃ a b, depths !! i = Some (Fin a) ∧ depths !! j = Some (Fin b)
               ∧ ((pz p <? pz q)%float → a < b)
               ∧ (pz p = pz q → a = b).
Proof.
  intros Hf Hnose Hc Hsx Hsy Hiw Hres. unfold normalized_depths.
  destruct (index_finite l nose_tip Hf Hnose) as (nose & En & Hnf).
  rewrite En. cbn [mbind result_bind].
  destruct (rows_finite l face_contour Hf Hc) as (fp & Efp & Hfp & _).
  rewrite Efp. cbn [mbind result_bind].
  destruct (spans_extent l face_contour fp px) as (xhi & xlo & -> & -> & Hw);
    [by intros p (? & _)|done..|].
  destruct (spans_extent l face_contour fp py) as (yhi & ylo & -> & -> & Hh);
    [by intros p (_ & ? & _)|done..|].
  cbn [mbind result_bind sub neg add mul Float.sqrt].
  assert (0 < IZR image_width) as Hiw' by (by apply IZR_lt).
  assert (0 < IZR resolution.1) as Hres' by (by apply IZR_lt).
  assert (0 < (xhi + - xlo) * (yhi + - ylo)) as Hwh by nra.
  rewrite (bool_decide_eq_false_2 (_ * _ < 0)) by lra.
  unfold Py.truediv, of_Z. cbn [eqb].
  rewrite (bool_decide_eq_false_2 (IZR image_width = 0)) by lra.
  cbn [div mbind result_bind].
  rewrite (bool_decide_eq_false_2 (IZR image_width = 0)) by lra. cbn [mul].
  set (k := R_sqrt.sqrt ((xhi + - xlo) * (yhi + - ylo))
            * (0.1 * (IZR resolution.1 / IZR image_width))).
  assert (0 < k) as Hk.
  { unfold k. apply Rmult_lt_0_compat; [by apply sqrt_lt_R0|].
    apply Rmult_lt_0_compat; [lra|]. by apply Rdiv_lt_0_compat. }
  destruct (finite_point_Fin _ Hnf) as (nx & ny & nz & ->). cbn [pz snd].
  assert (∀ i p, l !! i = Some p →
            ∃ z, pz p = Fin z
                 ∧ map (λ d, (d / Fin k)%float) (map (λ p, (pz p - Fin nz)%float) l) !! i
                   = Some (Fin ((z + - nz) / k))) as Hrow.
  { intros i p Hp. unfold finite_landmarks in Hf. rewrite Forall_lookup in Hf.
    destruct (finite_point_Fin _ (Hf i p Hp)) as (x & y & z & ->). exists z.
    split; [done|]. rewrite !lookup_map. unfold landmarks in Hp. rewrite Hp. cbn [fmap option_fmap option_map
      pz snd sub neg add div]. by rewrite bool_decide_eq_false_2 by lra. }
  eexists. split; [done|]. split; [by rewrite !length_map|]. split.
  - apply index_Ok_inv in En. destruct (Hrow _ _ En) as (z & [= <-] & ->).
    do 2 f_equal. unfold Rdiv. lra.
  - intros i j p q Hp Hq. destruct (Hrow _ _ Hp) as (zp & Ezp & ->).
    destruct (Hrow _ _ Hq) as (zq & Ezq & ->). exists ((zp + - nz) / k), ((zq + - nz) / k).
    split; [done|]. split; [done|]. rewrite Ezp, Ezq. split.
    + cbn [ltb]. intros Hlt%bool_decide_unpack.
      unfold Rdiv. apply Rmult_lt_compat_r; [by apply Rinv_0_lt_compat|lra].
    + by intros [= ->].
Qed.

Lemma square_landmarks_finite : finite_landmarks square_landmarks.
Proof.
  unfold square_landmarks. apply Forall_app. split; [by repeat constructor|].
  apply Forall_replicate. by repeat split.
Defined.

Lemma square_spans_x : spans square_landmarks square_contour px.
Proof.
  exists 0%nat, 1%nat, (Fin 0, Fin 0, Fin 0), (Fin 1, Fin 0, Fin 0).
  split; [by left|]. split; [right; by left|]. split; [done|]. split; [done|].
  cbn. apply bool_decide_pack. lra.
Defined.

Lemma square_spans_y : spans square_landmarks square_contour py.
Proof.
  exists 0%nat, 2%nat, (Fin 0, Fin 0, Fin 0), (Fin 1, Fin 1, Fin 0).
  split; [by left|]. split; [do 2 right; by left|]. split; [done|]. split; [done|].
  cbn. apply bool_decide_pack. lra.
Defined.

Lemma normalized_depths_keep_order_witness :
  ∃ depths,
    normalized_depths 4 square_nose_tip square_contour square_landmarks (4, 4)%Z
    = Ok depths
    ∧ length depths = length square_landmarks
    ∧ depths !! square_nose_tip = Some (Fin 0)
    ∧ ∀ i j p q, square_landmarks !! i = Some p → square_landmarks !! j = Some q →
        ∃ a b, depths !! i = Some (Fin a) ∧ depths !! j = Some (Fin b)
               ∧ ((pz p <? pz q)%float → a < b)
               ∧ (pz p = pz q → a = b).
Proof.
  apply (normalized_depths_keep_order 4 square_nose_tip square_contour
           square_landmarks (4, 4)%Z square_landmarks_finite).
  - unfold square_landmarks, square_nose_tip. rewrite length_app, length_replicate.
    cbn. lia.
  - unfold square_landmarks, square_contour. rewrite length_app, length_replicate.
    repeat constructor; cbn; lia.
  - exact square_spans_x.
  - exact square_spans_y.
  - lia.
  - cbn. lia.
Defined.

End normalized_depth_order.
